(** * Vwarp: the preflight bind (wireguard/preflightbind/preflight_bind.go)

    A shallow embedding of the obfuscation engine that wraps a WireGuard
    [conn.Bind]: the CPS template parser, the junk-packet generator, the
    per-destination rate limiter and the phased decoy sequence around a
    handshake initiation, followed by the properties of the engine.

    Conventions.
    - A Go [string] is a [string] (a sequence of 8-bit characters); a Go
      [[]byte] is a [list byte] with [byte := Z], every element in [0,256).
    - A Go [int] is a 64-bit two's complement integer: a [Z], with [wrap64]
      written at every addition and subtraction of the source.
    - The environment (wall clock, crypto/rand, math/rand, the network) is a
      [World]; effectful code is a function [World -> Outcome A] that either
      finishes with a value or panics. *)

From Stdlib Require Import ZArith String Ascii List Lia Bool.
From stdpp Require Import gmap strings.
Import ListNotations.

Local Open Scope string_scope.
Local Open Scope list_scope.
Local Open Scope Z_scope.

(** ** Machine integers and bytes *)

Definition byte := Z.

(** Go's conversion [byte(x)] of an integer. *)
Definition to_byte (x : Z) : byte := x mod 256.

(** Go's conversion [uint32(x)]. *)
Definition uint32 (x : Z) : Z := x mod 2 ^ 32.

Definition MinInt : Z := - 2 ^ 63.
Definition MaxInt : Z := 2 ^ 63 - 1.

(** The value a 64-bit [int] holds after an arithmetic result [x]. *)
Definition wrap64 (x : Z) : Z := (x + 2 ^ 63) mod 2 ^ 64 - 2 ^ 63.

Definition is_int (x : Z) : Prop := MinInt <= x <= MaxInt.

(** The code of a character of a Go string, as a [byte]. *)
Definition code (a : ascii) : Z := Z.of_N (N_of_ascii a).

(** ** Results and errors *)

Inductive Res (E A : Type) : Type :=
| Ok (a : A)
| Err (e : E).
Arguments Ok {E A} a.
Arguments Err {E A} e.

(** encoding/hex: [InvalidByteError] and [ErrLength]. *)
Inductive HexError : Type :=
| InvalidByteError (c : ascii)
| ErrLength.

(** strconv: the two causes carried by a [*NumError]. *)
Inductive NumError : Type :=
| ErrSyntax
| ErrRange.

(** The three errors [parseCPSPacket] returns. *)
Inductive CPSError : Type :=
| InvalidHexData (e : HexError)     (* "invalid hex data in <b> tag" *)
| InvalidLength (e : NumError)      (* "invalid length in <r> tag" *)
| RandomFailed.                     (* "failed to generate random bytes" *)

(** ** The library functions on strings that the parser calls *)

Module GoStrings.

(** [strings.HasPrefix]. *)
Fixpoint HasPrefix (s p : string) : bool :=
  match p, s with
  | EmptyString, _ => true
  | String b p', String a s' => Ascii.eqb a b && HasPrefix s' p'
  | String _ _, EmptyString => false
  end.

(** The slice expression [s[n:]] for [n <= len(s)]. *)
Fixpoint slice_from (n : nat) (s : string) : string :=
  match n, s with
  | O, _ => s
  | S n', String _ s' => slice_from n' s'
  | S _, EmptyString => EmptyString
  end.

(** [strings.ReplaceAll(s, " ", "")]: every U+0020 is removed. *)
Fixpoint remove_spaces (s : string) : string :=
  match s with
  | EmptyString => EmptyString
  | String a s' =>
      if Ascii.eqb a " " then remove_spaces s' else String a (remove_spaces s')
  end.

(** The ASCII white space of [strings.TrimSpace]:
    '\t', '\n', '\v', '\f', '\r', ' '. *)
Definition ascii_space (a : ascii) : bool :=
  let c := code a in
  (9 <=? c) && (c <=? 13) || (c =? 32).

(** The UTF-8 encodings of the white space above U+007F
    ([unicode.IsSpace]): U+0085, U+00A0 in two bytes; U+1680,
    U+2000..U+200A, U+2028, U+2029, U+202F, U+205F, U+3000 in three. *)
Definition space2 (a b : ascii) : bool :=
  (code a =? 194) && ((code b =? 133) || (code b =? 160)).

Definition space3 (a b c : ascii) : bool :=
  let x := code a in let y := code b in let z := code c in
  (x =? 225) && (y =? 154) && (z =? 128)
  || (x =? 226) && (y =? 128)
     && ((128 <=? z) && (z <=? 138) || (z =? 168) || (z =? 169) || (z =? 175))
  || (x =? 226) && (y =? 129) && (z =? 159)
  || (x =? 227) && (y =? 128) && (z =? 128).

(** [strings.TrimLeftFunc(s, unicode.IsSpace)]: runes are decoded from the
    front, an invalid byte decodes to U+FFFD and stops the trimming. *)
Fixpoint trim_left (s : string) : string :=
  match s with
  | EmptyString => EmptyString
  | String a s1 =>
      if ascii_space a then trim_left s1
      else match s1 with
           | EmptyString => s
           | String b s2 =>
               if space2 a b then trim_left s2
               else match s2 with
                    | EmptyString => s
                    | String c s3 => if space3 a b c then trim_left s3 else s
                    end
           end
  end.

(** The same from the back, on the reversed list of characters: the last
    rune is found by stepping back to its leading byte. *)
Fixpoint trim_left_rev (r : list ascii) : list ascii :=
  match r with
  | [] => []
  | a :: r1 =>
      if ascii_space a then trim_left_rev r1
      else match r1 with
           | [] => r
           | b :: r2 =>
               if space2 b a then trim_left_rev r2
               else match r2 with
                    | [] => r
                    | c :: r3 => if space3 c b a then trim_left_rev r3 else r
                    end
           end
  end.

Definition trim_right (s : string) : string :=
  string_of_list_ascii (rev (trim_left_rev (rev (list_ascii_of_string s)))).

(** [strings.TrimSpace]. *)
Definition TrimSpace (s : string) : string := trim_right (trim_left s).

End GoStrings.

(** ** encoding/hex *)

Module GoHex.

(** [fromHexChar]: the value of a hexadecimal digit. *)
Definition fromHexChar (a : ascii) : option Z :=
  let c := code a in
  if (48 <=? c) && (c <=? 57) then Some (c - 48)
  else if (97 <=? c) && (c <=? 102) then Some (c - 97 + 10)
  else if (65 <=? c) && (c <=? 70) then Some (c - 65 + 10)
  else None.

(** [hex.DecodeString]: pairs of digits from the left; the first invalid
    character is reported, an odd length after the last full pair. *)
Fixpoint DecodeString (s : string) : Res HexError (list byte) :=
  match s with
  | EmptyString => Ok []
  | String p EmptyString =>
      match fromHexChar p with
      | None => Err (InvalidByteError p)
      | Some _ => Err ErrLength
      end
  | String p (String q rest) =>
      match fromHexChar p with
      | None => Err (InvalidByteError p)
      | Some a =>
          match fromHexChar q with
          | None => Err (InvalidByteError q)
          | Some b =>
              match DecodeString rest with
              | Ok bytes => Ok (Z.lor (Z.shiftl a 4) b :: bytes)
              | Err e => Err e
              end
          end
      end
  end.

End GoHex.

(** ** strconv.Atoi *)

Module GoStrconv.

Definition digit (a : ascii) : option Z :=
  let c := code a in
  if (48 <=? c) && (c <=? 57) then Some (c - 48) else None.

(** [ParseUint(s, 10, 64)] after the emptiness test: the digits are
    accumulated in a [uint64]; a character that is not a digit is a syntax
    error, an accumulator that would pass [2^64 - 1] a range error. *)
Fixpoint parse_digits (s : string) (n : Z) : Res NumError Z :=
  match s with
  | EmptyString => Ok n
  | String a s' =>
      match digit a with
      | None => Err ErrSyntax
      | Some d =>
          if (2 ^ 64 - 1) / 10 + 1 <=? n then Err ErrRange
          else
            let n1 := n * 10 + d in
            if 2 ^ 64 - 1 <? n1 then Err ErrRange else parse_digits s' n1
      end
  end.

Definition ParseUint (s : string) : Res NumError Z :=
  match s with
  | EmptyString => Err ErrSyntax
  | _ => parse_digits s 0
  end.

(** [ParseInt(s, 10, 0)] on a 64-bit platform. *)
Definition ParseInt (s : string) : Res NumError Z :=
  match s with
  | EmptyString => Err ErrSyntax
  | String a s' =>
      let neg := Ascii.eqb a "-" in
      let digits := if Ascii.eqb a "+" || neg then s' else s in
      match ParseUint digits with
      | Err ErrSyntax => Err ErrSyntax
      | Err ErrRange => Err ErrRange
      | Ok un =>
          if negb neg && (2 ^ 63 <=? un) then Err ErrRange
          else if neg && (2 ^ 63 <? un) then Err ErrRange
          else Ok (if neg then - un else un)
      end
  end.

(** [strconv.Atoi]: its fast path for fewer than 19 characters computes
    the same value and the same error as [ParseInt]. *)
Definition Atoi (s : string) : Res NumError Z := ParseInt s.

End GoStrconv.

(** ** The tag regular expression

    [tagRegex] matches a '<', one of the letters b, t, c, r (group 1), any
    run of white space, any run of characters other than '>' (group 2), and
    a '>'. A match therefore starts at a '<' followed by one of the four
    letters and ends at the first '>' after it (the negated class accepts
    every other character, line breaks included); the greedy white-space
    run takes the characters of [\t\n\f\r ] that follow the letter, so
    group 2 is the rest up to the '>'. [FindAllStringSubmatch] returns the
    leftmost matches, each search resuming after the previous match. *)

Module TagRegex.

Definition tag_letter (a : ascii) : bool :=
  Ascii.eqb a "b" || Ascii.eqb a "t" || Ascii.eqb a "c" || Ascii.eqb a "r".

(** The class [\s] of Go's regexp syntax. *)
Definition re_space (a : ascii) : bool :=
  let c := code a in
  (c =? 9) || (c =? 10) || (c =? 12) || (c =? 13) || (c =? 32).

Fixpoint skip_space (s : string) : string :=
  match s with
  | EmptyString => EmptyString
  | String a s' => if re_space a then skip_space s' else s
  end.

(** Splits at the first '>': the text before it and the text after it. *)
Fixpoint cut_at_gt (s : string) : option (string * string) :=
  match s with
  | EmptyString => None
  | String a s' =>
      if Ascii.eqb a ">" then Some (EmptyString, s')
      else match cut_at_gt s' with
           | Some (body, rest) => Some (String a body, rest)
           | None => None
           end
  end.

(** One submatch: the groups 1 and 2 ([match[1]], [match[2]]). *)
Definition submatch : Type := ascii * string.

Fixpoint find_from (fuel : nat) (s : string) : list submatch :=
  match fuel with
  | O => []
  | S fuel' =>
      match s with
      | EmptyString => []
      | String a s1 =>
          match s1 with
          | String t s2 =>
              if Ascii.eqb a "<" && tag_letter t then
                match cut_at_gt s2 with
                | Some (body, rest) => (t, skip_space body) :: find_from fuel' rest
                | None => find_from fuel' s1
                end
              else find_from fuel' s1
          | EmptyString => []
          end
      end
  end.

Definition FindAllStringSubmatch (s : string) : list submatch :=
  find_from (String.length s) s.

End TagRegex.

(** ** The environment *)

(** A [time.Time]: nanoseconds since the Unix epoch; the wall clock and the
    monotonic clock are taken to agree, and the location plays no part. *)
Definition Time := Z.

(** [netip.Addr], in the textual form [String()] returns. *)
Definition Addr := string.

(** A [conn.Endpoint] that is not nil; the engine only calls [DstIP()] on it. *)
Record Endpoint : Type := { DstIP : Addr }.

(** The program point of a [conn.Write] or [conn.WriteTo]. *)
Inductive Site : Type :=
| AtI1              (* executeMinimalPreHandshakeSequence, the cached I1 *)
| AtSignature       (* executeFastPreHandshakeSequence, I2..I5 *)
| AtJunk            (* sendUDPPacket, data of positive length *)
| AtZeroDial        (* sendStandardZeroByte, method 1 *)
| AtZeroPacketConn  (* sendStandardZeroByte, method 2 *)
| AtSimple.         (* executeSimplePreflight *)

(** What the engine does to the outside, in order. *)
Inductive Event : Type :=
| EvWrite (site : Site) (host : string) (port : Z) (data : list byte)
| EvSendUDP (host : string) (data : list byte)   (* sendUDPPacket is entered *)
| EvSleep (d : Z)                                (* time.Sleep *)
| EvGo (host : string)       (* go b.executePostHandshakeSequence(host) *)
| EvInner (bufs : list (list byte)) (dst : Addr). (* for a wrapped transport *)

(** The clock, the two random sources and the network are oracles, each
    with the number of answers already used. *)
Record World : Type := {
  w_clock : nat -> Time;    (* what the k-th time.Now() returns *)
  w_tick : nat;
  w_crypto : nat -> Z;      (* the stream of crypto/rand *)
  w_cpos : nat;
  w_cfail : nat -> bool;    (* whether the k-th rand.Read returns an error *)
  w_ccalls : nat;
  w_rng : nat -> Z;         (* the raw draws of the math/rand generator rng *)
  w_rpos : nat;
  w_net : nat -> bool;      (* whether the k-th dial, listen or resolve succeeds *)
  w_ncalls : nat;
  w_trace : list Event
}.

Inductive Outcome (A : Type) : Type :=
| Done (a : A) (w : World)
| Panic (msg : string) (w : World).
Arguments Done {A} a w.
Arguments Panic {A} msg w.

Definition M (A : Type) : Type := World -> Outcome A.

Definition ret {A} (a : A) : M A := fun w => Done a w.

Definition bind {A B} (m : M A) (k : A -> M B) : M B :=
  fun w => match m w with
           | Done a w' => k a w'
           | Panic msg w' => Panic msg w'
           end.

Notation "x <- m ;; k" := (bind m (fun x => k))
  (at level 100, m at next level, right associativity).
Notation "m ;;; k" := (bind m (fun _ => k))
  (at level 100, right associativity).

Definition panic {A} (msg : string) : M A := fun w => Panic msg w.

Definition world_of {A} (o : Outcome A) : World :=
  match o with Done _ w => w | Panic _ w => w end.

(** [time.Now()]. *)
Definition time_Now : M Time := fun w =>
  Done (w_clock w (w_tick w))
       {| w_clock := w_clock w; w_tick := S (w_tick w);
          w_crypto := w_crypto w; w_cpos := w_cpos w;
          w_cfail := w_cfail w; w_ccalls := w_ccalls w;
          w_rng := w_rng w; w_rpos := w_rpos w;
          w_net := w_net w; w_ncalls := w_ncalls w; w_trace := w_trace w |}.

(** [t.Unix()]: the seconds since the epoch, rounded down. *)
Definition Unix (t : Time) : Z := t / 1000000000.

(** [rand.Read(buf)] of crypto/rand on a buffer of [n] bytes: [None] is an
    error, otherwise the next [n] bytes of the stream. *)
Definition rand_Read (n : nat) : M (option (list byte)) := fun w =>
  let fails := w_cfail w (w_ccalls w) in
  let bytes := map (fun i => to_byte (w_crypto w (w_cpos w + i)%nat)) (seq 0 n) in
  Done (if fails then None else Some bytes)
       {| w_clock := w_clock w; w_tick := w_tick w;
          w_crypto := w_crypto w;
          w_cpos := if fails then w_cpos w else (w_cpos w + n)%nat;
          w_cfail := w_cfail w; w_ccalls := S (w_ccalls w);
          w_rng := w_rng w; w_rpos := w_rpos w;
          w_net := w_net w; w_ncalls := w_ncalls w; w_trace := w_trace w |}.

(** [rng.Intn(n)]: panics for [n <= 0], otherwise a value in [0, n). *)
Definition rng_Intn (n : Z) : M Z := fun w =>
  if n <=? 0 then Panic "invalid argument to Intn" w
  else Done (w_rng w (w_rpos w) mod n)
            {| w_clock := w_clock w; w_tick := w_tick w;
               w_crypto := w_crypto w; w_cpos := w_cpos w;
               w_cfail := w_cfail w; w_ccalls := w_ccalls w;
               w_rng := w_rng w; w_rpos := S (w_rpos w);
               w_net := w_net w; w_ncalls := w_ncalls w; w_trace := w_trace w |}.

(** The outcome of [net.DialTimeout], [net.ListenPacket] or
    [net.ResolveUDPAddr]: [true] when no error is returned. *)
Definition net_try : M bool := fun w =>
  Done (w_net w (w_ncalls w))
       {| w_clock := w_clock w; w_tick := w_tick w;
          w_crypto := w_crypto w; w_cpos := w_cpos w;
          w_cfail := w_cfail w; w_ccalls := w_ccalls w;
          w_rng := w_rng w; w_rpos := w_rpos w;
          w_net := w_net w; w_ncalls := S (w_ncalls w); w_trace := w_trace w |}.

Definition emit (e : Event) : M unit := fun w =>
  Done tt
       {| w_clock := w_clock w; w_tick := w_tick w;
          w_crypto := w_crypto w; w_cpos := w_cpos w;
          w_cfail := w_cfail w; w_ccalls := w_ccalls w;
          w_rng := w_rng w; w_rpos := w_rpos w;
          w_net := w_net w; w_ncalls := w_ncalls w;
          w_trace := w_trace w ++ [e] |}.

Definition time_Sleep (d : Z) : M unit := emit (EvSleep d).

Definition Millisecond : Z := 1000000.

(** ** The CPS parser *)

(** The four bytes [byte(x >> 24), byte(x >> 16), byte(x >> 8), byte(x)]. *)
Definition be32 (x : Z) : list byte :=
  [to_byte (Z.shiftr x 24); to_byte (Z.shiftr x 16);
   to_byte (Z.shiftr x 8); to_byte x].

(** The body of the loop over the matches: [result] so far and one match. *)
Definition cps_tag (result : list byte) (m : TagRegex.submatch)
  : M (Res CPSError (list byte)) :=
  let tagType := fst m in
  let tagData := GoStrings.TrimSpace (snd m) in
  if Ascii.eqb tagType "b" then
    if String.eqb tagData "" then ret (Ok result)
    else
      let tagData :=
        if GoStrings.HasPrefix tagData "0x" || GoStrings.HasPrefix tagData "0X"
        then GoStrings.slice_from 2 tagData else tagData in
      let tagData := GoStrings.remove_spaces tagData in
      match GoHex.DecodeString tagData with
      | Err e => ret (Err (InvalidHexData e))
      | Ok bytes => ret (Ok (result ++ bytes))
      end
  else if Ascii.eqb tagType "c" then
    now <- time_Now ;;
    let counter := uint32 (Z.rem (Unix now) 4294967295) in
    ret (Ok (result ++ be32 counter))
  else if Ascii.eqb tagType "t" then
    now <- time_Now ;;
    let timestamp := uint32 (Unix now) in
    ret (Ok (result ++ be32 timestamp))
  else if Ascii.eqb tagType "r" then
    match (if String.eqb tagData "" then Ok 0
           else match GoStrconv.Atoi tagData with
                | Err e => Err e
                | Ok length => Ok (if 1000 <? length then 1000 else length)
                end) with
    | Err e => ret (Err (InvalidLength e))
    | Ok length =>
        if 0 <? length then
          r <- rand_Read (Z.to_nat length) ;;
          match r with
          | None => ret (Err RandomFailed)
          | Some randomBytes => ret (Ok (result ++ randomBytes))
          end
        else ret (Ok result)
    end
  else ret (Ok result).

Fixpoint cps_loop (matches : list TagRegex.submatch) (result : list byte)
  : M (Res CPSError (list byte)) :=
  match matches with
  | [] => ret (Ok result)
  | m :: rest =>
      r <- cps_tag result m ;;
      match r with
      | Err e => ret (Err e)
      | Ok result' => cps_loop rest result'
      end
  end.

(** [parseCPSPacket]; the nil slice and the empty slice are both [[]]. *)
Definition parseCPSPacket (cps : string) : M (Res CPSError (list byte)) :=
  if String.eqb cps "" then ret (Ok [])
  else cps_loop (TagRegex.FindAllStringSubmatch cps) [].

(** ** Configuration and the bind *)

Record AmneziaConfig : Type := {
  I1 : string; I2 : string; I3 : string; I4 : string; I5 : string;
  S1 : Z; S2 : Z;
  Jc : Z; Jmin : Z; Jmax : Z;
  JcAfterI1 : Z; JcBeforeHS : Z; JcAfterHS : Z;
  JunkInterval : Z;          (* time.Duration, nanoseconds *)
  AllowZeroSize : bool;
  HandshakeDelay : Z
}.

(** The method [Send] of the wrapped [conn.Bind]; [None] is the nil error. *)
Definition Transport : Type :=
  list (list byte) -> Endpoint -> M (option string).

(** The struct [Bind]. The mutex [mu] guards [lastSent]; here each critical
    section is one step. A nil [payload] is the empty list. *)
Record Bind : Type := {
  inner : Transport;
  port443 : Z;
  payload : list byte;
  amneziaConfig : option AmneziaConfig;
  lastSent : gmap string Time;
  interval : Z
}.

Definition set_lastSent (b : Bind) (m : gmap string Time) : Bind :=
  {| inner := inner b; port443 := port443 b; payload := payload b;
     amneziaConfig := amneziaConfig b; lastSent := m; interval := interval b |}.

(** [New]: the payload is a hexadecimal string, possibly after "0x". *)
Definition New (inner : Transport) (hexPayload : string) (port : Z)
    (minInterval : Z) : Res HexError Bind :=
  let h := if GoStrings.HasPrefix hexPayload "0x" || GoStrings.HasPrefix hexPayload "0X"
           then GoStrings.slice_from 2 hexPayload else hexPayload in
  match GoHex.DecodeString h with
  | Err e => Err e
  | Ok p => Ok {| inner := inner; port443 := port; payload := p;
                  amneziaConfig := None; lastSent := ∅; interval := minInterval |}
  end.

(** [NewWithAmnezia]: only [I1] is parsed, and its bytes are kept. *)
Definition NewWithAmnezia (inner : Transport) (amneziaConfig : option AmneziaConfig)
    (port : Z) (minInterval : Z) : M (Res CPSError Bind) :=
  r <- match amneziaConfig with
       | Some config =>
           if negb (String.eqb (I1 config) "") then parseCPSPacket (I1 config)
           else ret (Ok [])
       | None => ret (Ok [])
       end ;;
  match r with
  | Err e => ret (Err e)               (* "invalid I1 CPS format" *)
  | Ok payload =>
      ret (Ok {| inner := inner; port443 := port; payload := payload;
                 amneziaConfig := amneziaConfig; lastSent := ∅;
                 interval := minInterval |})
  end.

(** ** Detection of a handshake initiation *)

(** Modelled from the spec: the constants [device.MessageInitiationSize] and
    [device.MessageInitiationType] of the package wireguard/device, with the
    values the comment on [handshakeInitiation] gives them (148 and 1). *)
Definition MessageInitiationSize : Z := 148.
Definition MessageInitiationType : Z := 1.

Definition len {A} (l : list A) : Z := Z.of_nat (length l).

Definition handshakeInitiation (buf : list byte) : bool :=
  if len buf <? MessageInitiationSize then false
  else match buf with
       | [] => false
       | b0 :: _ =>
           (b0 =? to_byte MessageInitiationType)
           && (MessageInitiationSize <=? len buf)
       end.

(** ** The junk generator *)

(** The fallback loop [for i := range junk { junk[i] = byte(rng.Intn(256)) }]. *)
Fixpoint fallback_fill (n : nat) : M (list byte) :=
  match n with
  | O => ret []
  | S n' =>
      x <- rng_Intn 256 ;;
      rest <- fallback_fill n' ;;
      ret (to_byte x :: rest)
  end.

(** The largest length [make([]byte, n)] accepts on a 64-bit platform:
    [maxAlloc] of the Go runtime, 2^48 bytes. For a negative or a larger
    length [makeslice] panics. The runtime is not part of the repository;
    the value is that of its malloc.go for 48 bits of heap addresses. *)
Definition maxAlloc : Z := 2 ^ 48.

(** [junk := make([]byte, size)], [rand.Read(junk)] and the fallback to
    math/rand: the block both branches of [generateJunkPacket] end with.
    An allocation that [makeslice] accepts is taken to succeed: running out
    of memory ends the process with a fatal error, which is not a panic and
    which no bound on the arguments excludes. *)
Definition fill_junk (size : Z) : M (list byte) :=
  if (size <? 0) || (maxAlloc <? size) then panic "makeslice: len out of range"
  else
    r <- rand_Read (Z.to_nat size) ;;
    match r with
    | Some junk => ret junk
    | None => fallback_fill (Z.to_nat size)
    end.

Definition generateJunkPacket (b : Bind) : M (list byte) :=
  match amneziaConfig b with
  | None => ret []
  | Some config =>
      let minSize := Jmin config in
      let maxSize := Jmax config in
      if (minSize =? 0) && (maxSize =? 0) then ret []
      else if minSize =? 0 then
        if maxSize =? 0 then ret []
        else
          size <- rng_Intn (wrap64 (maxSize + 1)) ;;
          if size =? 0 then ret [] else fill_junk size
      else
        zero <- (if AllowZeroSize config && (0 <? minSize)
                 then x <- rng_Intn 2 ;; ret (x =? 0)
                 else ret false) ;;
        if zero then ret []
        else
          let minSize := if minSize <? 0 then 0 else minSize in
          let maxSize := if maxSize <? minSize then minSize else maxSize in
          size <- (if maxSize =? minSize then ret minSize
                   else x <- rng_Intn (wrap64 (wrap64 (maxSize - minSize) + 1)) ;;
                        ret (wrap64 (minSize + x))) ;;
          if size =? 0 then ret [] else fill_junk size
  end.

(** ** Sending datagrams *)

Definition sendStandardZeroByte (b : Bind) (host : string) : M unit :=
  ok <- net_try ;;                                   (* net.DialTimeout *)
  (if ok then emit (EvWrite AtZeroDial host (port443 b) []) else ret tt) ;;;
  ok <- net_try ;;                                   (* net.ListenPacket *)
  if ok then
    ok <- net_try ;;                                 (* net.ResolveUDPAddr *)
    if ok then emit (EvWrite AtZeroPacketConn host (port443 b) []) else ret tt
  else ret tt.

Definition sendTrueZeroByteUDP (b : Bind) (host : string) : M unit :=
  sendStandardZeroByte b host.

Definition sendUDPPacket (b : Bind) (host : string) (data : list byte) : M unit :=
  emit (EvSendUDP host data) ;;;
  if len data =? 0 then sendTrueZeroByteUDP b host
  else
    ok <- net_try ;;                                 (* net.DialTimeout *)
    if ok then emit (EvWrite AtJunk host (port443 b) data) else ret tt.

(** The loop of [sendJunkPackets], [remaining] iterations to go. *)
Fixpoint junk_loop (b : Bind) (host : string) (remaining : nat) (interval : Z)
  : M unit :=
  match remaining with
  | O => ret tt
  | S remaining' =>
      junk <- generateJunkPacket b ;;
      sendUDPPacket b host junk ;;;
      (if (0 <? Z.of_nat remaining') && (0 <? interval)
       then time_Sleep interval else ret tt) ;;;
      junk_loop b host remaining' interval
  end.

Definition sendJunkPackets (b : Bind) (host : string) (count : Z) (interval : Z)
  : M unit :=
  if count <=? 0 then ret tt
  else junk_loop b host (Z.to_nat count) interval.

(** ** The decoy sequence *)

Definition executeSimplePreflight (b : Bind) (host : string) : M unit :=
  ok <- net_try ;;
  if ok then emit (EvWrite AtSimple host (port443 b) (payload b)) else ret tt.

(** The loop over [signatures] of [executeFastPreHandshakeSequence]; the
    empty first entry that stands for I1 is always skipped. *)
Fixpoint signature_loop (b : Bind) (host : string) (signatures : list string)
    (fastDelay : Z) : M unit :=
  match signatures with
  | [] => ret tt
  | sig :: rest =>
      (if String.eqb sig "" then ret tt
       else
         r <- parseCPSPacket sig ;;
         match r with
         | Err _ => ret tt
         | Ok packet =>
             if len packet =? 0 then ret tt
             else
               ok <- net_try ;;
               (if ok then emit (EvWrite AtSignature host (port443 b) packet)
                else ret tt) ;;;
               time_Sleep fastDelay
         end) ;;;
      signature_loop b host rest fastDelay
  end.

Definition executeFastPreHandshakeSequence (b : Bind) (host : string) : M unit :=
  match amneziaConfig b with
  | None => ret tt
  | Some config =>
      let fastDelay := 3 * Millisecond in
      signature_loop b host [I2 config; I3 config; I4 config; I5 config] fastDelay ;;;
      (if 0 <? JcBeforeHS config then
         time_Sleep fastDelay ;;;
         let criticalCount :=
           if 3 <? JcBeforeHS config then 3 else JcBeforeHS config in
         sendJunkPackets b host criticalCount fastDelay
       else ret tt) ;;;
      time_Sleep (2 * Millisecond)
  end.

Definition executePostHandshakeSequence (b : Bind) (host : string) : M unit :=
  match amneziaConfig b with
  | None => ret tt
  | Some config =>
      let junkInterval :=
        if JunkInterval config =? 0 then 10 * Millisecond else JunkInterval config in
      (if 3 <? JcBeforeHS config then
         let remainingCount := wrap64 (JcBeforeHS config - 3) in
         sendJunkPackets b host remainingCount junkInterval
       else ret tt) ;;;
      (if 0 <? Jc config then
         time_Sleep (50 * Millisecond) ;;;
         sendJunkPackets b host (Jc config) junkInterval
       else ret tt) ;;;
      (if 0 <? JcAfterI1 config then
         time_Sleep (30 * Millisecond) ;;;
         sendJunkPackets b host (JcAfterI1 config) junkInterval
       else ret tt) ;;;
      (if 0 <? JcAfterHS config then
         time_Sleep (50 * Millisecond) ;;;
         sendJunkPackets b host (JcAfterHS config) junkInterval
       else ret tt)
  end.

(** The goroutine started by [executeMinimalPreHandshakeSequence] is recorded
    as [EvGo host]; its body is [executePostHandshakeSequence b host], run
    from whatever world it is scheduled in. *)
Definition executeMinimalPreHandshakeSequence (b : Bind) (host : string) : M unit :=
  match amneziaConfig b with
  | None => ret tt
  | Some config =>
      (if negb (String.eqb (I1 config) "") && negb (len (payload b) =? 0) then
         ok <- net_try ;;
         (if ok then emit (EvWrite AtI1 host (port443 b) (payload b)) else ret tt) ;;;
         time_Sleep (5 * Millisecond)
       else ret tt) ;;;
      executeFastPreHandshakeSequence b host ;;;
      emit (EvGo host)
  end.

(** ** The rate limiter *)

(** The zero [time.Time] (January 1, year 1), which a map returns for an
    absent key. *)
Definition zeroTime : Time := -62135596800 * 1000000000.

(** [t.Sub(u)]: the difference, saturated to the range of a [Duration]. *)
Definition Time_Sub (t u : Time) : Z := Z.max MinInt (Z.min MaxInt (t - u)).

(** The critical section of [maybePreflight] at time [now]: whether the
    destination is admitted, and the map afterwards. *)
Definition rateLimit_at (interval : Z) (m : gmap string Time) (dst : Addr) (now : Time)
  : bool * gmap string Time :=
  let last := default zeroTime (m !! dst) in
  if Time_Sub now last <? interval then (false, m)
  else (true, <[dst := now]> m).

(** [now := time.Now()] and the critical section of [maybePreflight]: the
    rate limiter, which the specification calls admit. *)
Definition rateLimit (b : Bind) (dst : Addr) : M (bool * Bind) :=
  now <- time_Now ;;
  let r := rateLimit_at (interval b) (lastSent b) dst now in
  ret (fst r, set_lastSent b (snd r)).

Definition maybePreflight (b : Bind) (ep : Endpoint) (bufs : list (list byte))
  : M Bind :=
  let dst := DstIP ep in
  let seenInit := existsb handshakeInitiation bufs in
  if negb seenInit then ret b
  else
    r <- rateLimit b dst ;;
    let b' := snd r in
    if negb (fst r) then ret b'
    else
      let host := dst in
      match amneziaConfig b' with
      | Some _ => executeMinimalPreHandshakeSequence b' host ;;; ret b'
      | None => executeSimplePreflight b' host ;;; ret b'
      end.

(** [Send]: the result of the wrapped transport, and the bind afterwards. *)
Definition Send (b : Bind) (bufs : list (list byte)) (ep : Endpoint)
  : M (option string * Bind) :=
  b' <- maybePreflight b ep bufs ;;
  err <- inner b' bufs ep ;;
  ret (err, b').

(** ** A small program logic for [M]

    [runs m w Q]: from the world [w], [m] finishes without a panic, with a
    value and a world that satisfy [Q]. *)

Definition runs {A} (m : M A) (w : World) (Q : A -> World -> Prop) : Prop :=
  match m w with
  | Done a w' => Q a w'
  | Panic _ _ => False
  end.

(** What a step may change: the oracles stay, their cursors move, the trace
    grows. *)
Record extends (w w' : World) : Prop := {
  ext_clock : w_clock w' = w_clock w;
  ext_crypto : w_crypto w' = w_crypto w;
  ext_cfail : w_cfail w' = w_cfail w;
  ext_rng : w_rng w' = w_rng w;
  ext_net : w_net w' = w_net w;
  ext_trace : exists evs, w_trace w' = w_trace w ++ evs
}.

(** A step that leaves the trace alone. *)
Definition silent (w w' : World) : Prop :=
  extends w w' /\ w_trace w' = w_trace w.

(** The bytes [rand.Read] delivers when it succeeds. *)
Definition crypto_bytes (w : World) (n : nat) : list byte :=
  map (fun i => to_byte (w_crypto w (w_cpos w + i)%nat)) (seq 0 n).

(** ** Notions the statements use *)

(** The shape the detection looks for: first byte the initiation type code,
    length at least the initiation size. *)
Definition initiation_shaped (buf : list byte) : Prop :=
  (exists rest, buf = MessageInitiationType :: rest)
  /\ MessageInitiationSize <= len buf.

(** The calls of the rate limiter, one after the other from the map [m]:
    the admitted ones, in order. *)
Fixpoint triggered (interval : Z) (m : gmap string Time)
    (calls : list (Addr * Time)) : list (Addr * Time) :=
  match calls with
  | [] => []
  | (dst, now) :: rest =>
      let r := rateLimit_at interval m dst now in
      if fst r then (dst, now) :: triggered interval (snd r) rest
      else triggered interval (snd r) rest
  end.

Fixpoint times_for (dst : Addr) (l : list (Addr * Time)) : list Time :=
  match l with
  | [] => []
  | (d, t) :: rest =>
      if String.eqb d dst then t :: times_for dst rest else times_for dst rest
  end.

(** Each time is at least [interval] after the one before it, the elapsed
    time taken as [Sub] measures it. *)
Fixpoint separated_from (interval : Z) (last : Time) (ts : list Time) : Prop :=
  match ts with
  | [] => True
  | t :: rest => interval <= Time_Sub t last /\ separated_from interval t rest
  end.

Definition separated (interval : Z) (ts : list Time) : Prop :=
  match ts with
  | [] => True
  | t :: rest => separated_from interval t rest
  end.

(** The junk bounds under which [generateJunkPacket] cannot panic. What is
    excluded is [Jmin = 0] with a negative [Jmax] and [Jmin <= 0] with
    [Jmax] the largest [int], where the argument of [rng.Intn] is not
    positive, and a bound above [maxAlloc], where [make] can be asked for a
    packet it refuses. *)
Definition junk_safe (config : AmneziaConfig) : Prop :=
  is_int (Jmin config) /\ is_int (Jmax config)
  /\ (Jmin config = 0 -> 0 <= Jmax config)
  /\ (Jmin config <= 0 -> Jmax config < MaxInt)
  /\ Jmin config <= maxAlloc /\ Jmax config <= maxAlloc.

(** Counting in a trace: the junk packets handed to [sendUDPPacket], and the
    datagrams written for them at the three program points that write junk. *)
Definition is_junk_packet (e : Event) : bool :=
  match e with
  | EvSendUDP _ _ => true
  | _ => false
  end.

Definition is_junk_write (e : Event) : bool :=
  match e with
  | EvWrite AtJunk _ _ _ => true
  | EvWrite AtZeroDial _ _ _ => true
  | EvWrite AtZeroPacketConn _ _ _ => true
  | _ => false
  end.

Fixpoint count (p : Event -> bool) (tr : list Event) : nat :=
  match tr with
  | [] => O
  | e :: rest => if p e then S (count p rest) else count p rest
  end.

Definition junk_packets (w : World) : nat := count is_junk_packet (w_trace w).
Definition junk_datagrams (w : World) : nat := count is_junk_write (w_trace w).

(** From [w] to [w']: [n] more junk packets handed over, at most [c]
    datagrams written for each. *)
Definition sends (c n : nat) (w w' : World) : Prop :=
  extends w w'
  /\ junk_packets w' = (junk_packets w + n)%nat
  /\ (junk_datagrams w' <= junk_datagrams w + c * n)%nat.

(** The junk packets of zero length handed to [sendUDPPacket]. *)
Definition is_empty_packet (e : Event) : bool :=
  match e with
  | EvSendUDP _ [] => true
  | _ => false
  end.

Definition empty_packets (w : World) : nat := count is_empty_packet (w_trace w).

(** The network answers: every dial, listen and resolve succeeds. *)
Definition network_up (w : World) : Prop := forall k, w_net w k = true.

(** From [w] to [w']: [n] more junk packets handed over, at most [e] of
    them of zero length, and one datagram written for each packet, plus one
    more for each packet of zero length. *)
Definition writes (e n : nat) (w w' : World) : Prop :=
  extends w w'
  /\ junk_packets w' = (junk_packets w + n)%nat
  /\ (empty_packets w <= empty_packets w' <= empty_packets w + e)%nat
  /\ (junk_datagrams w' + empty_packets w
      = junk_datagrams w + n + empty_packets w')%nat.

(** The datagrams one junk packet may cost: the two methods of
    [sendStandardZeroByte] for a packet of zero length, one write otherwise. *)
Definition per_packet (junk : list byte) : nat :=
  if len junk =? 0 then 2%nat else 1%nat.

(** The generator of [b] never panics, only reads the oracles, and its
    packets cost at most [c] datagrams each. *)
Definition generates (c : nat) (b : Bind) : Prop :=
  forall w, runs (generateJunkPacket b) w (fun junk w' =>
    silent w w' /\ (per_packet junk <= c)%nat).

(** ** Notions for the parser, independent of the library models *)

Module CPS.

(** The text of a [<b ...>] tag that reaches [hex.DecodeString]: white space
    trimmed at both ends, then one prefix "0x" or "0X" dropped, then every
    U+0020 removed. *)
Definition b_text (g2 : string) : string :=
  let d := GoStrings.TrimSpace g2 in
  GoStrings.remove_spaces
    (if GoStrings.HasPrefix d "0x" || GoStrings.HasPrefix d "0X"
     then GoStrings.slice_from 2 d else d).

Definition hex_digit (a : ascii) : bool :=
  let c := code a in
  (48 <=? c) && (c <=? 57) || (97 <=? c) && (c <=? 102) || (65 <=? c) && (c <=? 70).

Definition hex_value (a : ascii) : Z :=
  let c := code a in
  if c <=? 57 then c - 48 else if c <=? 70 then c - 55 else c - 87.

Fixpoint all_hex (s : string) : bool :=
  match s with
  | EmptyString => true
  | String a s' => hex_digit a && all_hex s'
  end.

(** Valid hexadecimal text: an even number of hexadecimal digits. *)
Definition valid_hex (s : string) : bool :=
  Nat.even (String.length s) && all_hex s.

(** The bytes valid hexadecimal text denotes, one for each pair of digits. *)
Fixpoint hex_bytes (s : string) : list byte :=
  match s with
  | String p (String q rest) => 16 * hex_value p + hex_value q :: hex_bytes rest
  | _ => []
  end.

(** The integer a decimal literal denotes, whatever its size: an optional
    sign and at least one digit. *)
Fixpoint digits_value (s : string) (acc : Z) : option Z :=
  match s with
  | EmptyString => Some acc
  | String a s' =>
      let c := code a in
      if (48 <=? c) && (c <=? 57) then digits_value s' (10 * acc + (c - 48))
      else None
  end.

Definition decimal_value (s : string) : option Z :=
  match s with
  | EmptyString => None
  | String a s' =>
      if Ascii.eqb a "+" then
        match s' with EmptyString => None | _ => digits_value s' 0 end
      else if Ascii.eqb a "-" then
        match s' with
        | EmptyString => None
        | _ => match digits_value s' 0 with Some v => Some (- v) | None => None end
        end
      else digits_value s 0
  end.

(** [N] brought into the range from 0 to 1000. *)
Definition clamp (N : Z) : Z := Z.max 0 (Z.min N 1000).

(** A tag the parser can resolve: valid hexadecimal text in a [<b>], and in
    a [<r>] no length or a decimal literal within the range of an [int]. *)
Definition resolvable_tag (m : TagRegex.submatch) : bool :=
  if Ascii.eqb (fst m) "b" then valid_hex (b_text (snd m))
  else if Ascii.eqb (fst m) "r" then
    String.eqb (GoStrings.TrimSpace (snd m)) ""
    || match decimal_value (GoStrings.TrimSpace (snd m)) with
       | Some N => (MinInt <=? N) && (N <=? MaxInt)
       | None => false
       end
  else true.

(** A malformed tag, in the words of the specification: bad hexadecimal
    text in a [<b>], a length that is not a number in a [<r>]. *)
Definition malformed_tag (m : TagRegex.submatch) : bool :=
  if Ascii.eqb (fst m) "b" then negb (valid_hex (b_text (snd m)))
  else if Ascii.eqb (fst m) "r" then
    negb (String.eqb (GoStrings.TrimSpace (snd m)) "")
    && match decimal_value (GoStrings.TrimSpace (snd m)) with
       | Some _ => false
       | None => true
       end
  else false.

Definition resolvable (cps : string) : bool :=
  forallb resolvable_tag (TagRegex.FindAllStringSubmatch cps).

Definition malformed (cps : string) : bool :=
  existsb malformed_tag (TagRegex.FindAllStringSubmatch cps).

(** The text of a [<b HEX>] tag in the words of the specification: the
    prefix and any white space inside HEX stripped (here the white space of
    ASCII). *)
Fixpoint remove_whitespace (s : string) : string :=
  match s with
  | EmptyString => EmptyString
  | String a s' =>
      if GoStrings.ascii_space a then remove_whitespace s'
      else String a (remove_whitespace s')
  end.

Definition spec_b_text (g2 : string) : string :=
  let d := GoStrings.TrimSpace g2 in
  remove_whitespace
    (if GoStrings.HasPrefix d "0x" || GoStrings.HasPrefix d "0X"
     then GoStrings.slice_from 2 d else d).

End CPS.

(** From [w] to [w']: exactly [p] more junk packets handed over and [d]
    more junk datagrams written. *)
Definition delta (p d : nat) (w w' : World) : Prop :=
  extends w w'
  /\ junk_packets w' = (junk_packets w + p)%nat
  /\ junk_datagrams w' = (junk_datagrams w + d)%nat.

(** A bind whose configuration, if it has one, is [junk_safe]. *)
Definition safe_bind (b : Bind) : Prop :=
  forall config, amneziaConfig b = Some config -> junk_safe config.

(** The value an outcome finishes with, if it finishes. *)
Definition value_of {A} (o : Outcome A) : option A :=
  match o with
  | Done a _ => Some a
  | Panic _ _ => None
  end.

(** [m] panics from the world [w]. *)
Definition panics {A} (m : M A) (w : World) : Prop :=
  exists msg w', m w = Panic msg w'.

(** The junk bounds of [int]s with which the argument of [rng.Intn] is not
    positive: the generator then panics in every world. *)
Definition junk_unsafe (config : AmneziaConfig) : Prop :=
  is_int (Jmin config) /\ is_int (Jmax config)
  /\ ((Jmin config = 0 /\ Jmax config < 0)
      \/ (Jmin config <= 0 /\ Jmax config = MaxInt)).

(** ** Sample data *)

Module Sample.

(** A wrapped transport that records the batch it is given. *)
Definition transport : Transport :=
  fun bufs ep => emit (EvInner bufs (DstIP ep)) ;;; ret None.

(** A world whose clock reads [secs] seconds after the epoch at every call,
    whose network answers [net] and whose secure source answers. *)
Definition world (secs : Z) (net : bool) : World :=
  {| w_clock := fun _ => secs * 1000000000; w_tick := 0;
     w_crypto := fun i => Z.of_nat i + 1; w_cpos := 0;
     w_cfail := fun _ => false; w_ccalls := 0;
     w_rng := fun i => 7 * Z.of_nat i + 3; w_rpos := 0;
     w_net := fun _ => net; w_ncalls := 0;
     w_trace := [] |}.

(** A buffer of 148 bytes that starts with the initiation type. *)
Definition initiation : list byte := 1 :: repeat 0 147.

(** A data packet: type 4, 32 bytes. *)
Definition data_packet : list byte := 4 :: repeat 0 31.

Definition endpoint : Endpoint := {| DstIP := "162.159.192.1" |}.

(** The configuration with nothing set but the junk bounds. *)
Definition config (jmin jmax jcBeforeHS : Z) : AmneziaConfig :=
  {| I1 := ""; I2 := ""; I3 := ""; I4 := ""; I5 := "";
     S1 := 0; S2 := 0; Jc := 0; Jmin := jmin; Jmax := jmax;
     JcAfterI1 := 0; JcBeforeHS := jcBeforeHS; JcAfterHS := 0;
     JunkInterval := 0; AllowZeroSize := false; HandshakeDelay := 0 |}.

Definition bind_of (config : option AmneziaConfig) (payload : list byte) : Bind :=
  {| inner := transport; port443 := 443; payload := payload;
     amneziaConfig := config; lastSent := ∅; interval := 1000000000 |}.

(** The configuration with nothing set but the signatures I1 and I2. *)
Definition config_sig (i1 i2 : string) : AmneziaConfig :=
  {| I1 := i1; I2 := i2; I3 := ""; I4 := ""; I5 := "";
     S1 := 0; S2 := 0; Jc := 0; Jmin := 24; Jmax := 1024;
     JcAfterI1 := 0; JcBeforeHS := 0; JcAfterHS := 0;
     JunkInterval := 0; AllowZeroSize := false; HandshakeDelay := 0 |}.

(** The character U+0009. *)
Definition tab : ascii := ascii_of_nat 9.

End Sample.

(** ** The rest of the file: the prefix of handshake packets, the second
    simple preflight *)

(** [applyAmneziaPrefix]: the prefix is filled by the same block as a junk
    packet ([make], [rand.Read], fallback to [rng]); [result] is the prefix
    followed by a copy of [buf]. *)
Definition applyAmneziaPrefix (b : Bind) (buf : list byte) : M (list byte) :=
  match amneziaConfig b with
  | None => ret buf
  | Some config =>
      if len buf =? 0 then ret buf
      else
        match buf with
        | [] => ret buf
        | messageType :: _ =>
            match (if messageType =? 1 then Some (S1 config)
                   else if messageType =? 2 then Some (S2 config)
                   else None) with
            | None => ret buf
            | Some prefixSize =>
                let prefixSize := if 64 <? prefixSize then 64 else prefixSize in
                if prefixSize <=? 0 then ret buf
                else
                  prefix <- fill_junk prefixSize ;;
                  ret (prefix ++ buf)
            end
        end
  end.

(** [executeSimplePreflightSync]: as [executeSimplePreflight], with shorter
    time-outs; no function of the file calls it. *)
Definition executeSimplePreflightSync (b : Bind) (host : string) : M unit :=
  ok <- net_try ;;
  if ok then emit (EvWrite AtSimple host (port443 b) (payload b)) else ret tt.

(** ** Further notions the statements use *)

(** The map after a sequence of calls of the rate limiter. *)
Fixpoint final_map (interval : Z) (m : gmap string Time)
    (calls : list (Addr * Time)) : gmap string Time :=
  match calls with
  | [] => m
  | (dst, now) :: rest =>
      final_map interval (snd (rateLimit_at interval m dst now)) rest
  end.

(** The sum of a weight over a trace. *)
Fixpoint total (f : Event -> Z) (tr : list Event) : Z :=
  match tr with
  | [] => 0
  | e :: rest => f e + total f rest
  end.

(** From [w] to [w'] the weight [f] of the trace grows by at least [lo] and
    at most [hi]. *)
Definition gains (f : Event -> Z) (lo hi : Z) (w w' : World) : Prop :=
  extends w w'
  /\ lo <= total f (w_trace w') - total f (w_trace w) <= hi.

(** The time [time.Sleep] takes: nothing for a duration that is not
    positive. *)
Definition sleep_time (e : Event) : Z :=
  match e with
  | EvSleep d => Z.max 0 d
  | _ => 0
  end.

Definition is_go (e : Event) : Z :=
  match e with
  | EvGo _ => 1
  | _ => 0
  end.

(** The time slept so far. *)
Definition slept (w : World) : Z := total sleep_time (w_trace w).

(** A step that only reads the clock and the secure source: no write, no
    draw from [rng], no use of the network. *)
Definition reads_only (w w' : World) : Prop :=
  silent w w' /\ w_rpos w' = w_rpos w /\ w_ncalls w' = w_ncalls w.

(** A step that leaves the secure source where it was. *)
Definition keeps_secure (w w' : World) : Prop :=
  silent w w' /\ w_cpos w' = w_cpos w /\ w_ccalls w' = w_ccalls w.

(** The big-endian value of four bytes. *)
Definition decode32 (bytes : list byte) : option Z :=
  match bytes with
  | [b3; b2; b1; b0] => Some (((b3 * 256 + b2) * 256 + b1) * 256 + b0)
  | _ => None
  end.

(** Whether a template has a '<' at all. *)
Fixpoint has_lt (s : string) : bool :=
  match s with
  | EmptyString => false
  | String a s' => Ascii.eqb a "<" || has_lt s'
  end.

(** [hex.EncodeToString]: two digits of "0123456789abcdef" for each byte. *)
Definition hexdigit (n : Z) : ascii :=
  if n <? 10 then ascii_of_N (Z.to_N (48 + n)) else ascii_of_N (Z.to_N (87 + n)).

Fixpoint EncodeToString (bytes : list byte) : string :=
  match bytes with
  | [] => EmptyString
  | b :: rest =>
      String (hexdigit (Z.shiftr b 4)) (String (hexdigit (Z.land b 15)) (EncodeToString rest))
  end.

(** Every element is a byte. *)
Definition all_bytes (bytes : list byte) : Prop :=
  Forall (fun b => 0 <= b < 256) bytes.

(** The length of the prefix [applyAmneziaPrefix] puts before [buf]: the
    configured size of the packet type, between 0 and 64. *)
Definition prefix_length (b : Bind) (buf : list byte) : Z :=
  match amneziaConfig b, buf with
  | Some config, messageType :: _ =>
      if messageType =? 1 then Z.max 0 (Z.min (S1 config) 64)
      else if messageType =? 2 then Z.max 0 (Z.min (S2 config) 64)
      else 0
  | _, _ => 0
  end.

(** The weight of the pauses of [sendJunkPackets]: one pause between two
    packets, none for an interval that is not positive. *)
Definition pauses (f : Event -> Z) (remaining : nat) (interval : Z) : Z :=
  if 0 <? interval then Z.of_nat (Nat.pred remaining) * f (EvSleep interval) else 0.

(** * Properties *)

(** ** Integers *)

Lemma wrap64_small (x : Z) : is_int x -> wrap64 x = x.
Proof.
  unfold is_int, wrap64, MinInt, MaxInt. intros H.
  rewrite Z.mod_small; lia.
Qed.

Lemma wrap64_MaxInt_succ : wrap64 (MaxInt + 1) = MinInt.
Proof. reflexivity. Qed.

Lemma to_byte_range (x : Z) : 0 <= to_byte x < 256.
Proof. unfold to_byte. apply Z.mod_pos_bound. lia. Qed.

Lemma len_nonneg {A} (l : list A) : 0 <= len l.
Proof. unfold len. lia. Qed.

Lemma len_app {A} (l1 l2 : list A) : len (l1 ++ l2) = len l1 + len l2.
Proof. unfold len. rewrite length_app. lia. Qed.

Lemma runs_ret {A} (a : A) w (Q : A -> World -> Prop) : Q a w -> runs (ret a) w Q.
Proof. intros H. exact H. Qed.

Lemma runs_bind {A B} (m : M A) (k : A -> M B) w (Q : B -> World -> Prop) :
  runs m w (fun a w' => runs (k a) w' Q) -> runs (bind m k) w Q.
Proof.
  unfold runs, bind. destruct (m w) as [a w'|msg w']; [|intros []].
  intros H. exact H.
Qed.

Lemma runs_mono {A} (m : M A) w (P Q : A -> World -> Prop) :
  (forall a w', P a w' -> Q a w') -> runs m w P -> runs m w Q.
Proof.
  unfold runs. intros HPQ. destruct (m w); [apply HPQ | intros []].
Qed.

Lemma runs_done {A} (m : M A) w (Q : A -> World -> Prop) :
  runs m w Q -> exists a w', m w = Done a w' /\ Q a w'.
Proof.
  unfold runs. destruct (m w) as [a w'|]; [|intros []]. eauto.
Qed.

Lemma done_runs {A} (m : M A) w a w' (Q : A -> World -> Prop) :
  m w = Done a w' -> Q a w' -> runs m w Q.
Proof. unfold runs. intros ->. auto. Qed.

Lemma extends_refl w : extends w w.
Proof. split; try reflexivity. exists []. now rewrite app_nil_r. Qed.

Lemma extends_trans w1 w2 w3 : extends w1 w2 -> extends w2 w3 -> extends w1 w3.
Proof.
  intros [a1 b1 c1 d1 e1 [t1 f1]] [a2 b2 c2 d2 e2 [t2 f2]].
  split; try congruence.
  exists (t1 ++ t2). rewrite f2, f1. now rewrite app_assoc.
Qed.

Lemma silent_refl w : silent w w.
Proof. split; [apply extends_refl | reflexivity]. Qed.

Lemma silent_trans w1 w2 w3 : silent w1 w2 -> silent w2 w3 -> silent w1 w3.
Proof.
  intros [e1 t1] [e2 t2]. split; [eapply extends_trans; eauto | congruence].
Qed.

Lemma time_Now_spec w :
  runs time_Now w (fun t w' => t = w_clock w (w_tick w) /\ silent w w').
Proof.
  unfold runs, time_Now. split; [reflexivity|].
  split; [|reflexivity]. split; try reflexivity. exists []. simpl. now rewrite app_nil_r.
Qed.

Lemma crypto_bytes_length w n : length (crypto_bytes w n) = n.
Proof. unfold crypto_bytes. now rewrite length_map, length_seq. Qed.

Lemma rand_Read_spec n w :
  runs (rand_Read n) w (fun r w' =>
    r = (if w_cfail w (w_ccalls w) then None else Some (crypto_bytes w n))
    /\ w_ccalls w' = S (w_ccalls w) /\ silent w w').
Proof.
  unfold runs, rand_Read. split; [reflexivity|]. split; [reflexivity|].
  split; [|reflexivity]. split; try reflexivity. exists []. simpl. now rewrite app_nil_r.
Qed.

Lemma rng_Intn_spec n w :
  0 < n ->
  runs (rng_Intn n) w (fun x w' =>
    x = w_rng w (w_rpos w) mod n /\ 0 <= x < n /\ silent w w').
Proof.
  intros Hn. unfold runs, rng_Intn.
  destruct (Z.leb_spec n 0); [lia|].
  split; [reflexivity|]. split; [apply Z.mod_pos_bound; lia|].
  split; [|reflexivity]. split; try reflexivity. exists []. simpl. now rewrite app_nil_r.
Qed.

Lemma rng_Intn_panics n w :
  n <= 0 -> rng_Intn n w = Panic "invalid argument to Intn" w.
Proof.
  intros Hn. unfold rng_Intn. destruct (Z.leb_spec n 0); [reflexivity | lia].
Qed.

Lemma net_try_spec w :
  runs net_try w (fun ok w' => ok = w_net w (w_ncalls w) /\ silent w w').
Proof.
  unfold runs, net_try. split; [reflexivity|].
  split; [|reflexivity]. split; try reflexivity. exists []. simpl. now rewrite app_nil_r.
Qed.

Lemma emit_spec e w :
  runs (emit e) w (fun _ w' => extends w w' /\ w_trace w' = w_trace w ++ [e]).
Proof.
  unfold runs, emit. split; [|reflexivity].
  split; try reflexivity. exists [e]. reflexivity.
Qed.

(** ** Detection *)

Lemma handshakeInitiation_shaped (buf : list byte) :
  handshakeInitiation buf = true <-> initiation_shaped buf.
Proof.
  unfold handshakeInitiation, initiation_shaped.
  destruct (Z.ltb_spec (len buf) MessageInitiationSize) as [Hlt|Hge].
  - split; [discriminate | lia].
  - destruct buf as [|b0 rest].
    + unfold len, MessageInitiationSize in Hge. simpl in Hge. lia.
    + change (to_byte MessageInitiationType) with MessageInitiationType.
      split.
      * intros H. apply andb_true_iff in H as [H1 _].
        apply Z.eqb_eq in H1. subst b0. split; [eauto | exact Hge].
      * intros [[rest' Heq] _]. injection Heq as -> _.
        rewrite Z.eqb_refl. simpl. now apply Z.leb_le.
Qed.

Lemma no_initiation_existsb (bufs : list (list byte)) :
  (forall buf, In buf bufs -> ~ initiation_shaped buf) ->
  existsb handshakeInitiation bufs = false.
Proof.
  intros H. apply not_true_is_false. intros Hex.
  apply existsb_exists in Hex as [buf [Hin Hb]].
  apply (H buf Hin). now apply handshakeInitiation_shaped.
Qed.

(** C6. A batch in which no buffer has the initiation type as its first
    byte and at least the initiation size as its length goes straight to the
    wrapped transport: [maybePreflight] returns the bind as it was (the map
    [lastSent] included) in the world as it was (nothing written, no oracle
    consulted), and [Send] is the call of the wrapped transport on the same
    batch and endpoint. *)
Theorem C6_batch_without_initiation_passes_through
    (b : Bind) (bufs : list (list byte)) (ep : Endpoint) (w : World) :
  (forall buf, In buf bufs -> ~ initiation_shaped buf) ->
  maybePreflight b ep bufs w = Done b w
  /\ Send b bufs ep w = (err <- inner b bufs ep ;; ret (err, b)) w.
Proof.
  intros H. apply no_initiation_existsb in H.
  assert (Hm : maybePreflight b ep bufs w = Done b w).
  { unfold maybePreflight. rewrite H. reflexivity. }
  split; [exact Hm|].
  unfold Send, bind at 1. rewrite Hm. reflexivity.
Qed.

(** C6 at a batch of a data packet and an empty buffer. *)
Lemma C6_witness :
  let b := Sample.bind_of (Some (Sample.config 24 1024 5)) [] in
  let w := Sample.world 1700000000 true in
  maybePreflight b Sample.endpoint [Sample.data_packet; []] w = Done b w
  /\ Send b [Sample.data_packet; []] Sample.endpoint w
     = (err <- inner b [Sample.data_packet; []] Sample.endpoint ;; ret (err, b)) w.
Proof.
  apply C6_batch_without_initiation_passes_through.
  intros buf [<-|[<-|[]]] [[rest Heq] Hlen].
  - discriminate Heq.
  - discriminate Heq.
Defined.

(** ** The rate limiter *)

Lemma set_lastSent_same (b : Bind) : set_lastSent b (lastSent b) = b.
Proof. destruct b. reflexivity. Qed.

Lemma rateLimit_at_cases (interval : Z) (m : gmap string Time) (dst : Addr) (now : Time) :
  rateLimit_at interval m dst now
  = if interval <=? Time_Sub now (default zeroTime (m !! dst))
    then (true, <[dst := now]> m) else (false, m).
Proof.
  unfold rateLimit_at.
  destruct (Z.ltb_spec (Time_Sub now (default zeroTime (m !! dst))) interval);
    destruct (Z.leb_spec interval (Time_Sub now (default zeroTime (m !! dst))));
    (reflexivity || lia).
Qed.

(** The measured elapsed time is the true difference unless that difference
    leaves the range of a [Duration]. *)
Lemma Time_Sub_exact (t u : Time) : is_int (t - u) -> Time_Sub t u = t - u.
Proof. unfold is_int, Time_Sub. lia. Qed.

Lemma Time_Sub_ge (interval : Z) (t u : Time) :
  MinInt < interval -> interval <= Time_Sub t u -> interval <= t - u.
Proof. unfold Time_Sub. lia. Qed.

Lemma times_for_separated (interval : Z) (dst : Addr) :
  forall (calls : list (Addr * Time)) (m : gmap string Time),
    match m !! dst with
    | Some last => separated_from interval last (times_for dst (triggered interval m calls))
    | None => separated interval (times_for dst (triggered interval m calls))
    end.
Proof.
  induction calls as [|[d now] rest IH]; intros m.
  - simpl. now destruct (m !! dst).
  - simpl. rewrite rateLimit_at_cases.
    destruct (Z.leb_spec interval (Time_Sub now (default zeroTime (m !! d))))
      as [Hadm|Hrej]; simpl.
    + destruct (String.eqb_spec d dst) as [->|Hne].
      * specialize (IH (<[dst := now]> m)).
        rewrite lookup_insert_eq in IH.
        destruct (m !! dst) as [last|]; simpl in *; auto.
      * specialize (IH (<[d := now]> m)).
        rewrite lookup_insert_ne in IH by exact Hne. exact IH.
    + apply IH.
Qed.

(** C4, as the code has it. [rateLimit] reads the clock once and writes nothing;
    it returns true and records [now] for the destination exactly when the
    elapsed time since the recorded trigger of that destination (the zero
    time for a destination never admitted) is at least the interval, and
    otherwise returns false with the bind, its map included, as it was.
    Hence in any sequence of calls starting from the empty map the admitted
    triggers of one destination are each at least the interval after the
    previous one. *)
Theorem C4_rateLimit_iff_elapsed_at_least_interval :
  (forall (b : Bind) (dst : Addr) (w : World),
      let now := w_clock w (w_tick w) in
      let last := default zeroTime (lastSent b !! dst) in
      exists w', silent w w'
        /\ rateLimit b dst w
           = Done (if interval b <=? Time_Sub now last
                   then (true, set_lastSent b (<[dst := now]> (lastSent b)))
                   else (false, b)) w')
  /\ (forall (interval : Z) (calls : list (Addr * Time)) (dst : Addr),
        separated interval (times_for dst (triggered interval ∅ calls))).
Proof.
  split.
  - intros b dst w now last.
    pose proof (time_Now_spec w) as Hnow.
    apply runs_done in Hnow as (t & w' & Hrun & -> & Hsil).
    exists w'. split; [exact Hsil|].
    unfold rateLimit, bind. rewrite Hrun. unfold ret.
    rewrite rateLimit_at_cases. fold now last.
    destruct (interval b <=? Time_Sub now last); simpl; [reflexivity|].
    now rewrite set_lastSent_same.
  - intros interval calls dst.
    pose proof (times_for_separated interval dst calls ∅) as H.
    now rewrite lookup_empty in H.
Qed.

(** C4, as stated, at the boundary: a trigger exactly one interval after
    the last one is admitted, although the elapsed time does not exceed the
    interval. *)
Lemma C4_counterexample_elapsed_equal_interval :
  let m : gmap string Time := {[ "162.159.192.1" := 100 ]} in
  fst (rateLimit_at 10 m "162.159.192.1" 110) = true
  /\ Time_Sub 110 (default zeroTime (m !! "162.159.192.1")) = 10
  /\ ~ (10 < Time_Sub 110 (default zeroTime (m !! "162.159.192.1"))).
Proof.
  cbv zeta. rewrite rateLimit_at_cases, lookup_singleton_eq. simpl.
  repeat split. intros H. vm_compute in H. discriminate H.
Qed.

(** ** The junk generator *)

Ltac int_range := unfold is_int, MinInt, MaxInt, maxAlloc in *; lia.

Lemma fallback_fill_spec (n : nat) (w : World) :
  runs (fallback_fill n) w (fun junk w' => length junk = n /\ silent w w').
Proof.
  revert w. induction n as [|n IH]; intros w; simpl.
  - apply runs_ret. split; [reflexivity | apply silent_refl].
  - apply runs_bind.
    eapply runs_mono; [|apply (rng_Intn_spec 256 w); lia].
    intros x w1 (_ & _ & Hs1). cbv beta.
    apply runs_bind.
    eapply runs_mono; [|apply IH].
    intros rest w2 (Hlen & Hs2). cbv beta.
    apply runs_ret. split; [simpl; congruence | eapply silent_trans; eauto].
Qed.

Lemma fill_junk_allocates (size : Z) :
  0 <= size <= maxAlloc -> (size <? 0) || (maxAlloc <? size) = false.
Proof.
  intros Hsize. apply orb_false_iff. split; apply Z.ltb_ge; lia.
Qed.

Lemma fill_junk_spec (size : Z) (w : World) :
  0 <= size <= maxAlloc ->
  runs (fill_junk size) w (fun junk w' =>
    len junk = size /\ silent w w'
    /\ (w_cfail w (w_ccalls w) = false -> junk = crypto_bytes w (Z.to_nat size))).
Proof.
  intros Hsize. unfold fill_junk. rewrite (fill_junk_allocates size Hsize).
  apply runs_bind.
  eapply runs_mono; [|apply rand_Read_spec].
  intros r w1 (Hr & _ & Hs1). cbv beta.
  destruct (w_cfail w (w_ccalls w)); subst r.
  - eapply runs_mono; [|apply fallback_fill_spec].
    intros junk w2 (Hlen & Hs2). cbv beta.
    split; [unfold len; lia|]. split; [eapply silent_trans; eauto | discriminate].
  - apply runs_ret. split; [|split; [exact Hs1 | reflexivity]].
    unfold len. rewrite crypto_bytes_length. lia.
Qed.

(** The secure source failing is not an error of the generator: the bytes
    then come from [rng]. *)
Lemma fill_junk_falls_back (size : Z) (w : World) :
  0 <= size <= maxAlloc -> w_cfail w (w_ccalls w) = true ->
  exists w1, rand_Read (Z.to_nat size) w = Done None w1
    /\ fill_junk size w = fallback_fill (Z.to_nat size) w1.
Proof.
  intros Hsize Hfail. unfold fill_junk. rewrite (fill_junk_allocates size Hsize).
  unfold bind, rand_Read. rewrite Hfail. eexists. split; reflexivity.
Qed.

(** A packet longer than [make] accepts: the panic of [makeslice], before
    any random source is read. *)
Lemma fill_junk_refused (size : Z) (w : World) :
  maxAlloc < size -> fill_junk size w = Panic "makeslice: len out of range" w.
Proof.
  intros Hsize. unfold fill_junk.
  rewrite (proj2 (Z.ltb_lt maxAlloc size) Hsize), orb_true_r. reflexivity.
Qed.

(** With [Jmin > 0] and zero sizes not allowed, the generator fills a packet
    whose size is [Jmin] plus the draw [rng.Intn(hi - Jmin + 1)], [hi] the
    larger of the two bounds. *)
Lemma generateJunkPacket_sized (b : Bind) (config : AmneziaConfig) (w : World) :
  amneziaConfig b = Some config ->
  AllowZeroSize config = false ->
  0 < Jmin config -> is_int (Jmin config) -> is_int (Jmax config) ->
  exists w1,
    silent w w1
    /\ generateJunkPacket b w
       = fill_junk (Jmin config
                    + w_rng w (w_rpos w)
                      mod (Z.max (Jmin config) (Jmax config) - Jmin config + 1)) w1.
Proof.
  intros Hcfg Hzero Hmin Himin Himax.
  unfold generateJunkPacket. rewrite Hcfg, Hzero.
  destruct (Z.eqb_spec (Jmin config) 0) as [|_]; [lia|].
  cbn [andb]. rewrite (proj2 (Z.ltb_ge (Jmin config) 0)) by lia.
  unfold bind at 1, ret at 1.
  destruct (Z.ltb_spec (Jmax config) (Jmin config)) as [Hlt|Hge].
  - rewrite Z.eqb_refl. rewrite Z.max_l by lia.
    replace (Jmin config - Jmin config + 1) with 1 by lia. rewrite Z.mod_1_r.
    unfold bind at 1, ret at 1. rewrite Z.add_0_r.
    destruct (Z.eqb_spec (Jmin config) 0); [lia|].
    exists w. split; [apply silent_refl | reflexivity].
  - rewrite Z.max_r by lia.
    destruct (Z.eqb_spec (Jmax config) (Jmin config)) as [Heq|Hne].
    + rewrite Heq. replace (Jmin config - Jmin config + 1) with 1 by lia.
      rewrite Z.mod_1_r. unfold bind at 1, ret at 1. rewrite Z.add_0_r.
      destruct (Z.eqb_spec (Jmin config) 0); [lia|].
      exists w. split; [apply silent_refl | reflexivity].
    + rewrite (wrap64_small (Jmax config - Jmin config)) by int_range.
      rewrite (wrap64_small (Jmax config - Jmin config + 1)) by int_range.
      pose proof (rng_Intn_spec (Jmax config - Jmin config + 1) w ltac:(lia)) as Hdraw.
      apply runs_done in Hdraw as (x & w1 & Hrun & Hx & Hrange & Hs1).
      unfold bind, ret. rewrite Hrun. cbv beta iota.
      rewrite (wrap64_small (Jmin config + x)) by int_range.
      destruct (Z.eqb_spec (Jmin config + x) 0); [lia|].
      exists w1. split; [exact Hs1|]. rewrite Hx. reflexivity.
Qed.

(** C9. [generateJunkPacket] with [Jmin > 0] and [AllowZeroSize] off: a
    [Jmax] below [Jmin] counts as [Jmin]; the size is [Jmin] plus the draw of
    [rng.Intn] over the [hi - Jmin + 1] values of the inclusive range, hence
    within [Jmin, hi], and each value of the range is the size for some
    draw. A size that [make] accepts is the length of the packet returned; a
    larger one is a panic of [make]. With bounds 5 and 2 the packet has 5
    bytes, with bounds 10 and 10 it has 10. *)
Theorem C9_generate_size_within_bounds
    (b : Bind) (config : AmneziaConfig) (w : World) :
  amneziaConfig b = Some config ->
  AllowZeroSize config = false ->
  0 < Jmin config -> is_int (Jmin config) -> is_int (Jmax config) ->
  let lo := Jmin config in
  let hi := Z.max (Jmin config) (Jmax config) in
  let size := lo + w_rng w (w_rpos w) mod (hi - lo + 1) in
  lo <= size <= hi
  /\ (forall s, lo <= s <= hi -> w_rng w (w_rpos w) = s - lo -> size = s)
  /\ (size <= maxAlloc ->
      exists junk w', generateJunkPacket b w = Done junk w' /\ len junk = size)
  /\ (maxAlloc < size ->
      exists w', generateJunkPacket b w = Panic "makeslice: len out of range" w')
  /\ (Jmin config = 5 -> Jmax config = 2 ->
      exists junk w', generateJunkPacket b w = Done junk w' /\ len junk = 5)
  /\ (Jmin config = 10 -> Jmax config = 10 ->
      exists junk w', generateJunkPacket b w = Done junk w' /\ len junk = 10).
Proof.
  intros Hcfg Hzero Hmin Himin Himax lo hi size.
  destruct (generateJunkPacket_sized b config w Hcfg Hzero Hmin Himin Himax)
    as (w1 & _ & Hrun).
  fold lo hi size in Hrun.
  assert (Hn : 0 < hi - lo + 1) by (unfold hi, lo; lia).
  assert (Hmod : 0 <= w_rng w (w_rpos w) mod (hi - lo + 1) < hi - lo + 1)
    by (apply Z.mod_pos_bound; lia).
  assert (Hgood : size <= maxAlloc ->
            exists junk w', generateJunkPacket b w = Done junk w' /\ len junk = size).
  { intros Hfit.
    pose proof (fill_junk_spec size w1 ltac:(unfold size, lo in *; lia)) as Hfill.
    apply runs_done in Hfill as (junk & w' & Hfill & Hlen & _).
    exists junk, w'. split; [rewrite Hrun; exact Hfill | exact Hlen]. }
  split; [unfold size; lia|]. split.
  { intros s Hs Hdraw. unfold size. rewrite Hdraw, Z.mod_small by lia. lia. }
  split; [exact Hgood|]. split.
  { intros Hbig. exists w1. rewrite Hrun. apply fill_junk_refused. exact Hbig. }
  split.
  - intros H5 H2.
    assert (Hsize : size = 5).
    { unfold size, hi, lo in *. rewrite H5, H2 in *. simpl in Hmod. simpl. lia. }
    rewrite <- Hsize. apply Hgood. rewrite Hsize. unfold maxAlloc. lia.
  - intros H10 H10'.
    assert (Hsize : size = 10).
    { unfold size, hi, lo in *. rewrite H10, H10' in *. simpl in Hmod. simpl. lia. }
    rewrite <- Hsize. apply Hgood. rewrite Hsize. unfold maxAlloc. lia.
Qed.

(** C9 at the bounds 5 and 2. *)
Lemma C9_witness :
  let b := Sample.bind_of (Some (Sample.config 5 2 0)) [] in
  let w := Sample.world 1700000000 true in
  let size := 5 + w_rng w (w_rpos w) mod (Z.max 5 2 - 5 + 1) in
  5 <= size <= Z.max 5 2
  /\ (forall s, 5 <= s <= Z.max 5 2 -> w_rng w (w_rpos w) = s - 5 -> size = s)
  /\ (size <= maxAlloc ->
      exists junk w', generateJunkPacket b w = Done junk w' /\ len junk = size)
  /\ (maxAlloc < size ->
      exists w', generateJunkPacket b w = Panic "makeslice: len out of range" w')
  /\ (5 = 5 -> 2 = 2 ->
      exists junk w', generateJunkPacket b w = Done junk w' /\ len junk = 5)
  /\ (5 = 10 -> 2 = 10 ->
      exists junk w', generateJunkPacket b w = Done junk w' /\ len junk = 10).
Proof.
  apply (C9_generate_size_within_bounds
           (Sample.bind_of (Some (Sample.config 5 2 0)) [])
           (Sample.config 5 2 0) (Sample.world 1700000000 true)).
  - reflexivity.
  - reflexivity.
  - simpl. lia.
  - simpl. int_range.
  - simpl. int_range.
Defined.

(** The claim C9 read for every call: at the bounds 2^50 and 2^50, which
    are [int]s with [min > 0], no packet is returned; [make] panics, in
    every world. *)
Lemma C9_counterexample_bounds_beyond_allocation :
  let config := Sample.config (2 ^ 50) (2 ^ 50) 0 in
  AllowZeroSize config = false
  /\ 0 < Jmin config /\ is_int (Jmin config) /\ is_int (Jmax config)
  /\ forall w : World,
       generateJunkPacket (Sample.bind_of (Some config) []) w
       = Panic "makeslice: len out of range" w.
Proof.
  cbv zeta. split; [reflexivity|]. split; [reflexivity|].
  split; [simpl; int_range|]. split; [simpl; int_range|].
  intros w. reflexivity.
Qed.

Lemma generateJunkPacket_total (b : Bind) (w : World) :
  (forall config, amneziaConfig b = Some config -> junk_safe config) ->
  runs (generateJunkPacket b) w (fun _ w' => silent w w').
Proof.
  intros Hsafe. unfold generateJunkPacket.
  destruct (amneziaConfig b) as [config|]; [|apply runs_ret, silent_refl].
  destruct (Hsafe config eq_refl) as (Himin & Himax & Hzero & Htop & Hamin & Hamax).
  destruct (Z.eqb_spec (Jmin config) 0) as [Hmin0|Hmin0].
  - destruct (Z.eqb_spec (Jmax config) 0) as [Hmax0|Hmax0]; cbn [andb].
    + apply runs_ret, silent_refl.
    + rewrite (wrap64_small (Jmax config + 1))
        by (specialize (Hzero Hmin0); specialize (Htop ltac:(lia)); int_range).
      apply runs_bind.
      eapply runs_mono; [|apply rng_Intn_spec; specialize (Hzero Hmin0); lia].
      intros size w1 (_ & Hrange & Hs1). cbv beta.
      destruct (Z.eqb_spec size 0); [apply runs_ret; exact Hs1|].
      eapply runs_mono; [|apply fill_junk_spec; lia].
      intros junk w2 (_ & Hs2 & _). eapply silent_trans; eauto.
  - cbn [andb]. apply runs_bind.
    assert (Hdraw : runs (if AllowZeroSize config && (0 <? Jmin config)
                          then x <- rng_Intn 2 ;; ret (x =? 0) else ret false) w
                         (fun _ w1 => silent w w1)).
    { destruct (AllowZeroSize config && (0 <? Jmin config)).
      - apply runs_bind. eapply runs_mono; [|apply (rng_Intn_spec 2 w); lia].
        intros x w1 (_ & _ & Hs). apply runs_ret. exact Hs.
      - apply runs_ret, silent_refl. }
    eapply runs_mono; [|exact Hdraw].
    intros zero w1 Hs1. cbv beta.
    destruct zero; [apply runs_ret; exact Hs1|].
    set (lo := if Jmin config <? 0 then 0 else Jmin config).
    set (hi := if Jmax config <? lo then lo else Jmax config).
    assert (Hlo : 0 <= lo /\ lo <= MaxInt /\ (lo = 0 -> Jmin config < 0)).
    { unfold lo. destruct (Z.ltb_spec (Jmin config) 0); int_range. }
    assert (Hhi : lo <= hi /\ hi <= MaxInt /\ (lo = 0 -> hi < MaxInt)).
    { unfold hi. destruct (Z.ltb_spec (Jmax config) lo).
      - repeat split; int_range.
      - repeat split; int_range. }
    assert (Hfit : hi <= maxAlloc).
    { unfold hi. destruct (Z.ltb_spec (Jmax config) lo); [|exact Hamax].
      unfold lo. destruct (Z.ltb_spec (Jmin config) 0); int_range. }
    apply runs_bind.
    assert (Hsize : runs (if hi =? lo then ret lo
                          else x <- rng_Intn (wrap64 (wrap64 (hi - lo) + 1)) ;;
                               ret (wrap64 (lo + x))) w1
                         (fun size w2 => 0 <= size <= maxAlloc /\ silent w1 w2)).
    { destruct (Z.eqb_spec hi lo).
      - apply runs_ret. split; [lia | apply silent_refl].
      - rewrite (wrap64_small (hi - lo)) by int_range.
        assert (hi - lo + 1 <= MaxInt).
        { destruct (Z.eq_dec lo 0) as [H0|H0]; [pose proof (proj2 (proj2 Hhi) H0)|]; lia. }
        rewrite (wrap64_small (hi - lo + 1)) by int_range.
        apply runs_bind. eapply runs_mono; [|apply rng_Intn_spec; lia].
        intros x w2 (_ & Hrange & Hs2). cbv beta. apply runs_ret.
        rewrite (wrap64_small (lo + x)) by int_range. split; [lia | exact Hs2]. }
    eapply runs_mono; [|exact Hsize].
    intros size w2 (Hpos & Hs2). cbv beta.
    destruct (Z.eqb_spec size 0).
    + apply runs_ret. eapply silent_trans; eauto.
    + eapply runs_mono; [|apply fill_junk_spec; exact Hpos].
      intros junk w3 (_ & Hs3 & _).
      eapply silent_trans; [exact Hs1|]. eapply silent_trans; eauto.
Qed.

(** With the bounds of [junk_unsafe] the argument of the size draw is not
    positive, in every world. *)
Lemma generateJunkPacket_panics (b : Bind) (config : AmneziaConfig) (w : World) :
  amneziaConfig b = Some config ->
  is_int (Jmin config) -> is_int (Jmax config) ->
  (Jmin config = 0 /\ Jmax config < 0) \/ (Jmin config <= 0 /\ Jmax config = MaxInt) ->
  generateJunkPacket b w = Panic "invalid argument to Intn" w.
Proof.
  intros Hcfg Himin Himax Hbad. unfold generateJunkPacket. rewrite Hcfg.
  destruct (Z.eqb_spec (Jmin config) 0) as [Hmin0|Hmin0].
  - destruct (Z.eqb_spec (Jmax config) 0) as [Hmax0|Hmax0]; cbn [andb].
    + exfalso. unfold MaxInt in Hbad. lia.
    + unfold bind. rewrite rng_Intn_panics; [reflexivity|].
      destruct Hbad as [[_ Hneg]|[_ Htop]].
      * rewrite wrap64_small by int_range. lia.
      * rewrite Htop. rewrite wrap64_MaxInt_succ. unfold MinInt. lia.
  - destruct Hbad as [[H0 _]|[Hle Htop]]; [contradiction|].
    cbn [andb]. rewrite (proj2 (Z.ltb_ge 0 (Jmin config))) by lia.
    rewrite andb_false_r. unfold bind at 1. unfold ret at 1.
    rewrite (proj2 (Z.ltb_lt (Jmin config) 0)) by lia.
    rewrite Htop.
    change (MaxInt <? 0) with false. cbv iota.
    change (MaxInt =? 0) with false. cbv iota.
    unfold bind. rewrite rng_Intn_panics; [reflexivity|].
    vm_compute. discriminate.
Qed.

(** The bounds of [int]s are safe, or make [rng.Intn] panic, or let [make]
    be asked for more than it accepts. *)
Lemma junk_safe_or_unsafe (config : AmneziaConfig) :
  is_int (Jmin config) -> is_int (Jmax config) ->
  junk_safe config \/ junk_unsafe config
  \/ maxAlloc < Jmin config \/ maxAlloc < Jmax config.
Proof.
  intros Himin Himax.
  destruct (Z_lt_dec maxAlloc (Jmin config)) as [Hbig|Hfit]; [right; right; left; exact Hbig|].
  destruct (Z.eq_dec (Jmax config) MaxInt) as [Htop|Htop].
  { right. right. right. rewrite Htop. vm_compute. reflexivity. }
  destruct (Z_lt_dec maxAlloc (Jmax config)) as [Hbig|Hfit']; [right; right; right; exact Hbig|].
  destruct (Z_lt_dec (Jmax config) 0) as [Hneg|Hnneg].
  - destruct (Z.eq_dec (Jmin config) 0) as [H0|H0].
    + right. left. split; [exact Himin|]. split; [exact Himax|]. left. lia.
    + left. split; [exact Himin|]. split; [exact Himax|].
      split; [lia|]. split; [int_range|]. split; lia.
  - left. split; [exact Himin|]. split; [exact Himax|].
    split; [lia|]. split; [int_range|]. split; lia.
Qed.

(** C10, at [Jmin = 0] and [Jmax] the largest [int]: both are non-negative,
    yet [maxSize + 1] wraps to the smallest [int] and [rng.Intn] panics, in
    every world. *)
Theorem C10_generateJunkPacket_panics_at_MaxInt (w : World) :
  0 <= Jmin (Sample.config 0 MaxInt 0)
  /\ 0 <= Jmax (Sample.config 0 MaxInt 0)
  /\ generateJunkPacket (Sample.bind_of (Some (Sample.config 0 MaxInt 0)) []) w
     = Panic "invalid argument to Intn" w.
Proof.
  split; [simpl; lia|]. split; [simpl; unfold MaxInt; lia|].
  apply (generateJunkPacket_panics _ (Sample.config 0 MaxInt 0)).
  - reflexivity.
  - simpl. int_range.
  - simpl. int_range.
  - right. simpl. split; [lia | reflexivity].
Qed.

(** Within what [make] accepts: with both bounds between 0 and [maxAlloc]
    the generator finishes in every world, a failing secure source included,
    and only reads the oracles; with [Jmin = 0] and [Jmax < 0] it panics. *)
Lemma generateJunkPacket_total_within_limit (b : Bind) (config : AmneziaConfig) (w : World) :
  amneziaConfig b = Some config ->
  0 <= Jmin config <= maxAlloc -> 0 <= Jmax config <= maxAlloc ->
  exists junk w', generateJunkPacket b w = Done junk w' /\ silent w w'.
Proof.
  intros Hcfg Hmin Hmax.
  apply runs_done. apply generateJunkPacket_total.
  intros config' Hcfg'. rewrite Hcfg in Hcfg'. injection Hcfg' as <-.
  repeat split; try int_range.
Qed.

Lemma generateJunkPacket_needs_Jmax_nonneg (b : Bind) (config : AmneziaConfig) (w : World) :
  amneziaConfig b = Some config ->
  Jmin config = 0 -> MinInt <= Jmax config < 0 ->
  generateJunkPacket b w = Panic "invalid argument to Intn" w.
Proof.
  intros Hcfg Hmin Hmax.
  apply (generateJunkPacket_panics b config w Hcfg); try int_range.
Qed.

(** ** The library models against their descriptions *)

Lemma string_pair_ind (P : string -> Prop) :
  P EmptyString ->
  (forall a, P (String a EmptyString)) ->
  (forall a b s, P s -> P (String a (String b s))) ->
  forall s, P s.
Proof.
  intros H0 H1 H2 s.
  assert (H : P s /\ forall a, P (String a s)).
  { induction s as [|b s [IHs IHas]].
    - split; [exact H0 | exact H1].
    - split; [apply IHas | intros a; apply H2; exact IHs]. }
  apply H.
Qed.

Lemma fromHexChar_spec (a : ascii) :
  GoHex.fromHexChar a = if CPS.hex_digit a then Some (CPS.hex_value a) else None.
Proof.
  unfold GoHex.fromHexChar, CPS.hex_digit, CPS.hex_value.
  set (c := code a).
  destruct (Z.leb_spec 48 c), (Z.leb_spec c 57), (Z.leb_spec 97 c),
    (Z.leb_spec c 102), (Z.leb_spec 65 c), (Z.leb_spec c 70);
    simpl; try lia; try reflexivity; f_equal; lia.
Qed.

Lemma hex_value_range (a : ascii) :
  CPS.hex_digit a = true -> 0 <= CPS.hex_value a < 16.
Proof.
  unfold CPS.hex_digit, CPS.hex_value. set (c := code a).
  destruct (Z.leb_spec 48 c), (Z.leb_spec c 57), (Z.leb_spec 97 c),
    (Z.leb_spec c 102), (Z.leb_spec 65 c), (Z.leb_spec c 70);
    simpl; try discriminate; lia.
Qed.

Lemma lor_nibbles (a b : Z) :
  0 <= a < 16 -> 0 <= b < 16 -> Z.lor (Z.shiftl a 4) b = 16 * a + b.
Proof.
  intros Ha Hb.
  assert (Ha' : a = 0 \/ a = 1 \/ a = 2 \/ a = 3 \/ a = 4 \/ a = 5 \/ a = 6 \/ a = 7
                \/ a = 8 \/ a = 9 \/ a = 10 \/ a = 11 \/ a = 12 \/ a = 13 \/ a = 14
                \/ a = 15) by lia.
  assert (Hb' : b = 0 \/ b = 1 \/ b = 2 \/ b = 3 \/ b = 4 \/ b = 5 \/ b = 6 \/ b = 7
                \/ b = 8 \/ b = 9 \/ b = 10 \/ b = 11 \/ b = 12 \/ b = 13 \/ b = 14
                \/ b = 15) by lia.
  clear Ha Hb.
  repeat (destruct Ha' as [->|Ha']); try subst a;
    repeat (destruct Hb' as [->|Hb']); try subst b; reflexivity.
Qed.

(** [hex.DecodeString] succeeds exactly on an even number of hexadecimal
    digits, with one byte for each pair. *)
Lemma DecodeString_spec (s : string) :
  if CPS.valid_hex s
  then GoHex.DecodeString s = Ok (CPS.hex_bytes s)
  else exists e, GoHex.DecodeString s = Err e.
Proof.
  induction s as [|a|a b s IH] using string_pair_ind.
  - reflexivity.
  - simpl. rewrite fromHexChar_spec. destruct (CPS.hex_digit a); eauto.
  - cbn [GoHex.DecodeString CPS.hex_bytes].
    unfold CPS.valid_hex in *. cbn [String.length Nat.even CPS.all_hex].
    rewrite !fromHexChar_spec.
    destruct (CPS.hex_digit a) eqn:Ha; [|rewrite andb_false_r; simpl; eauto].
    destruct (CPS.hex_digit b) eqn:Hb;
      [|rewrite andb_false_r; simpl; eauto].
    cbn [andb].
    destruct (Nat.even (String.length s) && CPS.all_hex s).
    + rewrite IH. rewrite lor_nibbles by (apply hex_value_range; assumption).
      reflexivity.
    + destruct IH as [e ->]. eauto.
Qed.

Lemma digit_spec (a : ascii) :
  GoStrconv.digit a
  = if (48 <=? code a) && (code a <=? 57) then Some (code a - 48) else None.
Proof. reflexivity. Qed.

Lemma digits_value_ge (s : string) (acc v : Z) :
  0 <= acc -> CPS.digits_value s acc = Some v -> acc <= v.
Proof.
  revert acc. induction s as [|a s IH]; intros acc Hacc; simpl.
  - intros [= <-]. lia.
  - destruct (Z.leb_spec 48 (code a)), (Z.leb_spec (code a) 57);
      simpl; try discriminate.
    intros Hv. apply IH in Hv; lia.
Qed.

(** [ParseUint] on digits: the value when it is below [2^64], a range error
    when it is not. *)
Lemma parse_digits_value (s : string) (acc v : Z) :
  0 <= acc < 2 ^ 64 ->
  CPS.digits_value s acc = Some v ->
  GoStrconv.parse_digits s acc = if v <? 2 ^ 64 then Ok v else Err ErrRange.
Proof.
  revert acc. induction s as [|a s IH]; intros acc Hacc; simpl.
  - intros [= <-]. destruct (Z.ltb_spec acc (2 ^ 64)); [reflexivity | lia].
  - rewrite digit_spec.
    destruct (Z.leb_spec 48 (code a)), (Z.leb_spec (code a) 57);
      simpl; try discriminate.
    intros Hv.
    assert (Hge : 10 * acc + (code a - 48) <= v)
      by (apply (digits_value_ge s); [lia | exact Hv]).
    destruct (Z.leb_spec ((2 ^ 64 - 1) / 10 + 1) acc) as [Hcut|Hcut].
    + change ((2 ^ 64 - 1) / 10 + 1) with 1844674407370955162 in Hcut.
      destruct (Z.ltb_spec v (2 ^ 64)); [lia | reflexivity].
    + replace (acc * 10 + (code a - 48)) with (10 * acc + (code a - 48)) by lia.
      destruct (Z.ltb_spec (2 ^ 64 - 1) (10 * acc + (code a - 48))) as [Hover|Hfit].
      * destruct (Z.ltb_spec v (2 ^ 64)); [lia | reflexivity].
      * apply IH; [lia | exact Hv].
Qed.

Lemma parse_digits_syntax (s : string) (acc : Z) :
  CPS.digits_value s acc = None -> exists e, GoStrconv.parse_digits s acc = Err e.
Proof.
  revert acc. induction s as [|a s IH]; intros acc; simpl; [discriminate|].
  rewrite digit_spec.
  destruct ((48 <=? code a) && (code a <=? 57)); [|eauto].
  intros H.
  destruct ((2 ^ 64 - 1) / 10 + 1 <=? acc); [eauto|].
  destruct (2 ^ 64 - 1 <? acc * 10 + (code a - 48)); [eauto|].
  replace (acc * 10 + (code a - 48)) with (10 * acc + (code a - 48)) by lia.
  apply IH. exact H.
Qed.

Lemma ParseUint_value (s : string) (v : Z) :
  s <> EmptyString -> CPS.digits_value s 0 = Some v ->
  0 <= v /\ GoStrconv.ParseUint s = if v <? 2 ^ 64 then Ok v else Err ErrRange.
Proof.
  intros Hne Hv. split; [apply (digits_value_ge s 0 v); [lia | exact Hv]|].
  unfold GoStrconv.ParseUint. destruct s; [contradiction|].
  apply parse_digits_value; [lia | exact Hv].
Qed.

Lemma ParseUint_syntax (s : string) :
  CPS.digits_value s 0 = None -> exists e, GoStrconv.ParseUint s = Err e.
Proof.
  intros H. unfold GoStrconv.ParseUint. destruct s; [eauto|].
  apply parse_digits_syntax. exact H.
Qed.

(** [strconv.Atoi] returns the value of a decimal literal that fits an
    [int], a range error for one that does not, and an error for any other
    text. *)
Lemma ParseInt_sign (neg : bool) (digits : string) :
  digits <> EmptyString ->
  match CPS.digits_value digits 0 with
  | Some v =>
      match GoStrconv.ParseUint digits with
      | Err e => Err e
      | Ok un =>
          if negb neg && (2 ^ 63 <=? un) then Err ErrRange
          else if neg && (2 ^ 63 <? un) then Err ErrRange
          else Ok (if neg then - un else un)
      end
      = (let N := if neg then - v else v in
         if (MinInt <=? N) && (N <=? MaxInt) then Ok N else Err ErrRange)
  | None => exists e, GoStrconv.ParseUint digits = Err e
  end.
Proof.
  intros Hne.
  destruct (CPS.digits_value digits 0) as [v|] eqn:Hv;
    [|now apply ParseUint_syntax].
  destruct (ParseUint_value digits v Hne Hv) as [Hpos ->].
  cbv zeta. unfold MinInt, MaxInt.
  destruct (Z.ltb_spec v (2 ^ 64)) as [Hfit|Hover].
  - destruct neg; cbn [negb andb].
    + destruct (Z.ltb_spec (2 ^ 63) v), (Z.leb_spec (- 2 ^ 63) (- v)),
        (Z.leb_spec (- v) (2 ^ 63 - 1)); cbn [andb]; try lia; reflexivity.
    + destruct (Z.leb_spec (2 ^ 63) v), (Z.leb_spec (- 2 ^ 63) v),
        (Z.leb_spec v (2 ^ 63 - 1)); cbn [andb]; try lia; reflexivity.
  - destruct neg.
    + destruct (Z.leb_spec (- 2 ^ 63) (- v)); cbn [andb]; [lia | reflexivity].
    + destruct (Z.leb_spec (- 2 ^ 63) v), (Z.leb_spec v (2 ^ 63 - 1));
        cbn [andb]; try lia; reflexivity.
Qed.

Lemma Atoi_spec (s : string) :
  match CPS.decimal_value s with
  | Some N =>
      GoStrconv.Atoi s
      = if (MinInt <=? N) && (N <=? MaxInt) then Ok N else Err ErrRange
  | None => exists e, GoStrconv.Atoi s = Err e
  end.
Proof.
  unfold GoStrconv.Atoi, GoStrconv.ParseInt, CPS.decimal_value.
  destruct s as [|a s]; [eauto|].
  destruct (Ascii.eqb_spec a "+") as [->|Hplus].
  - cbn [Ascii.eqb orb negb andb Bool.eqb].
    destruct s as [|b s]; [cbn; eauto|].
    pose proof (ParseInt_sign false (String b s) ltac:(discriminate)) as H.
    destruct (CPS.digits_value (String b s) 0) as [v|].
    + revert H. destruct (GoStrconv.ParseUint (String b s)) as [un|[|]];
        intros H; exact H.
    + destruct H as [e ->]. destruct e; eauto.
  - destruct (Ascii.eqb_spec a "-") as [->|Hminus].
    + cbn [orb negb andb].
      destruct s as [|b s]; [cbn; eauto|].
      pose proof (ParseInt_sign true (String b s) ltac:(discriminate)) as H.
      destruct (CPS.digits_value (String b s) 0) as [v|].
      * revert H. destruct (GoStrconv.ParseUint (String b s)) as [un|[|]];
          intros H; exact H.
      * destruct H as [e ->]. destruct e; eauto.
    + cbn [orb negb andb].
      pose proof (ParseInt_sign false (String a s) ltac:(discriminate)) as H.
      destruct (CPS.digits_value (String a s) 0) as [v|].
      * revert H. destruct (GoStrconv.ParseUint (String a s)) as [un|[|]];
          intros H; exact H.
      * destruct H as [e ->]. destruct e; eauto.
Qed.

Lemma Atoi_decimal (s : string) (N : Z) :
  CPS.decimal_value s = Some N ->
  GoStrconv.Atoi s = if (MinInt <=? N) && (N <=? MaxInt) then Ok N else Err ErrRange.
Proof. intros H. pose proof (Atoi_spec s) as Hs. now rewrite H in Hs. Qed.

Lemma Atoi_not_decimal (s : string) :
  CPS.decimal_value s = None -> exists e, GoStrconv.Atoi s = Err e.
Proof. intros H. pose proof (Atoi_spec s) as Hs. now rewrite H in Hs. Qed.

(** ** The tag regular expression *)

Lemma find_from_empty (fuel : nat) : TagRegex.find_from fuel EmptyString = [].
Proof. destruct fuel; reflexivity. Qed.

Lemma cut_at_gt_length (s body rest : string) :
  TagRegex.cut_at_gt s = Some (body, rest) ->
  String.length s = S (String.length body + String.length rest).
Proof.
  revert body. induction s as [|a s IH]; intros body; simpl; [discriminate|].
  destruct (Ascii.eqb a ">").
  - intros [= <- <-]. reflexivity.
  - destruct (TagRegex.cut_at_gt s) as [[body' rest']|]; [|discriminate].
    intros [= <- <-]. simpl. f_equal. now apply IH.
Qed.

(** The fuel of [FindAllStringSubmatch] is enough: more of it changes
    nothing. *)
Lemma find_from_fuel (n : nat) :
  forall (m : nat) (s : string),
    (String.length s <= n)%nat -> (String.length s <= m)%nat ->
    TagRegex.find_from n s = TagRegex.find_from m s.
Proof.
  induction n as [|n IH]; intros m s Hn Hm.
  - destruct s; [|simpl in Hn; lia]. now rewrite !find_from_empty.
  - destruct m as [|m].
    + destruct s; [|simpl in Hm; lia]. now rewrite !find_from_empty.
    + destruct s as [|a s1]; [reflexivity|]. simpl in Hn, Hm.
      cbn [TagRegex.find_from].
      destruct s1 as [|t s2]; [reflexivity|]. simpl in Hn, Hm.
      destruct (Ascii.eqb a "<" && TagRegex.tag_letter t).
      * destruct (TagRegex.cut_at_gt s2) as [[body rest]|] eqn:Hcut.
        -- apply cut_at_gt_length in Hcut. f_equal. apply IH; lia.
        -- apply IH; simpl; lia.
      * apply IH; simpl; lia.
Qed.

Lemma cut_at_gt_app (g rest : string) :
  (forall body tail, TagRegex.cut_at_gt g <> Some (body, tail)) ->
  TagRegex.cut_at_gt (g ++ String ">" rest) = Some (g, rest).
Proof.
  induction g as [|a g IH]; intros Hno; simpl.
  - reflexivity.
  - simpl in Hno. destruct (Ascii.eqb a ">") eqn:Ha.
    + exfalso. eapply Hno. reflexivity.
    + rewrite IH; [reflexivity|].
      intros body tail Hcut. rewrite Hcut in Hno. eapply Hno. reflexivity.
Qed.

(** A template that is one tag: a letter [t] and text [g] without '>'. *)
Lemma FindAll_single_tag (t : ascii) (g : string) :
  TagRegex.tag_letter t = true ->
  (forall body tail, TagRegex.cut_at_gt g <> Some (body, tail)) ->
  TagRegex.FindAllStringSubmatch (String "<" (String t (g ++ ">")))
  = [(t, TagRegex.skip_space g)].
Proof.
  intros Ht Hg. unfold TagRegex.FindAllStringSubmatch.
  cbn [String.length TagRegex.find_from].
  rewrite Ht. cbn [Ascii.eqb Bool.eqb andb].
  rewrite cut_at_gt_app by exact Hg.
  now rewrite ?find_from_empty.
Qed.

Lemma re_space_ascii_space (a : ascii) :
  TagRegex.re_space a = true -> GoStrings.ascii_space a = true.
Proof.
  unfold TagRegex.re_space, GoStrings.ascii_space. set (c := code a).
  destruct (Z.eqb_spec c 9), (Z.eqb_spec c 10), (Z.eqb_spec c 12),
    (Z.eqb_spec c 13), (Z.eqb_spec c 32); simpl; try discriminate; intros _;
    destruct (Z.leb_spec 9 c), (Z.leb_spec c 13); simpl; try lia; reflexivity.
Qed.

(** The white space the regular expression skips would be trimmed anyway. *)
Lemma TrimSpace_skip_space (g : string) :
  GoStrings.TrimSpace (TagRegex.skip_space g) = GoStrings.TrimSpace g.
Proof.
  unfold GoStrings.TrimSpace. f_equal.
  induction g as [|a g IH]; [reflexivity|].
  cbn [TagRegex.skip_space].
  destruct (TagRegex.re_space a) eqn:Ha; [|reflexivity].
  rewrite IH. cbn [GoStrings.trim_left].
  now rewrite (re_space_ascii_space a Ha).
Qed.

(** ** The CPS parser *)

Lemma b_text_empty (g2 : string) :
  GoStrings.TrimSpace g2 = EmptyString -> CPS.b_text g2 = EmptyString.
Proof. unfold CPS.b_text. intros ->. reflexivity. Qed.

Lemma b_text_skip_space (g : string) :
  CPS.b_text (TagRegex.skip_space g) = CPS.b_text g.
Proof. unfold CPS.b_text. now rewrite TrimSpace_skip_space. Qed.

(** A [<b>] tag: the decoded bytes of its text, or an error, and the world
    untouched. *)
Lemma cps_tag_b (result : list byte) (g2 : string) (w : World) :
  if CPS.valid_hex (CPS.b_text g2)
  then cps_tag result ("b"%char, g2) w
       = Done (Ok (result ++ CPS.hex_bytes (CPS.b_text g2))) w
  else exists e, cps_tag result ("b"%char, g2) w = Done (Err (InvalidHexData e)) w.
Proof.
  unfold cps_tag. cbn [fst snd Ascii.eqb Bool.eqb andb].
  destruct (String.eqb_spec (GoStrings.TrimSpace g2) "") as [Hempty|Hne].
  - rewrite (b_text_empty g2 Hempty). cbn. now rewrite app_nil_r.
  - pose proof (DecodeString_spec (CPS.b_text g2)) as Hdec.
    unfold CPS.b_text in *.
    destruct (CPS.valid_hex _).
    + now rewrite Hdec.
    + destruct Hdec as [e ->]. eauto.
Qed.

(** The length a [<r>] tag asks for, after the cap. *)
Lemma r_length_decimal (d : string) (N : Z) :
  CPS.decimal_value d = Some N -> is_int N ->
  (if String.eqb d "" then Ok 0
   else match GoStrconv.Atoi d with
        | Err e => Err e
        | Ok length => Ok (if 1000 <? length then 1000 else length)
        end) = (Ok (Z.min N 1000) : Res NumError Z).
Proof.
  intros Hdec Hint.
  destruct (String.eqb_spec d "") as [->|_]; [discriminate Hdec|].
  rewrite (Atoi_decimal d N Hdec).
  destruct Hint as [Hlo Hhi].
  rewrite (proj2 (Z.leb_le _ _) Hlo), (proj2 (Z.leb_le _ _) Hhi). cbn [andb].
  f_equal. destruct (Z.ltb_spec 1000 N); lia.
Qed.

Lemma cps_tag_r (result : list byte) (g2 : string) (N : Z) (w : World) :
  CPS.decimal_value (GoStrings.TrimSpace g2) = Some N ->
  is_int N ->
  w_cfail w (w_ccalls w) = false ->
  exists w',
    cps_tag result ("r"%char, g2) w
    = Done (Ok (result ++ crypto_bytes w (Z.to_nat (CPS.clamp N)))) w'
    /\ silent w w'.
Proof.
  intros Hdec Hint Hok. unfold cps_tag. cbn [fst snd Ascii.eqb Bool.eqb andb].
  rewrite (r_length_decimal _ N Hdec Hint).
  unfold CPS.clamp.
  destruct (Z.ltb_spec 0 (Z.min N 1000)) as [Hpos|Hneg].
  - rewrite Z.max_r by lia.
    pose proof (rand_Read_spec (Z.to_nat (Z.min N 1000)) w) as Hread.
    apply runs_done in Hread as (r & w' & Hrun & Hr & _ & Hsil).
    rewrite Hok in Hr. subst r.
    exists w'. split; [|exact Hsil].
    unfold bind. rewrite Hrun. reflexivity.
  - rewrite Z.max_l by lia. exists w. split; [|apply silent_refl].
    cbn. now rewrite app_nil_r.
Qed.

Lemma cps_tag_r_missing (result : list byte) (g2 : string) (w : World) :
  GoStrings.TrimSpace g2 = EmptyString ->
  cps_tag result ("r"%char, g2) w = Done (Ok result) w.
Proof.
  intros Hempty. unfold cps_tag. cbn [fst snd Ascii.eqb Bool.eqb andb].
  rewrite Hempty. reflexivity.
Qed.

(** No tag panics, writes, or touches anything but the cursors. *)
Lemma cps_tag_silent (result : list byte) (m : TagRegex.submatch) (w : World) :
  runs (cps_tag result m) w (fun _ w' => silent w w').
Proof.
  unfold cps_tag.
  destruct (Ascii.eqb (fst m) "b").
  { destruct (String.eqb _ ""); [apply runs_ret, silent_refl|].
    destruct (GoHex.DecodeString _); apply runs_ret, silent_refl. }
  destruct (Ascii.eqb (fst m) "c").
  { apply runs_bind. eapply runs_mono; [|apply time_Now_spec].
    intros t w' [_ Hs]. apply runs_ret. exact Hs. }
  destruct (Ascii.eqb (fst m) "t").
  { apply runs_bind. eapply runs_mono; [|apply time_Now_spec].
    intros t w' [_ Hs]. apply runs_ret. exact Hs. }
  destruct (Ascii.eqb (fst m) "r"); [|apply runs_ret, silent_refl].
  destruct (if String.eqb _ "" then _ else _) as [length|e];
    [|apply runs_ret, silent_refl].
  destruct (0 <? length); [|apply runs_ret, silent_refl].
  apply runs_bind. eapply runs_mono; [|apply rand_Read_spec].
  intros r w' (_ & _ & Hs). destruct r; apply runs_ret; exact Hs.
Qed.

Lemma cps_loop_silent (matches : list TagRegex.submatch) :
  forall (result : list byte) (w : World),
    runs (cps_loop matches result) w (fun _ w' => silent w w').
Proof.
  induction matches as [|m rest IH]; intros result w; simpl.
  - apply runs_ret, silent_refl.
  - apply runs_bind. eapply runs_mono; [|apply cps_tag_silent].
    intros r w1 Hs1. cbv beta. destruct r as [result'|e].
    + eapply runs_mono; [|apply IH].
      intros r w2 Hs2. eapply silent_trans; eauto.
    + apply runs_ret. exact Hs1.
Qed.

Lemma parseCPSPacket_silent (cps : string) (w : World) :
  runs (parseCPSPacket cps) w (fun _ w' => silent w w').
Proof.
  unfold parseCPSPacket. destruct (String.eqb cps "").
  - apply runs_ret, silent_refl.
  - apply cps_loop_silent.
Qed.

(** A tag that is not resolvable is an error in every world. *)
Lemma cps_tag_unresolvable (result : list byte) (m : TagRegex.submatch) (w : World) :
  CPS.resolvable_tag m = false ->
  exists e, cps_tag result m w = Done (Err e) w.
Proof.
  destruct m as [t g2]. unfold CPS.resolvable_tag. cbn [fst snd].
  destruct (Ascii.eqb_spec t "b") as [->|Hb].
  { intros Hbad. pose proof (cps_tag_b result g2 w) as H.
    rewrite Hbad in H. destruct H as [e ->]. eauto. }
  destruct (Ascii.eqb_spec t "r") as [->|Hr]; [|discriminate].
  intros Hbad. apply orb_false_iff in Hbad as [Hne Hdec].
  unfold cps_tag. cbn [fst snd Ascii.eqb Bool.eqb andb]. rewrite Hne.
  destruct (CPS.decimal_value (GoStrings.TrimSpace g2)) as [N|] eqn:HN.
  - rewrite (Atoi_decimal _ N HN), Hdec. eauto.
  - destruct (Atoi_not_decimal _ HN) as [e ->]. eauto.
Qed.

(** A resolvable tag yields bytes whenever the secure source answers. *)
Lemma cps_tag_resolvable (result : list byte) (m : TagRegex.submatch) (w : World) :
  CPS.resolvable_tag m = true ->
  w_cfail w (w_ccalls w) = false ->
  runs (cps_tag result m) w (fun r w' => (exists out, r = Ok out) /\ silent w w').
Proof.
  destruct m as [t g2]. unfold CPS.resolvable_tag. cbn [fst snd].
  intros Hgood Hok.
  destruct (Ascii.eqb_spec t "b") as [->|Hb].
  { pose proof (cps_tag_b result g2 w) as H. rewrite Hgood in H.
    eapply done_runs; [exact H|]. split; [eauto | apply silent_refl]. }
  destruct (Ascii.eqb_spec t "r") as [->|Hr].
  { apply orb_true_iff in Hgood as [Hempty|Hdec].
    - apply String.eqb_eq in Hempty.
      eapply done_runs; [apply cps_tag_r_missing; exact Hempty|].
      split; [eauto | apply silent_refl].
    - destruct (CPS.decimal_value (GoStrings.TrimSpace g2)) as [N|] eqn:HN;
        [|discriminate].
      apply andb_true_iff in Hdec as [Hlo Hhi].
      apply Z.leb_le in Hlo. apply Z.leb_le in Hhi.
      destruct (cps_tag_r result g2 N w HN (conj Hlo Hhi) Hok) as (w' & Hrun & Hs).
      eapply done_runs; [exact Hrun|]. split; [eauto | exact Hs]. }
  unfold cps_tag. cbn [fst snd].
  rewrite (proj2 (Ascii.eqb_neq _ _) Hb), (proj2 (Ascii.eqb_neq _ _) Hr).
  destruct (Ascii.eqb t "c").
  { apply runs_bind. eapply runs_mono; [|apply time_Now_spec].
    intros now w' [_ Hs]. apply runs_ret. split; [eauto | exact Hs]. }
  destruct (Ascii.eqb t "t").
  { apply runs_bind. eapply runs_mono; [|apply time_Now_spec].
    intros now w' [_ Hs]. apply runs_ret. split; [eauto | exact Hs]. }
  apply runs_ret. split; [eauto | apply silent_refl].
Qed.

Lemma silent_cfail (w w' : World) :
  silent w w' -> (forall k, w_cfail w k = false) -> forall k, w_cfail w' k = false.
Proof. intros [Hext _] H k. rewrite (ext_cfail _ _ Hext). apply H. Qed.

Lemma cps_loop_resolvable (matches : list TagRegex.submatch) :
  forall (result : list byte) (w : World),
    forallb CPS.resolvable_tag matches = true ->
    (forall k, w_cfail w k = false) ->
    runs (cps_loop matches result) w (fun r w' => (exists out, r = Ok out) /\ silent w w').
Proof.
  induction matches as [|m rest IH]; intros result w Hall Hok; simpl.
  - apply runs_ret. split; [eauto | apply silent_refl].
  - simpl in Hall. apply andb_true_iff in Hall as [Hm Hrest].
    apply runs_bind. eapply runs_mono; [|apply cps_tag_resolvable; auto].
    intros r w1 [[out ->] Hs1]. cbv beta iota.
    eapply runs_mono; [|apply IH; [exact Hrest | eapply silent_cfail; eauto]].
    intros r w2 [Hout Hs2]. split; [exact Hout | eapply silent_trans; eauto].
Qed.

Lemma cps_loop_unresolvable (matches : list TagRegex.submatch) :
  forall (result : list byte) (w : World),
    forallb CPS.resolvable_tag matches = false ->
    runs (cps_loop matches result) w (fun r w' => (exists e, r = Err e) /\ silent w w').
Proof.
  induction matches as [|m rest IH]; intros result w Hall; simpl.
  - discriminate Hall.
  - simpl in Hall. apply runs_bind.
    destruct (CPS.resolvable_tag m) eqn:Hm.
    + eapply runs_mono; [|apply cps_tag_silent].
      intros r w1 Hs1. cbv beta. destruct r as [result'|e].
      * eapply runs_mono; [|apply IH; exact Hall].
        intros r w2 [He Hs2]. split; [exact He | eapply silent_trans; eauto].
      * apply runs_ret. split; [eauto | exact Hs1].
    + destruct (cps_tag_unresolvable result m w Hm) as [e He].
      eapply done_runs; [exact He|]. cbv beta iota.
      apply runs_ret. split; [eauto | apply silent_refl].
Qed.

Lemma malformed_not_resolvable (cps : string) :
  CPS.malformed cps = true -> CPS.resolvable cps = false.
Proof.
  unfold CPS.malformed, CPS.resolvable.
  induction (TagRegex.FindAllStringSubmatch cps) as [|m rest IH]; simpl;
    [discriminate|].
  intros H. apply orb_true_iff in H as [Hm|Hrest].
  - replace (CPS.resolvable_tag m) with false; [reflexivity|].
    symmetry. unfold CPS.malformed_tag, CPS.resolvable_tag in *.
    destruct (Ascii.eqb (fst m) "b").
    { now apply negb_true_iff in Hm. }
    destruct (Ascii.eqb (fst m) "r"); [|discriminate].
    apply andb_true_iff in Hm as [Hne Hdec].
    apply negb_true_iff in Hne. rewrite Hne.
    destruct (CPS.decimal_value _); [discriminate | reflexivity].
  - rewrite (IH Hrest). apply andb_false_r.
Qed.

(** What a tag contributes does not depend on the bytes before it: the
    result is those bytes followed by the part the tag resolves to. *)
Lemma cps_tag_contributes (result : list byte) (m : TagRegex.submatch) (w : World) :
  cps_tag result m w
  = match cps_tag [] m w with
    | Done (Ok part) w' => Done (Ok (result ++ part)) w'
    | Done (Err e) w' => Done (Err e) w'
    | Panic msg w' => Panic msg w'
    end.
Proof.
  unfold cps_tag.
  destruct (Ascii.eqb (fst m) "b").
  { destruct (String.eqb _ ""); [cbn; now rewrite app_nil_r|].
    destruct (GoHex.DecodeString _); reflexivity. }
  destruct (Ascii.eqb (fst m) "c"); [reflexivity|].
  destruct (Ascii.eqb (fst m) "t"); [reflexivity|].
  destruct (Ascii.eqb (fst m) "r"); [|cbn; now rewrite app_nil_r].
  destruct (if String.eqb _ "" then _ else _) as [length|e]; [|reflexivity].
  destruct (0 <? length); [|cbn; now rewrite app_nil_r].
  unfold bind. destruct (rand_Read (Z.to_nat length) w) as [[bytes|] w'|msg w'];
    reflexivity.
Qed.

(** The loop over the matches of two stretches of a template is the loop
    over the first, then the loop over the second from its result and in
    its world; an error of the first ends the parse. *)
Lemma cps_loop_app (ms1 ms2 : list TagRegex.submatch) :
  forall (result : list byte) (w : World),
    cps_loop (ms1 ++ ms2) result w
    = match cps_loop ms1 result w with
      | Done (Ok result') w' => cps_loop ms2 result' w'
      | Done (Err e) w' => Done (Err e) w'
      | Panic msg w' => Panic msg w'
      end.
Proof.
  induction ms1 as [|m ms1 IH]; intros result w; [reflexivity|].
  cbn [app cps_loop]. unfold bind.
  destruct (cps_tag result m w) as [[result'|e] w'|msg w']; [apply IH | |];
    reflexivity.
Qed.

Lemma parseCPSPacket_single_tag (t : ascii) (g : string) (w : World) :
  TagRegex.tag_letter t = true ->
  TagRegex.cut_at_gt g = None ->
  parseCPSPacket (String "<" (String t (g ++ ">"))) w
  = cps_tag [] (t, TagRegex.skip_space g) w.
Proof.
  intros Ht Hg. unfold parseCPSPacket. cbn [String.eqb].
  rewrite FindAll_single_tag; [|exact Ht|intros body tail; rewrite Hg; discriminate].
  cbn [cps_loop]. unfold bind.
  destruct (cps_tag [] (t, TagRegex.skip_space g) w) as [[out|e] w'|msg w'];
    reflexivity.
Qed.




(** C8, as the code has it. The text of a [<b HEX>] tag is trimmed of white
    space at both ends, loses one prefix "0x" or "0X", then loses every
    space character U+0020 and no other character. If what remains is an
    even number of hexadecimal digits the tag contributes exactly the bytes
    they denote and the world is untouched; otherwise the parser returns the
    error for invalid hexadecimal data. This holds at any iteration of the
    loop and for the template that is this one tag; ["<b zz>"] is such an
    error. *)
Theorem C8_bytes_tag_decodes_its_text
    (result : list byte) (g2 : string) (w : World) :
  (if CPS.valid_hex (CPS.b_text g2)
   then cps_tag result ("b"%char, g2) w
        = Done (Ok (result ++ CPS.hex_bytes (CPS.b_text g2))) w
   else exists e, cps_tag result ("b"%char, g2) w = Done (Err (InvalidHexData e)) w)
  /\ (TagRegex.cut_at_gt g2 = None ->
      if CPS.valid_hex (CPS.b_text g2)
      then parseCPSPacket (String "<" (String "b" (g2 ++ ">"))) w
           = Done (Ok (CPS.hex_bytes (CPS.b_text g2))) w
      else exists e, parseCPSPacket (String "<" (String "b" (g2 ++ ">"))) w
                     = Done (Err (InvalidHexData e)) w)
  /\ parseCPSPacket "<b zz>" w = Done (Err (InvalidHexData (InvalidByteError "z"))) w.
Proof.
  split; [apply cps_tag_b|]. split; [|reflexivity].
  intros Hg. rewrite parseCPSPacket_single_tag by (reflexivity || exact Hg).
  pose proof (cps_tag_b [] (TagRegex.skip_space g2) w) as H.
  rewrite b_text_skip_space in H. exact H.
Qed.

(** C8 at a tag with a prefix and spaces: three bytes, at an iteration that
    already has one byte and as a template of its own. *)
Lemma C8_witness :
  let w := Sample.world 1700000000 true in
  cps_tag [1] ("b"%char, " 0xC0 ff ee ") w = Done (Ok ([1] ++ [192; 255; 238])) w
  /\ parseCPSPacket "<b 0xC0 ff ee >" w = Done (Ok [192; 255; 238]) w.
Proof.
  destruct (C8_bytes_tag_decodes_its_text [1] " 0xC0 ff ee "
              (Sample.world 1700000000 true)) as (Htag & Htemplate & _).
  split; [exact Htag | exact (Htemplate eq_refl)].
Defined.

(** C8, as stated, at a tab inside HEX: with all white space stripped the
    text is the valid "c0ff", two bytes; the parser removes only U+0020,
    keeps the tab and returns an error, in every world. *)
Lemma C8_counterexample_tab_inside_hex :
  let g2 := String "c" (String "0" (String Sample.tab "ff")) in
  CPS.spec_b_text g2 = "c0ff"
  /\ CPS.valid_hex (CPS.spec_b_text g2) = true
  /\ CPS.hex_bytes (CPS.spec_b_text g2) = [192; 255]
  /\ forall w : World,
       parseCPSPacket (String "<" (String "b" (String " " (g2 ++ ">")))) w
       = Done (Err (InvalidHexData (InvalidByteError Sample.tab))) w.
Proof.
  cbv zeta. split; [reflexivity|]. split; [reflexivity|]. split; [reflexivity|].
  intros w. reflexivity.
Qed.

(** ** Construction *)

(** C3, as the code has it. [NewWithAmnezia] parses I1 and nothing else, and
    writes nothing. It returns an error when I1 has a tag that cannot be
    resolved, a malformed one in particular; when every tag of I1 can be
    resolved and the secure source answers, it returns a bind with the
    configuration and an empty rate-limiter map. I2..I5 play no part. *)
Theorem C3_construction_parses_only_I1
    (inner : Transport) (config : AmneziaConfig) (port minInterval : Z) (w : World) :
  exists r w',
    NewWithAmnezia inner (Some config) port minInterval w = Done r w'
    /\ silent w w'
    /\ (CPS.malformed (I1 config) = true -> exists e, r = Err e)
    /\ (CPS.resolvable (I1 config) = false -> exists e, r = Err e)
    /\ (CPS.resolvable (I1 config) = true -> (forall k, w_cfail w k = false) ->
        exists b, r = Ok b /\ amneziaConfig b = Some config /\ lastSent b = ∅).
Proof.
  unfold NewWithAmnezia.
  destruct (String.eqb_spec (I1 config) "") as [Hempty|Hne]; cbn [negb].
  - eexists. exists w. split; [reflexivity|]. split; [apply silent_refl|].
    rewrite Hempty. split; [discriminate|]. split; [discriminate|].
    intros _ _. eexists. split; [reflexivity|]. split; reflexivity.
  - pose proof (parseCPSPacket_silent (I1 config) w) as Hsil.
    apply runs_done in Hsil as (r & w' & Hrun & Hs).
    assert (Hloop : parseCPSPacket (I1 config) w
                    = cps_loop (TagRegex.FindAllStringSubmatch (I1 config)) [] w).
    { unfold parseCPSPacket.
      destruct (String.eqb_spec (I1 config) ""); [contradiction | reflexivity]. }
    assert (Hbad : CPS.resolvable (I1 config) = false -> exists e, r = Err e).
    { intros Hres.
      pose proof (cps_loop_unresolvable _ [] w Hres) as H.
      unfold runs in H. rewrite <- Hloop, Hrun in H. apply H. }
    destruct r as [bytes|e].
    + eexists. exists w'. split; [unfold bind; rewrite Hrun; reflexivity|].
      split; [exact Hs|].
      split.
      { intros Hm. destruct (Hbad (malformed_not_resolvable _ Hm)) as [e He].
        discriminate He. }
      split.
      { intros Hres. destruct (Hbad Hres) as [e He]. discriminate He. }
      intros _ _. eexists. split; [reflexivity|]. split; reflexivity.
    + eexists. exists w'. split; [unfold bind; rewrite Hrun; reflexivity|].
      split; [exact Hs|]. split; [eauto|]. split; [eauto|].
      intros Hres Hok.
      pose proof (cps_loop_resolvable _ [] w Hres Hok) as H.
      unfold runs in H. rewrite <- Hloop, Hrun in H.
      destruct H as [[out Hout] _]. discriminate Hout.
Qed.

(** C3 at a malformed I1 and at a well-formed one. *)
Lemma C3_witness :
  let w := Sample.world 1700000000 true in
  (CPS.malformed "<b zz>" = true
   /\ exists e w',
        NewWithAmnezia Sample.transport (Some (Sample.config_sig "<b zz>" ""))
          443 1000000000 w = Done (Err e) w')
  /\ (CPS.resolvable "<b c0ffee><t><r 4>" = true
      /\ exists b w',
           NewWithAmnezia Sample.transport
             (Some (Sample.config_sig "<b c0ffee><t><r 4>" "")) 443 1000000000 w
           = Done (Ok b) w').
Proof.
  cbv zeta. split.
  - destruct (C3_construction_parses_only_I1 Sample.transport
                (Sample.config_sig "<b zz>" "") 443 1000000000
                (Sample.world 1700000000 true))
      as (r & w' & Hrun & _ & Hmal & _).
    split; [reflexivity|].
    destruct (Hmal eq_refl) as [e He]. exists e, w'. rewrite <- He. exact Hrun.
  - destruct (C3_construction_parses_only_I1 Sample.transport
                (Sample.config_sig "<b c0ffee><t><r 4>" "") 443 1000000000
                (Sample.world 1700000000 true))
      as (r & w' & Hrun & _ & _ & _ & Hok).
    split; [reflexivity|].
    destruct (Hok eq_refl (fun _ => eq_refl)) as (b & Hb & _).
    exists b, w'. rewrite <- Hb. exact Hrun.
Defined.

(** C3, as stated, at a malformed I2: "<b zz>" is malformed, and
    construction succeeds in every world, keeping the template as it is. *)
Lemma C3_counterexample_malformed_I2 :
  CPS.malformed (I2 (Sample.config_sig "" "<b zz>")) = true
  /\ forall w : World,
       NewWithAmnezia Sample.transport (Some (Sample.config_sig "" "<b zz>"))
         443 1000000000 w
       = Done (Ok (Sample.bind_of (Some (Sample.config_sig "" "<b zz>")) [])) w.
Proof.
  split; [reflexivity|]. intros w. reflexivity.
Qed.

(** ** Sending *)

Lemma count_app (p : Event -> bool) (l1 l2 : list Event) :
  count p (l1 ++ l2) = (count p l1 + count p l2)%nat.
Proof.
  induction l1 as [|e l1 IH]; simpl; [reflexivity|].
  destruct (p e); simpl; now rewrite IH.
Qed.

Lemma delta_silent (w w' : World) : silent w w' -> delta 0 0 w w'.
Proof.
  intros [Hext Htr]. unfold delta, junk_packets, junk_datagrams.
  rewrite Htr. split; [exact Hext|]. split; lia.
Qed.

Lemma delta_trans (p1 d1 p2 d2 : nat) (w1 w2 w3 : World) :
  delta p1 d1 w1 w2 -> delta p2 d2 w2 w3 -> delta (p1 + p2) (d1 + d2) w1 w3.
Proof.
  intros (e1 & a1 & b1) (e2 & a2 & b2).
  split; [eapply extends_trans; eauto|]. split; lia.
Qed.

Lemma delta_sends (c p d : nat) (w w' : World) :
  delta p d w w' -> (d <= c * p)%nat -> sends c p w w'.
Proof. intros (e & a & b) Hd. split; [exact e|]. split; lia. Qed.

Lemma sends_silent (c : nat) (w w' : World) : silent w w' -> sends c 0 w w'.
Proof. intros H. apply (delta_sends c 0 0); [now apply delta_silent | lia]. Qed.

Lemma sends_trans (c n m : nat) (w1 w2 w3 : World) :
  sends c n w1 w2 -> sends c m w2 w3 -> sends c (n + m) w1 w3.
Proof.
  intros (e1 & a1 & b1) (e2 & a2 & b2).
  split; [eapply extends_trans; eauto|]. split; [lia|].
  rewrite Nat.mul_add_distr_l. lia.
Qed.

Lemma emit_delta (e : Event) (w : World) :
  runs (emit e) w (fun _ w' =>
    delta (if is_junk_packet e then 1 else 0) (if is_junk_write e then 1 else 0) w w').
Proof.
  eapply runs_mono; [|apply emit_spec].
  intros ? w' [Hext Htr]. unfold delta, junk_packets, junk_datagrams.
  rewrite Htr, !count_app. simpl.
  split; [exact Hext|]. split.
  - destruct (is_junk_packet e); lia.
  - destruct (is_junk_write e); lia.
Qed.

Lemma net_try_delta (w : World) :
  runs net_try w (fun _ w' => delta 0 0 w w').
Proof.
  eapply runs_mono; [|apply net_try_spec].
  intros ok w' [_ Hs]. now apply delta_silent.
Qed.

Lemma time_Sleep_delta (d : Z) (w : World) :
  runs (time_Sleep d) w (fun _ w' => delta 0 0 w w').
Proof. apply (emit_delta (EvSleep d)). Qed.

(** A zero-length packet is written by each of the two methods that gets a
    socket: up to two datagrams. *)
Lemma sendStandardZeroByte_delta (b : Bind) (host : string) (w : World) :
  runs (sendStandardZeroByte b host) w (fun _ w' =>
    exists d, (d <= 2)%nat /\ delta 0 d w w').
Proof.
  unfold sendStandardZeroByte.
  apply runs_bind. eapply runs_mono; [|apply net_try_delta].
  intros ok1 w1 H1. cbv beta.
  apply runs_bind.
  assert (Hfirst : runs (if ok1 then emit (EvWrite AtZeroDial host (port443 b) [])
                         else ret tt) w1
                        (fun _ w2 => exists d, (d <= 1)%nat /\ delta 0 d w w2)).
  { destruct ok1.
    - eapply runs_mono; [|apply emit_delta].
      intros ? w2 H2. exists 1%nat. split; [lia|].
      apply (delta_trans 0 0 0 1 w w1 w2 H1 H2).
    - apply runs_ret. exists 0%nat. split; [lia | exact H1]. }
  eapply runs_mono; [|exact Hfirst].
  intros ? w2 (d1 & Hd1 & H2). cbv beta.
  apply runs_bind. eapply runs_mono; [|apply net_try_delta].
  intros ok2 w3 H3. cbv beta.
  pose proof (delta_trans _ _ _ _ _ _ _ H2 H3) as H13.
  destruct ok2.
  - apply runs_bind. eapply runs_mono; [|apply net_try_delta].
    intros ok3 w4 H4. cbv beta.
    pose proof (delta_trans _ _ _ _ _ _ _ H13 H4) as H14.
    destruct ok3.
    + eapply runs_mono; [|apply emit_delta].
      intros ? w5 H5. exists (d1 + 0 + 0 + 1)%nat. split; [lia|].
      apply (delta_trans _ _ _ _ _ _ _ H14 H5).
    + apply runs_ret. exists (d1 + 0 + 0)%nat. split; [lia | exact H14].
  - apply runs_ret. exists (d1 + 0)%nat. split; [lia | exact H13].
Qed.

(** [sendUDPPacket] never panics; it is one junk packet handed over, and at
    most one datagram for data of positive length. *)
Lemma sendUDPPacket_delta (b : Bind) (host : string) (data : list byte) (w : World) :
  runs (sendUDPPacket b host data) w (fun _ w' =>
    exists d, (d <= (if (len data =? 0)%Z then 2 else 1))%nat /\ delta 1 d w w').
Proof.
  unfold sendUDPPacket.
  apply runs_bind. eapply runs_mono; [|apply emit_delta].
  intros ? w1 H1. cbn [is_junk_packet is_junk_write] in H1. cbv beta.
  destruct (len data =? 0).
  - eapply runs_mono; [|apply sendStandardZeroByte_delta].
    intros ? w2 (d & Hd & H2). exists (0 + d)%nat. split; [lia|].
    apply (delta_trans _ _ _ _ _ _ _ H1 H2).
  - apply runs_bind. eapply runs_mono; [|apply net_try_delta].
    intros ok w2 H2. cbv beta.
    pose proof (delta_trans _ _ _ _ _ _ _ H1 H2) as H12.
    destruct ok.
    + eapply runs_mono; [|apply emit_delta].
      intros ? w3 H3. exists (0 + 0 + 1)%nat. split; [lia|].
      apply (delta_trans _ _ _ _ _ _ _ H12 H3).
    + apply runs_ret. exists (0 + 0)%nat. split; [lia | exact H12].
Qed.

Lemma sendUDPPacket_sends (c : nat) (b : Bind) (host : string) (data : list byte)
    (w : World) :
  (per_packet data <= c)%nat ->
  runs (sendUDPPacket b host data) w (fun _ w' => sends c 1 w w').
Proof.
  intros Hc. eapply runs_mono; [|apply sendUDPPacket_delta].
  intros ? w' (d & Hd & H). apply (delta_sends c 1 d); [exact H|].
  unfold per_packet in Hc. lia.
Qed.

Lemma generates_safe (b : Bind) : safe_bind b -> generates 2 b.
Proof.
  intros Hsafe w. eapply runs_mono; [|apply generateJunkPacket_total; exact Hsafe].
  intros junk w' Hs. split; [exact Hs|]. unfold per_packet.
  destruct (len junk =? 0); lia.
Qed.

(** With [Jmin > 0] and zero sizes not allowed no packet is empty. *)
Lemma generates_nonempty (b : Bind) (config : AmneziaConfig) :
  amneziaConfig b = Some config ->
  AllowZeroSize config = false ->
  0 < Jmin config -> is_int (Jmin config) -> is_int (Jmax config) ->
  Jmin config <= maxAlloc -> Jmax config <= maxAlloc ->
  generates 1 b.
Proof.
  intros Hcfg Hzero Hmin Himin Himax Hamin Hamax w.
  destruct (generateJunkPacket_sized b config w Hcfg Hzero Hmin Himin Himax)
    as (w1 & Hs1 & Hrun).
  pose proof (Z.mod_pos_bound (w_rng w (w_rpos w))
                (Z.max (Jmin config) (Jmax config) - Jmin config + 1) ltac:(lia)) as Hmod.
  unfold runs. rewrite Hrun.
  eapply runs_mono; [|apply fill_junk_spec; lia].
  intros junk w' (Hlen & Hs & _). split; [exact (silent_trans _ _ _ Hs1 Hs)|].
  unfold per_packet. destruct (Z.eqb_spec (len junk) 0); lia.
Qed.

Lemma junk_loop_sends (c : nat) (b : Bind) (host : string) (interval : Z) :
  generates c b ->
  forall (remaining : nat) (w : World),
    runs (junk_loop b host remaining interval) w (fun _ w' => sends c remaining w w').
Proof.
  intros Hgen. induction remaining as [|k IH]; intros w.
  - apply runs_ret. apply sends_silent, silent_refl.
  - cbn [junk_loop].
    apply runs_bind. eapply runs_mono; [|apply Hgen].
    intros junk w1 [Hs1 Hc]. cbv beta.
    apply runs_bind. eapply runs_mono; [|apply sendUDPPacket_sends; exact Hc].
    intros ? w2 H2. cbv beta.
    apply runs_bind.
    assert (Hsleep : runs (if (0 <? Z.of_nat k) && (0 <? interval)
                           then time_Sleep interval else ret tt) w2
                          (fun _ w3 => sends c 0 w2 w3)).
    { destruct ((0 <? Z.of_nat k) && (0 <? interval)).
      - eapply runs_mono; [|apply time_Sleep_delta].
        intros ? w3 H3. apply (delta_sends c 0 0); [exact H3 | lia].
      - apply runs_ret, sends_silent, silent_refl. }
    eapply runs_mono; [|exact Hsleep].
    intros ? w3 H3. cbv beta.
    eapply runs_mono; [|apply IH].
    intros ? w4 H4.
    pose proof (sends_trans _ _ _ _ _ _ (sends_silent c _ _ Hs1) H2) as H02.
    pose proof (sends_trans _ _ _ _ _ _ H02 H3) as H03.
    pose proof (sends_trans _ _ _ _ _ _ H03 H4) as H04.
    replace (S k) with (0 + 1 + 0 + k)%nat by lia. exact H04.
Qed.

(** [sendJunkPackets] hands over exactly [count] packets, none for a count
    that is not positive. *)
Lemma sendJunkPackets_sends (c : nat) (b : Bind) (host : string)
    (count interval : Z) (w : World) :
  generates c b ->
  runs (sendJunkPackets b host count interval) w (fun _ w' =>
    sends c (Z.to_nat count) w w').
Proof.
  intros Hgen. unfold sendJunkPackets.
  destruct (Z.leb_spec count 0).
  - apply runs_ret. replace (Z.to_nat count) with 0%nat by lia.
    apply sends_silent, silent_refl.
  - apply junk_loop_sends. exact Hgen.
Qed.

(** ** The decoy sequence *)

Lemma parseCPSPacket_delta (cps : string) (w : World) :
  runs (parseCPSPacket cps) w (fun _ w' => delta 0 0 w w').
Proof.
  eapply runs_mono; [|apply parseCPSPacket_silent].
  intros r w' Hs. now apply delta_silent.
Qed.

(** The signature loop never panics and hands over no junk. *)
Lemma signature_loop_delta (b : Bind) (host : string) (fastDelay : Z) :
  forall (signatures : list string) (w : World),
    runs (signature_loop b host signatures fastDelay) w (fun _ w' => delta 0 0 w w').
Proof.
  induction signatures as [|sig rest IH]; intros w; cbn [signature_loop].
  - apply runs_ret, delta_silent, silent_refl.
  - apply runs_bind.
    assert (Hone : runs
      (if String.eqb sig "" then ret tt
       else r <- parseCPSPacket sig ;;
            match r with
            | Err _ => ret tt
            | Ok packet =>
                if len packet =? 0 then ret tt
                else ok <- net_try ;;
                     (if ok then emit (EvWrite AtSignature host (port443 b) packet)
                      else ret tt) ;;;
                     time_Sleep fastDelay
            end) w (fun _ w1 => delta 0 0 w w1)).
    { destruct (String.eqb sig ""); [apply runs_ret, delta_silent, silent_refl|].
      apply runs_bind. eapply runs_mono; [|apply parseCPSPacket_delta].
      intros r w1 H1. cbv beta.
      destruct r as [packet|e]; [|apply runs_ret; exact H1].
      destruct (len packet =? 0); [apply runs_ret; exact H1|].
      apply runs_bind. eapply runs_mono; [|apply net_try_delta].
      intros ok w2 H2. cbv beta.
      pose proof (delta_trans _ _ _ _ _ _ _ H1 H2) as H12.
      apply runs_bind.
      destruct ok.
      - eapply runs_mono; [|apply emit_delta].
        intros ? w3 H3. cbn [is_junk_packet is_junk_write] in H3. cbv beta.
        eapply runs_mono; [|apply time_Sleep_delta].
        intros ? w4 H4.
        apply (delta_trans _ _ _ _ _ _ _ (delta_trans _ _ _ _ _ _ _ H12 H3) H4).
      - apply runs_ret.
        eapply runs_mono; [|apply time_Sleep_delta].
        intros ? w4 H4. apply (delta_trans _ _ _ _ _ _ _ H12 H4). }
    eapply runs_mono; [|exact Hone].
    intros ? w1 H1. cbv beta.
    eapply runs_mono; [|apply IH].
    intros ? w2 H2. apply (delta_trans _ _ _ _ _ _ _ H1 H2).
Qed.

Lemma sends_delta0 (c n : nat) (w1 w2 w3 : World) :
  delta 0 0 w1 w2 -> sends c n w2 w3 -> sends c n w1 w3.
Proof.
  intros H1 H2.
  apply (sends_trans c 0 n w1 w2 w3); [|exact H2].
  apply (delta_sends c 0 0); [exact H1 | lia].
Qed.

Lemma sends_then_delta0 (c n : nat) (w1 w2 w3 : World) :
  sends c n w1 w2 -> delta 0 0 w2 w3 -> sends c n w1 w3.
Proof.
  intros H1 H2. replace n with (n + 0)%nat by lia.
  apply (sends_trans c n 0 w1 w2 w3); [exact H1|].
  apply (delta_sends c 0 0); [exact H2 | lia].
Qed.

(** The synchronous phase hands over [min(JcBeforeHS, 3)] junk packets, none
    for a count that is not positive. *)
Lemma executeFastPreHandshakeSequence_sends (c : nat)
    (b : Bind) (config : AmneziaConfig) (host : string) (w : World) :
  amneziaConfig b = Some config -> generates c b ->
  runs (executeFastPreHandshakeSequence b host) w (fun _ w' =>
    sends c (Z.to_nat (Z.min (JcBeforeHS config) 3)) w w').
Proof.
  intros Hcfg Hsafe. unfold executeFastPreHandshakeSequence. rewrite Hcfg.
  apply runs_bind. eapply runs_mono; [|apply signature_loop_delta].
  intros ? w1 H1. cbv beta.
  apply runs_bind.
  assert (Hjunk : runs
    (if 0 <? JcBeforeHS config then
       time_Sleep (3 * Millisecond) ;;;
       sendJunkPackets b host (if 3 <? JcBeforeHS config then 3 else JcBeforeHS config)
         (3 * Millisecond)
     else ret tt) w1
    (fun _ w2 => sends c (Z.to_nat (Z.min (JcBeforeHS config) 3)) w1 w2)).
  { destruct (Z.ltb_spec 0 (JcBeforeHS config)).
    - apply runs_bind. eapply runs_mono; [|apply time_Sleep_delta].
      intros ? w2 H2. cbv beta.
      eapply runs_mono; [|apply sendJunkPackets_sends; exact Hsafe].
      intros ? w3 H3. eapply sends_delta0; [exact H2|].
      replace (Z.min (JcBeforeHS config) 3)
        with (if 3 <? JcBeforeHS config then 3 else JcBeforeHS config);
        [exact H3|].
      destruct (Z.ltb_spec 3 (JcBeforeHS config)); lia.
    - apply runs_ret. replace (Z.to_nat (Z.min (JcBeforeHS config) 3)) with 0%nat by lia.
      apply sends_silent, silent_refl. }
  eapply runs_mono; [|exact Hjunk].
  intros ? w2 H2. cbv beta.
  eapply runs_mono; [|apply time_Sleep_delta].
  intros ? w3 H3.
  apply (sends_then_delta0 c _ w w2 w3); [|exact H3].
  apply (sends_delta0 c _ w w1 w2 H1 H2).
Qed.

(** One optional junk train of the asynchronous phase. *)
Lemma junk_train_sends (c : nat) (b : Bind) (host : string) (guard : bool)
    (pause count interval : Z) (w : World) :
  generates c b ->
  (guard = false -> count <= 0) ->
  runs (if guard then time_Sleep pause ;;; sendJunkPackets b host count interval
        else ret tt) w
       (fun _ w' => sends c (Z.to_nat count) w w').
Proof.
  intros Hsafe Hguard. destruct guard.
  - apply runs_bind. eapply runs_mono; [|apply time_Sleep_delta].
    intros ? w1 H1. cbv beta.
    eapply runs_mono; [|apply sendJunkPackets_sends; exact Hsafe].
    intros ? w2 H2. apply (sends_delta0 c _ w w1 w2 H1 H2).
  - apply runs_ret. replace (Z.to_nat count) with 0%nat by (specialize (Hguard eq_refl); lia).
    apply sends_silent, silent_refl.
Qed.

(** The asynchronous phase hands over the [JcBeforeHS - 3] packets left,
    then the trains of [Jc], [JcAfterI1] and [JcAfterHS] packets. *)
Lemma executePostHandshakeSequence_sends (c : nat)
    (b : Bind) (config : AmneziaConfig) (host : string) (w : World) :
  amneziaConfig b = Some config -> generates c b -> is_int (JcBeforeHS config) ->
  runs (executePostHandshakeSequence b host) w (fun _ w' =>
    sends c (Z.to_nat (JcBeforeHS config - 3) + Z.to_nat (Jc config)
           + Z.to_nat (JcAfterI1 config) + Z.to_nat (JcAfterHS config)) w w').
Proof.
  intros Hcfg Hsafe Hint. unfold executePostHandshakeSequence. rewrite Hcfg.
  set (junkInterval := if JunkInterval config =? 0 then 10 * Millisecond
                       else JunkInterval config).
  apply runs_bind.
  assert (Hrest : runs
    (if 3 <? JcBeforeHS config
     then sendJunkPackets b host (wrap64 (JcBeforeHS config - 3)) junkInterval
     else ret tt) w
    (fun _ w1 => sends c (Z.to_nat (JcBeforeHS config - 3)) w w1)).
  { destruct (Z.ltb_spec 3 (JcBeforeHS config)).
    - rewrite wrap64_small by int_range.
      apply sendJunkPackets_sends. exact Hsafe.
    - apply runs_ret. replace (Z.to_nat (JcBeforeHS config - 3)) with 0%nat by lia.
      apply sends_silent, silent_refl. }
  eapply runs_mono; [|exact Hrest].
  intros ? w1 H1. cbv beta.
  apply runs_bind.
  eapply runs_mono;
    [|apply (junk_train_sends c b host (0 <? Jc config) (50 * Millisecond)
               (Jc config) junkInterval w1 Hsafe);
      intros Hg; apply Z.ltb_ge in Hg; exact Hg].
  intros ? w2 H2. cbv beta.
  apply runs_bind.
  eapply runs_mono;
    [|apply (junk_train_sends c b host (0 <? JcAfterI1 config) (30 * Millisecond)
               (JcAfterI1 config) junkInterval w2 Hsafe);
      intros Hg; apply Z.ltb_ge in Hg; exact Hg].
  intros ? w3 H3. cbv beta.
  eapply runs_mono;
    [|apply (junk_train_sends c b host (0 <? JcAfterHS config) (50 * Millisecond)
               (JcAfterHS config) junkInterval w3 Hsafe);
      intros Hg; apply Z.ltb_ge in Hg; exact Hg].
  intros ? w4 H4.
  apply (sends_trans _ _ _ _ _ _ (sends_trans _ _ _ _ _ _ (sends_trans _ _ _ _ _ _ H1 H2) H3) H4).
Qed.

Lemma safe_bind_of_config (b : Bind) (config : AmneziaConfig) :
  amneziaConfig b = Some config -> junk_safe config -> safe_bind b.
Proof.
  intros Hcfg Hsafe config' Hcfg'. rewrite Hcfg in Hcfg'. now injection Hcfg' as <-.
Qed.

(** *** The datagrams written when the network answers *)

Lemma network_up_extends (w w' : World) : extends w w' -> network_up w -> network_up w'.
Proof. intros Hext Hup k. rewrite (ext_net _ _ Hext). apply Hup. Qed.

Lemma count_empty_le (tr : list Event) :
  (count is_empty_packet tr <= count is_junk_packet tr)%nat.
Proof.
  induction tr as [|e tr IH]; simpl; [lia|].
  destruct e as [site host port data|host [|x data]|d|host|bufs dst]; simpl; lia.
Qed.

(** A step that hands no junk packet over and writes no junk datagram. *)
Lemma writes_delta0 (w w' : World) : delta 0 0 w w' -> writes 0 0 w w'.
Proof.
  intros (Hext & Hp & Hd). split; [exact Hext|]. split; [exact Hp|].
  destruct (ext_trace _ _ Hext) as [evs Hevs].
  unfold junk_packets, empty_packets in *. rewrite Hevs, count_app in *.
  pose proof (count_empty_le evs). lia.
Qed.

Lemma writes_silent (w w' : World) : silent w w' -> writes 0 0 w w'.
Proof. intros H. apply writes_delta0, delta_silent, H. Qed.

Lemma writes_trans (e1 n1 e2 n2 : nat) (w1 w2 w3 : World) :
  writes e1 n1 w1 w2 -> writes e2 n2 w2 w3 -> writes (e1 + e2) (n1 + n2) w1 w3.
Proof.
  intros (x1 & a1 & b1 & c1) (x2 & a2 & b2 & c2).
  split; [exact (extends_trans _ _ _ x1 x2)|]. split; lia.
Qed.

Lemma writes_weaken (e e' n : nat) (w w' : World) :
  writes e n w w' -> (e <= e')%nat -> writes e' n w w'.
Proof. intros (x & a & b & c) He. split; [exact x|]. split; [exact a|]. split; lia. Qed.

(** What [sendUDPPacket] adds to the trace when every dial, listen and
    resolve succeeds. *)
Lemma sendUDPPacket_trace_up (b : Bind) (host : string) (data : list byte) (w : World) :
  network_up w ->
  exists w',
    sendUDPPacket b host data w = Done tt w'
    /\ w_trace w'
       = w_trace w
         ++ EvSendUDP host data
            :: (if len data =? 0
                then [EvWrite AtZeroDial host (port443 b) [];
                      EvWrite AtZeroPacketConn host (port443 b) []]
                else [EvWrite AtJunk host (port443 b) data]).
Proof.
  intros Hup. exists (world_of (sendUDPPacket b host data w)).
  unfold sendUDPPacket, sendTrueZeroByteUDP, sendStandardZeroByte.
  unfold bind, emit, net_try, ret, world_of.
  cbn [w_net w_ncalls w_trace w_clock w_tick w_crypto w_cpos w_cfail w_ccalls
       w_rng w_rpos].
  destruct (len data =? 0);
    cbn [w_net w_ncalls w_trace w_clock w_tick w_crypto w_cpos w_cfail w_ccalls
         w_rng w_rpos];
    rewrite ?Hup;
    cbn [w_net w_ncalls w_trace w_clock w_tick w_crypto w_cpos w_cfail w_ccalls
         w_rng w_rpos];
    rewrite ?Hup;
    cbn [w_net w_ncalls w_trace w_clock w_tick w_crypto w_cpos w_cfail w_ccalls
         w_rng w_rpos];
    rewrite ?Hup;
    cbn [w_net w_ncalls w_trace w_clock w_tick w_crypto w_cpos w_cfail w_ccalls
         w_rng w_rpos];
    rewrite <- ?app_assoc; (split; reflexivity).
Qed.

(** With the network answering, a junk packet is one datagram, and two when
    it is of zero length. *)
Lemma sendUDPPacket_writes (b : Bind) (host : string) (data : list byte) (w : World) :
  network_up w ->
  runs (sendUDPPacket b host data) w (fun _ w' =>
    writes (if len data =? 0 then 1 else 0) 1 w w').
Proof.
  intros Hup.
  destruct (sendUDPPacket_trace_up b host data w Hup) as (w' & Hrun & Htr).
  pose proof (sendUDPPacket_delta b host data w) as Hd.
  unfold runs in *. rewrite Hrun in *. destruct Hd as (d & _ & Hext & _).
  split; [exact Hext|].
  unfold junk_packets, empty_packets, junk_datagrams. rewrite Htr, !count_app.
  destruct data as [|x data].
  - simpl. repeat split; lia.
  - assert (Hlen : (len (x :: data) =? 0) = false)
      by (apply Z.eqb_neq; unfold len; simpl; lia).
    rewrite Hlen. simpl. repeat split; lia.
Qed.

Lemma junk_loop_writes (c : nat) (b : Bind) (host : string) (interval : Z) :
  generates c b ->
  forall (remaining : nat) (w : World),
    network_up w ->
    runs (junk_loop b host remaining interval) w (fun _ w' =>
      writes ((c - 1) * remaining) remaining w w').
Proof.
  intros Hgen. induction remaining as [|k IH]; intros w Hup.
  - apply runs_ret. rewrite Nat.mul_0_r. apply writes_silent, silent_refl.
  - cbn [junk_loop].
    apply runs_bind. eapply runs_mono; [|apply Hgen].
    intros junk w1 [Hs1 Hc]. cbv beta.
    pose proof (network_up_extends _ _ (proj1 Hs1) Hup) as Hup1.
    apply runs_bind. eapply runs_mono; [|apply sendUDPPacket_writes; exact Hup1].
    intros ? w2 H2. cbv beta.
    pose proof (network_up_extends _ _ (proj1 H2) Hup1) as Hup2.
    apply runs_bind.
    assert (Hsleep : runs (if (0 <? Z.of_nat k) && (0 <? interval)
                           then time_Sleep interval else ret tt) w2
                          (fun _ w3 => writes 0 0 w2 w3)).
    { destruct ((0 <? Z.of_nat k) && (0 <? interval)).
      - eapply runs_mono; [|apply time_Sleep_delta].
        intros ? w3 H3. apply writes_delta0. exact H3.
      - apply runs_ret, writes_silent, silent_refl. }
    eapply runs_mono; [|exact Hsleep].
    intros ? w3 H3. cbv beta.
    pose proof (network_up_extends _ _ (proj1 H3) Hup2) as Hup3.
    eapply runs_mono; [|apply IH; exact Hup3].
    intros ? w4 H4.
    pose proof (writes_trans _ _ _ _ _ _ _ (writes_silent _ _ Hs1) H2) as H02.
    pose proof (writes_trans _ _ _ _ _ _ _ H02 H3) as H03.
    pose proof (writes_trans _ _ _ _ _ _ _ H03 H4) as H04.
    replace (S k) with (0 + 1 + 0 + k)%nat at 2 by lia.
    eapply writes_weaken; [exact H04|].
    unfold per_packet in Hc. destruct (len junk =? 0); lia.
Qed.

Lemma sendJunkPackets_writes (c : nat) (b : Bind) (host : string)
    (count interval : Z) (w : World) :
  generates c b -> network_up w ->
  runs (sendJunkPackets b host count interval) w (fun _ w' =>
    writes ((c - 1) * Z.to_nat count) (Z.to_nat count) w w').
Proof.
  intros Hgen Hup. unfold sendJunkPackets.
  destruct (Z.leb_spec count 0).
  - apply runs_ret. replace (Z.to_nat count) with 0%nat by lia.
    rewrite Nat.mul_0_r. apply writes_silent, silent_refl.
  - apply junk_loop_writes; assumption.
Qed.

Lemma executeFastPreHandshakeSequence_writes (c : nat)
    (b : Bind) (config : AmneziaConfig) (host : string) (w : World) :
  amneziaConfig b = Some config -> generates c b -> network_up w ->
  runs (executeFastPreHandshakeSequence b host) w (fun _ w' =>
    writes ((c - 1) * Z.to_nat (Z.min (JcBeforeHS config) 3))
           (Z.to_nat (Z.min (JcBeforeHS config) 3)) w w').
Proof.
  intros Hcfg Hgen Hup. unfold executeFastPreHandshakeSequence. rewrite Hcfg.
  apply runs_bind. eapply runs_mono; [|apply signature_loop_delta].
  intros ? w1 H1. cbv beta.
  pose proof (network_up_extends _ _ (proj1 H1) Hup) as Hup1.
  apply runs_bind.
  assert (Hjunk : runs
    (if 0 <? JcBeforeHS config then
       time_Sleep (3 * Millisecond) ;;;
       sendJunkPackets b host (if 3 <? JcBeforeHS config then 3 else JcBeforeHS config)
         (3 * Millisecond)
     else ret tt) w1
    (fun _ w2 => writes ((c - 1) * Z.to_nat (Z.min (JcBeforeHS config) 3))
                        (Z.to_nat (Z.min (JcBeforeHS config) 3)) w1 w2)).
  { destruct (Z.ltb_spec 0 (JcBeforeHS config)).
    - apply runs_bind. eapply runs_mono; [|apply time_Sleep_delta].
      intros ? w2 H2. cbv beta.
      pose proof (network_up_extends _ _ (proj1 H2) Hup1) as Hup2.
      eapply runs_mono; [|apply (sendJunkPackets_writes c); [exact Hgen | exact Hup2]].
      intros ? w3 H3.
      replace (Z.min (JcBeforeHS config) 3)
        with (if 3 <? JcBeforeHS config then 3 else JcBeforeHS config)
        by (destruct (Z.ltb_spec 3 (JcBeforeHS config)); lia).
      exact (writes_trans 0 0 _ _ _ _ _ (writes_delta0 _ _ H2) H3).
    - apply runs_ret. replace (Z.to_nat (Z.min (JcBeforeHS config) 3)) with 0%nat by lia.
      rewrite Nat.mul_0_r. apply writes_silent, silent_refl. }
  eapply runs_mono; [|exact Hjunk].
  intros ? w2 H2. cbv beta.
  eapply runs_mono; [|apply time_Sleep_delta].
  intros ? w3 H3.
  pose proof (writes_trans _ _ _ _ _ _ _
                (writes_trans 0 0 _ _ _ _ _ (writes_delta0 _ _ H1) H2)
                (writes_delta0 _ _ H3)) as H.
  eapply writes_weaken; [|apply Nat.le_refl].
  replace (Z.to_nat (Z.min (JcBeforeHS config) 3))
    with (0 + Z.to_nat (Z.min (JcBeforeHS config) 3) + 0)%nat at 2 by lia.
  eapply writes_weaken; [exact H|]. lia.
Qed.

Lemma junk_train_writes (c : nat) (b : Bind) (host : string) (guard : bool)
    (pause count interval : Z) (w : World) :
  generates c b -> network_up w ->
  (guard = false -> count <= 0) ->
  runs (if guard then time_Sleep pause ;;; sendJunkPackets b host count interval
        else ret tt) w
       (fun _ w' => writes ((c - 1) * Z.to_nat count) (Z.to_nat count) w w').
Proof.
  intros Hgen Hup Hguard. destruct guard.
  - apply runs_bind. eapply runs_mono; [|apply time_Sleep_delta].
    intros ? w1 H1. cbv beta.
    pose proof (network_up_extends _ _ (proj1 H1) Hup) as Hup1.
    eapply runs_mono; [|apply (sendJunkPackets_writes c); [exact Hgen | exact Hup1]].
    intros ? w2 H2. exact (writes_trans 0 0 _ _ _ _ _ (writes_delta0 _ _ H1) H2).
  - apply runs_ret. replace (Z.to_nat count) with 0%nat by (specialize (Hguard eq_refl); lia).
    rewrite Nat.mul_0_r. apply writes_silent, silent_refl.
Qed.

Lemma executePostHandshakeSequence_writes (c : nat)
    (b : Bind) (config : AmneziaConfig) (host : string) (w : World) :
  amneziaConfig b = Some config -> generates c b -> is_int (JcBeforeHS config) ->
  network_up w ->
  runs (executePostHandshakeSequence b host) w (fun _ w' =>
    writes ((c - 1) * (Z.to_nat (JcBeforeHS config - 3) + Z.to_nat (Jc config)
                       + Z.to_nat (JcAfterI1 config) + Z.to_nat (JcAfterHS config)))
           (Z.to_nat (JcBeforeHS config - 3) + Z.to_nat (Jc config)
            + Z.to_nat (JcAfterI1 config) + Z.to_nat (JcAfterHS config)) w w').
Proof.
  intros Hcfg Hgen Hint Hup. unfold executePostHandshakeSequence. rewrite Hcfg.
  set (junkInterval := if JunkInterval config =? 0 then 10 * Millisecond
                       else JunkInterval config).
  apply runs_bind.
  assert (Hrest : runs
    (if 3 <? JcBeforeHS config
     then sendJunkPackets b host (wrap64 (JcBeforeHS config - 3)) junkInterval
     else ret tt) w
    (fun _ w1 => writes ((c - 1) * Z.to_nat (JcBeforeHS config - 3))
                        (Z.to_nat (JcBeforeHS config - 3)) w w1)).
  { destruct (Z.ltb_spec 3 (JcBeforeHS config)).
    - rewrite wrap64_small by int_range.
      apply sendJunkPackets_writes; assumption.
    - apply runs_ret. replace (Z.to_nat (JcBeforeHS config - 3)) with 0%nat by lia.
      rewrite Nat.mul_0_r. apply writes_silent, silent_refl. }
  eapply runs_mono; [|exact Hrest].
  intros ? w1 H1. cbv beta.
  pose proof (network_up_extends _ _ (proj1 H1) Hup) as Hup1.
  apply runs_bind.
  eapply runs_mono;
    [|apply (junk_train_writes c b host (0 <? Jc config) (50 * Millisecond)
               (Jc config) junkInterval w1 Hgen Hup1);
      intros Hg; apply Z.ltb_ge in Hg; exact Hg].
  intros ? w2 H2. cbv beta.
  pose proof (network_up_extends _ _ (proj1 H2) Hup1) as Hup2.
  apply runs_bind.
  eapply runs_mono;
    [|apply (junk_train_writes c b host (0 <? JcAfterI1 config) (30 * Millisecond)
               (JcAfterI1 config) junkInterval w2 Hgen Hup2);
      intros Hg; apply Z.ltb_ge in Hg; exact Hg].
  intros ? w3 H3. cbv beta.
  pose proof (network_up_extends _ _ (proj1 H3) Hup2) as Hup3.
  eapply runs_mono;
    [|apply (junk_train_writes c b host (0 <? JcAfterHS config) (50 * Millisecond)
               (JcAfterHS config) junkInterval w3 Hgen Hup3);
      intros Hg; apply Z.ltb_ge in Hg; exact Hg].
  intros ? w4 H4.
  pose proof (writes_trans _ _ _ _ _ _ _
                (writes_trans _ _ _ _ _ _ _ (writes_trans _ _ _ _ _ _ _ H1 H2) H3) H4) as H.
  eapply writes_weaken; [exact H|]. lia.
Qed.

(** The packets of a configuration cost [each] datagrams at most: one when
    no packet can be of zero length, two otherwise. *)
Lemma generates_each (b : Bind) (config : AmneziaConfig) :
  amneziaConfig b = Some config -> junk_safe config ->
  generates (if (0 <? Jmin config) && negb (AllowZeroSize config) then 1 else 2) b.
Proof.
  intros Hcfg Hsafe.
  destruct (Z.ltb_spec 0 (Jmin config)) as [Hmin|Hmin]; cbn [andb].
  - destruct (AllowZeroSize config) eqn:Hzero; cbn [negb].
    + apply generates_safe. now apply (safe_bind_of_config b config).
    + destruct Hsafe as (Himin & Himax & _ & _ & Hamin & Hamax).
      now apply (generates_nonempty b config).
  - apply generates_safe. now apply (safe_bind_of_config b config).
Qed.

(** C5, as the code has it. With junk bounds that cannot panic, the
    synchronous phase hands exactly [min(JcBeforeHS, 3)] junk packets to
    [sendUDPPacket] (none when [JcBeforeHS] is not positive) and the
    asynchronous phase exactly [JcBeforeHS - 3] more when that is positive,
    before its trains of [Jc], [JcAfterI1] and [JcAfterHS] packets: the
    [JcBeforeHS] packets in total. When every dial, listen and resolve
    succeeds, a phase writes exactly one datagram for each of its packets
    and one more for each packet of zero length, so exactly as many
    datagrams as packets when no packet can be of zero length ([Jmin > 0]
    and [AllowZeroSize] off). Whatever the network does, a phase writes at
    most two datagrams for each packet, and at most one when no packet can
    be of zero length. *)
Theorem C5_before_handshake_junk_packets_split
    (b : Bind) (config : AmneziaConfig) (host : string) (w wp : World) :
  amneziaConfig b = Some config ->
  junk_safe config ->
  is_int (JcBeforeHS config) ->
  let sync := Z.to_nat (Z.min (JcBeforeHS config) 3) in
  let async := Z.to_nat (JcBeforeHS config - 3) in
  let trains := (Z.to_nat (Jc config) + Z.to_nat (JcAfterI1 config)
                 + Z.to_nat (JcAfterHS config))%nat in
  let each := if (0 <? Jmin config) && negb (AllowZeroSize config)
              then 1%nat else 2%nat in
  exists w1 wp1,
    executeFastPreHandshakeSequence b host w = Done tt w1
    /\ junk_packets w1 = (junk_packets w + sync)%nat
    /\ (junk_datagrams w1 <= junk_datagrams w + each * sync)%nat
    /\ (network_up w ->
        junk_datagrams w1
        = (junk_datagrams w + sync + (empty_packets w1 - empty_packets w))%nat
        /\ (empty_packets w1 - empty_packets w <= (each - 1) * sync)%nat
        /\ (each = 1%nat -> junk_datagrams w1 = (junk_datagrams w + sync)%nat))
    /\ executePostHandshakeSequence b host wp = Done tt wp1
    /\ junk_packets wp1 = (junk_packets wp + (async + trains))%nat
    /\ (junk_datagrams wp1 <= junk_datagrams wp + each * (async + trains))%nat
    /\ (network_up wp ->
        junk_datagrams wp1
        = (junk_datagrams wp + (async + trains)
           + (empty_packets wp1 - empty_packets wp))%nat
        /\ (empty_packets wp1 - empty_packets wp <= (each - 1) * (async + trains))%nat
        /\ (each = 1%nat ->
            junk_datagrams wp1 = (junk_datagrams wp + (async + trains))%nat))
    /\ (sync + async)%nat = Z.to_nat (JcBeforeHS config).
Proof.
  intros Hcfg Hsafe Hint sync async trains each.
  pose proof (generates_each b config Hcfg Hsafe) as Hgen. fold each in Hgen.
  pose proof (executeFastPreHandshakeSequence_sends each b config host w Hcfg Hgen)
    as Hfast.
  pose proof (executePostHandshakeSequence_sends each b config host wp Hcfg Hgen Hint)
    as Hpost.
  apply runs_done in Hfast as ([] & w1 & Hrun1 & _ & Hp1 & Hd1).
  apply runs_done in Hpost as ([] & wp1 & Hrun2 & _ & Hp2 & Hd2).
  exists w1, wp1.
  split; [exact Hrun1|]. split; [exact Hp1|]. split; [exact Hd1|]. split.
  { intros Hup.
    pose proof (executeFastPreHandshakeSequence_writes each b config host w Hcfg Hgen Hup)
      as Hw.
    unfold runs in Hw. rewrite Hrun1 in Hw. destruct Hw as (_ & _ & He & Hd).
    fold sync in He, Hd. repeat split; lia. }
  split; [exact Hrun2|].
  split; [subst async trains; lia|]. split; [subst async trains; lia|]. split.
  { intros Hup.
    pose proof (executePostHandshakeSequence_writes each b config host wp Hcfg Hgen Hint Hup)
      as Hw.
    unfold runs in Hw. rewrite Hrun2 in Hw. destruct Hw as (_ & _ & He & Hd).
    subst async trains. repeat split; lia. }
  subst sync async. lia.
Qed.

(** C5 at five packets with the default bounds: three, then two. *)
Lemma C5_witness :
  let b := Sample.bind_of (Some (Sample.config 24 1024 5)) [] in
  let w := Sample.world 1700000000 true in
  let wp := Sample.world 1700000001 true in
  exists w1 wp1,
    executeFastPreHandshakeSequence b "162.159.192.1" w = Done tt w1
    /\ junk_packets w1 = (junk_packets w + 3)%nat
    /\ (junk_datagrams w1 <= junk_datagrams w + 1 * 3)%nat
    /\ (network_up w ->
        junk_datagrams w1
        = (junk_datagrams w + 3 + (empty_packets w1 - empty_packets w))%nat
        /\ (empty_packets w1 - empty_packets w <= (1 - 1) * 3)%nat
        /\ (1%nat = 1%nat -> junk_datagrams w1 = (junk_datagrams w + 3)%nat))
    /\ executePostHandshakeSequence b "162.159.192.1" wp = Done tt wp1
    /\ junk_packets wp1 = (junk_packets wp + (2 + 0))%nat
    /\ (junk_datagrams wp1 <= junk_datagrams wp + 1 * (2 + 0))%nat
    /\ (network_up wp ->
        junk_datagrams wp1
        = (junk_datagrams wp + (2 + 0) + (empty_packets wp1 - empty_packets wp))%nat
        /\ (empty_packets wp1 - empty_packets wp <= (1 - 1) * (2 + 0))%nat
        /\ (1%nat = 1%nat -> junk_datagrams wp1 = (junk_datagrams wp + (2 + 0))%nat))
    /\ (3 + 2)%nat = 5%nat.
Proof.
  apply (C5_before_handshake_junk_packets_split
           (Sample.bind_of (Some (Sample.config 24 1024 5)) [])
           (Sample.config 24 1024 5) "162.159.192.1"
           (Sample.world 1700000000 true) (Sample.world 1700000001 true)).
  - reflexivity.
  - unfold junk_safe. simpl. repeat split; int_range.
  - simpl. int_range.
Defined.

(** C5, as stated, with junk of zero length ([Jmin = Jmax = 0]) and one
    packet configured: the synchronous phase hands one packet over and writes
    two datagrams for it, one by each method of [sendStandardZeroByte]. And
    with a packet of positive length and a network that does not answer, the
    packet is handed over and no datagram is written. *)
Lemma C5_counterexample_zero_length_junk_written_twice :
  let b := Sample.bind_of (Some (Sample.config 0 0 1)) [] in
  let w := Sample.world 1700000000 true in
  (exists w1,
    executeFastPreHandshakeSequence b "162.159.192.1" w = Done tt w1
    /\ w_trace w1
       = [EvSleep 3000000;
          EvSendUDP "162.159.192.1" [];
          EvWrite AtZeroDial "162.159.192.1" 443 [];
          EvWrite AtZeroPacketConn "162.159.192.1" 443 [];
          EvSleep 2000000]
    /\ Z.min (JcBeforeHS (Sample.config 0 0 1)) 3 = 1
    /\ junk_packets w1 = 1%nat
    /\ junk_datagrams w1 = 2%nat)
  /\ (exists w1,
        executeFastPreHandshakeSequence
          (Sample.bind_of (Some (Sample.config 2 2 1)) []) "162.159.192.1"
          (Sample.world 1700000000 false) = Done tt w1
        /\ w_trace w1
           = [EvSleep 3000000; EvSendUDP "162.159.192.1" [1; 2]; EvSleep 2000000]
        /\ junk_packets w1 = 1%nat
        /\ junk_datagrams w1 = 0%nat).
Proof.
  cbv zeta. split.
  - exists (world_of (executeFastPreHandshakeSequence
                        (Sample.bind_of (Some (Sample.config 0 0 1)) [])
                        "162.159.192.1" (Sample.world 1700000000 true))).
    split; [vm_compute; reflexivity|].
    split; [vm_compute; reflexivity|].
    split; [vm_compute; reflexivity|].
    split; vm_compute; reflexivity.
  - exists (world_of (executeFastPreHandshakeSequence
                        (Sample.bind_of (Some (Sample.config 2 2 1)) [])
                        "162.159.192.1" (Sample.world 1700000000 false))).
    split; [vm_compute; reflexivity|].
    split; [vm_compute; reflexivity|].
    split; vm_compute; reflexivity.
Qed.

(** ** [Send] *)

Lemma executeSimplePreflight_extends (b : Bind) (host : string) (w : World) :
  runs (executeSimplePreflight b host) w (fun _ w' => extends w w').
Proof.
  unfold executeSimplePreflight.
  apply runs_bind. eapply runs_mono; [|apply net_try_delta].
  intros ok w1 [H1 _]. cbv beta. destruct ok.
  - eapply runs_mono; [|apply emit_spec].
    intros ? w2 [H2 _]. exact (extends_trans _ _ _ H1 H2).
  - apply runs_ret. exact H1.
Qed.

(** The step that writes I1 never panics. *)
Lemma I1_step_extends (b : Bind) (config : AmneziaConfig) (host : string) (w : World) :
  runs
    (if negb (String.eqb (I1 config) "") && negb (len (payload b) =? 0) then
       ok <- net_try ;;
       (if ok then emit (EvWrite AtI1 host (port443 b) (payload b)) else ret tt) ;;;
       time_Sleep (5 * Millisecond)
     else ret tt) w (fun _ w1 => extends w w1).
Proof.
  destruct (negb (String.eqb (I1 config) "") && negb (len (payload b) =? 0));
    [|apply runs_ret, extends_refl].
  apply runs_bind. eapply runs_mono; [|apply net_try_delta].
  intros ok w1 [H1 _]. cbv beta.
  apply runs_bind.
  destruct ok.
  - eapply runs_mono; [|apply emit_spec].
    intros ? w2 [H2 _]. cbv beta.
    eapply runs_mono; [|apply emit_spec].
    intros ? w3 [H3 _].
    exact (extends_trans _ _ _ (extends_trans _ _ _ H1 H2) H3).
  - apply runs_ret.
    eapply runs_mono; [|apply emit_spec].
    intros ? w3 [H3 _]. exact (extends_trans _ _ _ H1 H3).
Qed.

Lemma executeMinimalPreHandshakeSequence_extends (b : Bind) (host : string) (w : World) :
  safe_bind b ->
  runs (executeMinimalPreHandshakeSequence b host) w (fun _ w' => extends w w').
Proof.
  intros Hsafe. unfold executeMinimalPreHandshakeSequence.
  destruct (amneziaConfig b) as [config|] eqn:Hcfg;
    [|apply runs_ret, extends_refl].
  apply runs_bind.
  eapply runs_mono; [|apply I1_step_extends].
  intros ? w1 H1. cbv beta.
  apply runs_bind.
  eapply runs_mono;
    [|apply (executeFastPreHandshakeSequence_sends 2 b config host w1 Hcfg
               (generates_safe b Hsafe))].
  intros ? w2 [H2 _]. cbv beta.
  eapply runs_mono; [|apply emit_spec].
  intros ? w3 [H3 _].
  exact (extends_trans _ _ _ (extends_trans _ _ _ H1 H2) H3).
Qed.

(** With junk bounds that cannot panic, [maybePreflight] finishes; it only
    adds to the trace and only changes the rate-limiter map of the bind. *)
Lemma maybePreflight_finishes (b : Bind) (ep : Endpoint) (bufs : list (list byte))
    (w : World) :
  safe_bind b ->
  runs (maybePreflight b ep bufs) w (fun b' w' =>
    extends w w' /\ exists m, b' = set_lastSent b m).
Proof.
  intros Hsafe. unfold maybePreflight.
  destruct (existsb handshakeInitiation bufs); cbn [negb].
  2: { apply runs_ret. split; [apply extends_refl|].
       exists (lastSent b). now rewrite set_lastSent_same. }
  apply runs_bind. unfold rateLimit.
  apply runs_bind. eapply runs_mono; [|apply time_Now_spec].
  intros now w1 [_ [H1 _]]. cbv beta. apply runs_ret.
  set (r := rateLimit_at (interval b) (lastSent b) (DstIP ep) now).
  cbn [fst snd].
  destruct (fst r); cbn [negb].
  2: { apply runs_ret. split; [exact H1 | eauto]. }
  assert (Hsafe' : safe_bind (set_lastSent b (snd r))) by exact Hsafe.
  cbn [amneziaConfig set_lastSent].
  destruct (amneziaConfig b) as [config|] eqn:Hcfg.
  - apply runs_bind.
    eapply runs_mono; [|apply executeMinimalPreHandshakeSequence_extends; exact Hsafe'].
    intros ? w2 H2. apply runs_ret.
    split; [exact (extends_trans _ _ _ H1 H2) | eauto].
  - apply runs_bind.
    eapply runs_mono; [|apply executeSimplePreflight_extends].
    intros ? w2 H2. apply runs_ret.
    split; [exact (extends_trans _ _ _ H1 H2) | eauto].
Qed.

(** With junk bounds that cannot panic, whatever the network and the
    random sources do, [Send] hands the caller's batch and
    endpoint, as they are, to the wrapped transport and returns its result. *)
Lemma Send_forwards_when_junk_safe (b : Bind) (bufs : list (list byte)) (ep : Endpoint)
    (w : World) :
  safe_bind b ->
  exists b' w1,
    maybePreflight b ep bufs w = Done b' w1
    /\ extends w w1
    /\ Send b bufs ep w = (err <- inner b bufs ep ;; ret (err, b')) w1.
Proof.
  intros Hsafe.
  pose proof (maybePreflight_finishes b ep bufs w Hsafe) as H.
  apply runs_done in H as (b' & w1 & Hrun & Hext & m & ->).
  exists (set_lastSent b m), w1. split; [exact Hrun|]. split; [exact Hext|].
  unfold Send, bind at 1. rewrite Hrun. reflexivity.
Qed.

(** How a panic of the junk generator travels up to [Send]. *)
Lemma panics_bind_l {A B} (m : M A) (k : A -> M B) (w : World) :
  panics m w -> panics (bind m k) w.
Proof. intros (msg & w' & H). exists msg, w'. unfold bind. now rewrite H. Qed.

Lemma panics_bind_r {A B} (m : M A) (k : A -> M B) (w : World) :
  runs m w (fun a w' => panics (k a) w') -> panics (bind m k) w.
Proof.
  intros H. apply runs_done in H as (a & w' & Hrun & msg & w'' & Hk).
  exists msg, w''. unfold bind. now rewrite Hrun.
Qed.

Lemma generateJunkPacket_unsafe (b : Bind) (config : AmneziaConfig) (w : World) :
  amneziaConfig b = Some config -> junk_unsafe config ->
  panics (generateJunkPacket b) w.
Proof.
  intros Hcfg (Himin & Himax & Hbad).
  exists "invalid argument to Intn", w.
  now apply (generateJunkPacket_panics b config).
Qed.

Lemma sendJunkPackets_panics (b : Bind) (config : AmneziaConfig) (host : string)
    (count interval : Z) (w : World) :
  amneziaConfig b = Some config -> junk_unsafe config -> 0 < count ->
  panics (sendJunkPackets b host count interval) w.
Proof.
  intros Hcfg Hbad Hcount. unfold sendJunkPackets.
  destruct (Z.leb_spec count 0); [lia|].
  destruct (Z.to_nat count) as [|k] eqn:Hk; [lia|].
  cbn [junk_loop]. apply panics_bind_l.
  now apply (generateJunkPacket_unsafe b config).
Qed.

Lemma executeFastPreHandshakeSequence_panics
    (b : Bind) (config : AmneziaConfig) (host : string) (w : World) :
  amneziaConfig b = Some config -> junk_unsafe config -> 0 < JcBeforeHS config ->
  panics (executeFastPreHandshakeSequence b host) w.
Proof.
  intros Hcfg Hbad Hcount. unfold executeFastPreHandshakeSequence. rewrite Hcfg.
  apply panics_bind_r. eapply runs_mono; [|apply signature_loop_delta].
  intros ? w1 _. cbv beta.
  apply panics_bind_l.
  rewrite (proj2 (Z.ltb_lt 0 (JcBeforeHS config)) Hcount).
  apply panics_bind_r. eapply runs_mono; [|apply time_Sleep_delta].
  intros ? w2 _. cbv beta.
  apply (sendJunkPackets_panics b config); [exact Hcfg | exact Hbad|].
  destruct (3 <? JcBeforeHS config); lia.
Qed.

(** With the junk bounds of [junk_unsafe] and a junk packet to send before
    the handshake, a batch that
    holds a handshake initiation for an admitted destination makes [Send]
    panic; the wrapped transport is not reached. *)
Lemma Send_panics_when_junk_unsafe (b : Bind) (config : AmneziaConfig)
    (bufs : list (list byte)) (ep : Endpoint) (w : World) :
  amneziaConfig b = Some config -> junk_unsafe config -> 0 < JcBeforeHS config ->
  (exists buf, In buf bufs /\ initiation_shaped buf) ->
  interval b <= Time_Sub (w_clock w (w_tick w))
                         (default zeroTime (lastSent b !! DstIP ep)) ->
  panics (Send b bufs ep) w.
Proof.
  intros Hcfg Hbad Hcount (buf & Hin & Hshape) Hadm.
  unfold Send. apply panics_bind_l. unfold maybePreflight.
  assert (Hseen : existsb handshakeInitiation bufs = true).
  { apply existsb_exists. exists buf. split; [exact Hin|].
    now apply handshakeInitiation_shaped. }
  rewrite Hseen. cbn [negb].
  apply panics_bind_r. unfold rateLimit.
  apply runs_bind. eapply runs_mono; [|apply time_Now_spec].
  intros now w1 [-> _]. cbv beta. apply runs_ret.
  rewrite rateLimit_at_cases.
  rewrite (proj2 (Z.leb_le _ _) Hadm). cbn [fst snd negb amneziaConfig set_lastSent].
  rewrite Hcfg. apply panics_bind_l.
  unfold executeMinimalPreHandshakeSequence. cbn [amneziaConfig set_lastSent].
  rewrite Hcfg.
  apply panics_bind_r. eapply runs_mono; [|apply I1_step_extends].
  intros ? w2 _. cbv beta.
  apply panics_bind_l.
  now apply (executeFastPreHandshakeSequence_panics _ config).
Qed.

(** C2, at [Jmin = 0], [Jmax = -1] and one junk packet before the handshake:
    the batch holds a handshake initiation, the destination is admitted, the
    junk generator panics in [rng.Intn(0)], and [Send] ends there: the
    wrapped transport is never called. *)
Theorem C2_Send_panics_before_forwarding :
  let b := Sample.bind_of (Some (Sample.config 0 (-1) 1)) [] in
  let w := Sample.world 1700000000 true in
  handshakeInitiation Sample.initiation = true
  /\ exists w',
       Send b [Sample.initiation] Sample.endpoint w
       = Panic "invalid argument to Intn" w'
       /\ w_trace w' = [EvSleep 3000000].
Proof.
  cbv zeta. split; [vm_compute; reflexivity|].
  exists (world_of (Send (Sample.bind_of (Some (Sample.config 0 (-1) 1)) [])
                         [Sample.initiation] Sample.endpoint
                         (Sample.world 1700000000 true))).
  split; vm_compute; reflexivity.
Qed.

(** ** Signature packets *)

Lemma bind_assoc {A B C} (m : M A) (f : A -> M B) (g : B -> M C) (w : World) :
  bind (bind m f) g w = bind m (fun a => bind (f a) g) w.
Proof. unfold bind. destruct (m w); reflexivity. Qed.

Lemma bind_ext {A B} (m : M A) (f g : A -> M B) (w : World) :
  (forall a w', f a w' = g a w') -> bind m f w = bind m g w.
Proof. intros H. unfold bind. destruct (m w); [apply H | reflexivity]. Qed.

(** The payload of a bind built by [NewWithAmnezia] is I1 as resolved in the
    world of construction. *)
Lemma NewWithAmnezia_keeps_I1 (inner : Transport) (config : AmneziaConfig)
    (port minInterval : Z) (w w' : World) (b : Bind) :
  I1 config <> EmptyString ->
  NewWithAmnezia inner (Some config) port minInterval w = Done (Ok b) w' ->
  parseCPSPacket (I1 config) w = Done (Ok (payload b)) w'
  /\ amneziaConfig b = Some config.
Proof.
  intros HI1. unfold NewWithAmnezia.
  rewrite (proj2 (String.eqb_neq _ _) HI1). cbn [negb]. unfold bind.
  destruct (parseCPSPacket (I1 config) w) as [[bytes|e] w1|msg w1];
    [|discriminate|discriminate].
  unfold ret. intros [= <- <-]. split; reflexivity.
Qed.

(** The bytes written for I1 are the payload kept in the bind, whatever the
    clock and the random sources are when the sequence runs. *)
Lemma I1_write_is_the_kept_payload
    (b : Bind) (config : AmneziaConfig) (host : string) (w : World) :
  amneziaConfig b = Some config ->
  I1 config <> EmptyString -> payload b <> [] ->
  w_net w (w_ncalls w) = true ->
  exists w0,
    net_try w = Done true w0
    /\ executeMinimalPreHandshakeSequence b host w
       = (emit (EvWrite AtI1 host (port443 b) (payload b)) ;;;
          time_Sleep (5 * Millisecond) ;;;
          executeFastPreHandshakeSequence b host ;;;
          emit (EvGo host)) w0.
Proof.
  intros Hcfg HI1 Hpay Hnet.
  pose proof (net_try_spec w) as Htry.
  apply runs_done in Htry as (ok & w0 & Hrun & Hok & _).
  rewrite Hnet in Hok. subst ok. exists w0. split; [exact Hrun|].
  unfold executeMinimalPreHandshakeSequence. rewrite Hcfg.
  rewrite (proj2 (String.eqb_neq _ _) HI1).
  assert (Hlen : (len (payload b) =? 0) = false).
  { apply Z.eqb_neq. unfold len. destruct (payload b); [contradiction | simpl; lia]. }
  rewrite Hlen. cbn [negb andb].
  rewrite !bind_assoc. unfold bind at 1. rewrite Hrun.
  rewrite bind_assoc. reflexivity.
Qed.

(** A template among I2..I5 is resolved when the loop reaches it: the bytes
    written are those [parseCPSPacket] returns in the world of that moment. *)
Lemma signature_is_resolved_when_sent
    (b : Bind) (host : string) (sig : string) (rest : list string) (fastDelay : Z)
    (w w1 : World) (packet : list byte) :
  sig <> EmptyString ->
  parseCPSPacket sig w = Done (Ok packet) w1 ->
  packet <> [] ->
  signature_loop b host (sig :: rest) fastDelay w
  = (ok <- net_try ;;
     (if ok then emit (EvWrite AtSignature host (port443 b) packet) else ret tt) ;;;
     time_Sleep fastDelay ;;;
     signature_loop b host rest fastDelay) w1.
Proof.
  intros Hsig Hparse Hpacket. cbn [signature_loop].
  rewrite (proj2 (String.eqb_neq _ _) Hsig).
  rewrite bind_assoc. unfold bind at 1. rewrite Hparse.
  assert (Hlen : (len packet =? 0) = false).
  { apply Z.eqb_neq. unfold len. destruct packet; [contradiction | simpl; lia]. }
  rewrite Hlen. rewrite bind_assoc.
  apply bind_ext. intros ok w2. apply bind_assoc.
Qed.

(** C1, at a configuration whose I1 has a timestamp tag: the bind is built
    when the clock reads 1700000000 and the handshake is sent an hour later.
    The datagram written for I1 carries the timestamp of construction
    (65 53 f1 00), while the template resolved at that moment gives the
    later one (65 53 ff 10), as the datagram written for I2 shows. *)
Theorem C1_I1_is_sent_with_the_bytes_of_construction :
  let config := Sample.config_sig "<b c0ffee><t>" "<t>" in
  let start := Sample.world 1700000000 true in
  let later := Sample.world 1700003600 true in
  let b := Sample.bind_of (Some config) [192; 255; 238; 101; 83; 241; 0] in
  value_of (NewWithAmnezia Sample.transport (Some config) 443 1000000000 start)
  = Some (Ok b)
  /\ w_trace (world_of (Send b [Sample.initiation] Sample.endpoint later))
     = [EvWrite AtI1 "162.159.192.1" 443 [192; 255; 238; 101; 83; 241; 0];
        EvSleep 5000000;
        EvWrite AtSignature "162.159.192.1" 443 [101; 83; 255; 16];
        EvSleep 3000000;
        EvSleep 2000000;
        EvGo "162.159.192.1";
        EvInner [Sample.initiation] "162.159.192.1"]
  /\ value_of (parseCPSPacket (I1 config) later)
     = Some (Ok [192; 255; 238; 101; 83; 255; 16]).
Proof.
  cbv zeta. split; [vm_compute; reflexivity|].
  split; vm_compute; reflexivity.
Qed.

(** ** The examples of the specification, run on the model *)

Example resolve_empty (w : World) : parseCPSPacket "" w = Done (Ok []) w.
Proof. reflexivity. Qed.

Example resolve_without_tags (w : World) : parseCPSPacket "c0ffee" w = Done (Ok []) w.
Proof. reflexivity. Qed.

Example resolve_bytes_then_random :
  value_of (parseCPSPacket "<b c0ffee><r 4>" (Sample.world 1700000000 true))
  = Some (Ok [192; 255; 238; 1; 2; 3; 4]).
Proof. vm_compute. reflexivity. Qed.

Example resolve_counter_and_timestamp :
  value_of (parseCPSPacket "<c><t>" (Sample.world 1700000000 true))
  = Some (Ok [101; 83; 241; 0; 101; 83; 241; 0]).
Proof. vm_compute. reflexivity. Qed.

Example generate_zero_bounds (w : World) :
  generateJunkPacket (Sample.bind_of (Some (Sample.config 0 0 0)) []) w = Done [] w.
Proof. reflexivity. Qed.

Example rate_limit_within_interval :
  let second := 1000000000 in
  triggered second ∅
    [("162.159.192.1", 1700000000 * second);
     ("162.159.192.1", 1700000000 * second + 500000000);
     ("162.159.192.1", 1700000001 * second)]
  = [("162.159.192.1", 1700000000 * second);
     ("162.159.192.1", 1700000001 * second)].
Proof. vm_compute. reflexivity. Qed.

(** * Further properties of the code

    ** The rate limiter of [maybePreflight] *)

Lemma Time_Sub_zeroTime (now : Time) : 0 <= now -> Time_Sub now zeroTime = MaxInt.
Proof. unfold Time_Sub, zeroTime, MinInt, MaxInt. lia. Qed.

(** X1. A destination that has no entry in [lastSent] is admitted whatever
    the interval (any [Duration]), at any time from 1970 on: the elapsed time
    since the zero [time.Time] saturates at the largest [Duration]. The time
    of the call is then stored for it. *)
Theorem first_handshake_to_a_destination_is_admitted
    (interval : Z) (m : gmap string Time) (dst : Addr) (now : Time) :
  m !! dst = None -> 0 <= now -> interval <= MaxInt ->
  rateLimit_at interval m dst now = (true, <[dst := now]> m).
Proof.
  intros Hm Hnow Hiv. rewrite rateLimit_at_cases, Hm. simpl.
  rewrite (Time_Sub_zeroTime now Hnow).
  destruct (Z.leb_spec interval MaxInt) as [_|Hlt]; [reflexivity | lia].
Qed.

Lemma first_handshake_to_a_destination_is_admitted_witness :
  rateLimit_at MaxInt ({[ "10.0.0.1" := 5 ]} : gmap string Time) "162.159.192.1" 0
  = (true, <["162.159.192.1" := 0]> ({[ "10.0.0.1" := 5 ]} : gmap string Time)).
Proof.
  apply (first_handshake_to_a_destination_is_admitted MaxInt
           ({[ "10.0.0.1" := 5 ]}) "162.159.192.1" 0).
  - apply lookup_singleton_ne. discriminate.
  - lia.
  - lia.
Defined.

(** X2. The rate limiter treats destinations apart: a call for [dst] leaves
    the entry of every other destination as it was, and so does not change
    the verdict a later call for another destination gets. *)
Theorem rate_limiter_keeps_destinations_apart
    (interval : Z) (m : gmap string Time) (dst dst' : Addr) (now now' : Time) :
  dst' <> dst ->
  snd (rateLimit_at interval m dst now) !! dst' = m !! dst'
  /\ fst (rateLimit_at interval (snd (rateLimit_at interval m dst now)) dst' now')
     = fst (rateLimit_at interval m dst' now').
Proof.
  intros Hne.
  assert (Hlook : snd (rateLimit_at interval m dst now) !! dst' = m !! dst').
  { unfold rateLimit_at.
    destruct (Time_Sub now (default zeroTime (m !! dst)) <? interval); simpl.
    - reflexivity.
    - apply lookup_insert_ne. congruence. }
  split; [exact Hlook|].
  unfold rateLimit_at at 1 3. rewrite Hlook.
  destruct (Time_Sub now' (default zeroTime (m !! dst')) <? interval); reflexivity.
Qed.

Lemma rate_limiter_keeps_destinations_apart_witness :
  snd (rateLimit_at 10 (∅ : gmap string Time) "162.159.192.1" 100) !! "10.0.0.1"
  = (∅ : gmap string Time) !! "10.0.0.1"
  /\ fst (rateLimit_at 10 (snd (rateLimit_at 10 (∅ : gmap string Time) "162.159.192.1" 100))
            "10.0.0.1" 101)
     = fst (rateLimit_at 10 (∅ : gmap string Time) "10.0.0.1" 101).
Proof.
  apply (rate_limiter_keeps_destinations_apart 10 ∅ "162.159.192.1" "10.0.0.1" 100 101).
  discriminate.
Defined.

(** X3. After a trigger for [dst] at time [t], a call for [dst] at a time
    less than [interval] after [t] is refused and changes nothing: a
    retransmitted initiation gets no second burst. *)
Theorem retransmission_within_interval_is_refused
    (interval : Z) (m : gmap string Time) (dst : Addr) (t t' : Time) :
  fst (rateLimit_at interval m dst t) = true ->
  Time_Sub t' t < interval ->
  rateLimit_at interval (snd (rateLimit_at interval m dst t)) dst t'
  = (false, snd (rateLimit_at interval m dst t)).
Proof.
  intros Hadm Hlt.
  assert (Hsnd : snd (rateLimit_at interval m dst t) = <[dst := t]> m).
  { revert Hadm. unfold rateLimit_at.
    destruct (Time_Sub t (default zeroTime (m !! dst)) <? interval); simpl.
    - discriminate.
    - reflexivity. }
  rewrite Hsnd. unfold rateLimit_at. rewrite lookup_insert_eq. simpl.
  destruct (Z.ltb_spec (Time_Sub t' t) interval) as [_|Hge]; [reflexivity | lia].
Qed.

Lemma retransmission_within_interval_is_refused_witness :
  rateLimit_at 1000000000
    (snd (rateLimit_at 1000000000 (∅ : gmap string Time) "162.159.192.1" 5000000000))
    "162.159.192.1" 5999999999
  = (false, snd (rateLimit_at 1000000000 (∅ : gmap string Time) "162.159.192.1" 5000000000)).
Proof.
  apply (retransmission_within_interval_is_refused 1000000000 ∅ "162.159.192.1"
           5000000000 5999999999).
  - vm_compute. reflexivity.
  - vm_compute. reflexivity.
Defined.

Lemma final_map_lookup (interval : Z) (dst : Addr) :
  forall (calls : list (Addr * Time)) (m : gmap string Time),
    final_map interval m calls !! dst
    = match last (times_for dst (triggered interval m calls)) with
      | Some t => Some t
      | None => m !! dst
      end.
Proof.
  induction calls as [|[d now] rest IH]; intros m; simpl.
  - reflexivity.
  - rewrite IH. unfold rateLimit_at.
    destruct (Time_Sub now (default zeroTime (m !! d)) <? interval); simpl.
    + reflexivity.
    + destruct (String.eqb_spec d dst) as [->|Hne].
      * destruct (times_for dst (triggered interval (<[dst:=now]> m) rest)) as [|t ts] eqn:E.
        -- simpl. apply lookup_insert_eq.
        -- change (last (now :: t :: ts)) with (last (t :: ts)).
           destruct (last (t :: ts)) eqn:El; [reflexivity|].
           apply last_None in El. discriminate El.
      * destruct (last (times_for dst (triggered interval (<[d:=now]> m) rest))).
        -- reflexivity.
        -- apply lookup_insert_ne. exact Hne.
Qed.

(** X4. What [lastSent] holds after any sequence of calls from the empty
    map: for each destination the time of its last trigger, and no entry for
    a destination that never triggered. Refused calls leave no mark. *)
Theorem lastSent_holds_the_last_trigger
    (interval : Z) (calls : list (Addr * Time)) (dst : Addr) :
  final_map interval ∅ calls !! dst
  = last (times_for dst (triggered interval ∅ calls)).
Proof.
  rewrite final_map_lookup.
  destruct (last (times_for dst (triggered interval ∅ calls))); [reflexivity|].
  apply lookup_empty.
Qed.

(** ** [maybePreflight] and [Send], case by case *)

Lemma initiation_seen (bufs : list (list byte)) :
  (exists buf, In buf bufs /\ initiation_shaped buf) ->
  existsb handshakeInitiation bufs = true.
Proof.
  intros (buf & Hin & Hshape). apply existsb_exists. exists buf.
  split; [exact Hin|]. now apply handshakeInitiation_shaped.
Qed.

Lemma time_Now_run (w : World) :
  time_Now w = Done (w_clock w (w_tick w)) (world_of (time_Now w))
  /\ silent w (world_of (time_Now w)).
Proof.
  pose proof (time_Now_spec w) as H. apply runs_done in H as (t & w1 & Hrun & -> & Hs).
  rewrite Hrun. simpl. split; [reflexivity | exact Hs].
Qed.

(** A refused call: the clock is read, nothing else happens. *)
Lemma maybePreflight_refused (b : Bind) (ep : Endpoint) (bufs : list (list byte))
    (w : World) :
  existsb handshakeInitiation bufs = true ->
  Time_Sub (w_clock w (w_tick w)) (default zeroTime (lastSent b !! DstIP ep)) < interval b ->
  maybePreflight b ep bufs w = Done b (world_of (time_Now w)).
Proof.
  intros Hseen Hlt. unfold maybePreflight. rewrite Hseen. cbn [negb].
  unfold rateLimit. rewrite bind_assoc. unfold bind at 1.
  destruct (time_Now_run w) as [-> _]. unfold bind, ret.
  unfold rateLimit_at. rewrite (proj2 (Z.ltb_lt _ _) Hlt). cbn [fst snd negb].
  now rewrite set_lastSent_same.
Qed.

(** A trigger: the clock is read, the time is stored, the decoy runs. *)
Lemma maybePreflight_triggered (b : Bind) (ep : Endpoint) (bufs : list (list byte))
    (w : World) :
  existsb handshakeInitiation bufs = true ->
  interval b <= Time_Sub (w_clock w (w_tick w)) (default zeroTime (lastSent b !! DstIP ep)) ->
  maybePreflight b ep bufs w
  = (let b' := set_lastSent b (<[DstIP ep := w_clock w (w_tick w)]> (lastSent b)) in
     match amneziaConfig b with
     | Some _ => executeMinimalPreHandshakeSequence b' (DstIP ep) ;;; ret b'
     | None => executeSimplePreflight b' (DstIP ep) ;;; ret b'
     end) (world_of (time_Now w)).
Proof.
  intros Hseen Hadm. unfold maybePreflight. rewrite Hseen. cbn [negb].
  unfold rateLimit. rewrite bind_assoc. unfold bind at 1.
  destruct (time_Now_run w) as [-> _]. unfold bind at 1. unfold ret at 1.
  rewrite rateLimit_at_cases, (proj2 (Z.leb_le _ _) Hadm).
  cbn [fst snd negb amneziaConfig set_lastSent]. cbv zeta. reflexivity.
Qed.

(** X5. A batch with a handshake initiation for a destination the rate
    limiter refuses goes straight to the wrapped transport: the clock is read
    once, nothing is written, no goroutine is started and the bind is
    unchanged. *)
Theorem refused_initiation_is_only_forwarded
    (b : Bind) (bufs : list (list byte)) (ep : Endpoint) (w : World) :
  (exists buf, In buf bufs /\ initiation_shaped buf) ->
  Time_Sub (w_clock w (w_tick w)) (default zeroTime (lastSent b !! DstIP ep)) < interval b ->
  exists w1,
    time_Now w = Done (w_clock w (w_tick w)) w1
    /\ w_trace w1 = w_trace w
    /\ maybePreflight b ep bufs w = Done b w1
    /\ Send b bufs ep w = (err <- inner b bufs ep ;; ret (err, b)) w1.
Proof.
  intros Hex Hlt. pose proof (initiation_seen bufs Hex) as Hseen.
  exists (world_of (time_Now w)).
  destruct (time_Now_run w) as [Hnow [_ Htr]].
  pose proof (maybePreflight_refused b ep bufs w Hseen Hlt) as Hrun.
  split; [exact Hnow|]. split; [exact Htr|]. split; [exact Hrun|].
  unfold Send, bind at 1. rewrite Hrun. reflexivity.
Qed.

Lemma refused_initiation_is_only_forwarded_witness :
  let b := set_lastSent (Sample.bind_of (Some (Sample.config 24 1024 5)) [])
             {[ "162.159.192.1" := 1699999999500000000 ]} in
  let w := Sample.world 1700000000 true in
  exists w1,
    time_Now w = Done (w_clock w (w_tick w)) w1
    /\ w_trace w1 = w_trace w
    /\ maybePreflight b Sample.endpoint [Sample.initiation] w = Done b w1
    /\ Send b [Sample.initiation] Sample.endpoint w
       = (err <- inner b [Sample.initiation] Sample.endpoint ;; ret (err, b)) w1.
Proof.
  cbv zeta.
  apply (refused_initiation_is_only_forwarded
           (set_lastSent (Sample.bind_of (Some (Sample.config 24 1024 5)) [])
              {[ "162.159.192.1" := 1699999999500000000 ]})
           [Sample.initiation] Sample.endpoint (Sample.world 1700000000 true)).
  - exists Sample.initiation. split; [left; reflexivity|].
    split; [exists (repeat 0 147); reflexivity | vm_compute; discriminate].
  - vm_compute. reflexivity.
Defined.

Lemma bind_ret_value {A B} (m : M A) (x y : B) (w w' : World) :
  (m ;;; ret x) w = Done y w' -> y = x.
Proof.
  unfold bind, ret. destruct (m w); [|discriminate]. now intros [= <- _].
Qed.

(** X6. Whenever [maybePreflight] returns, the bind it leaves differs from
    the one it was given in [lastSent] only, and there in the entry of the
    destination only, which is either as before or the time just read from
    the clock. *)
Theorem maybePreflight_changes_only_the_entry_of_the_destination
    (b b' : Bind) (ep : Endpoint) (bufs : list (list byte)) (w w' : World) :
  maybePreflight b ep bufs w = Done b' w' ->
  b' = set_lastSent b (lastSent b')
  /\ (forall dst, dst <> DstIP ep -> lastSent b' !! dst = lastSent b !! dst)
  /\ (lastSent b' = lastSent b
      \/ lastSent b' !! DstIP ep = Some (w_clock w (w_tick w))).
Proof.
  intros Hrun.
  destruct (existsb handshakeInitiation bufs) eqn:Hseen.
  2: { revert Hrun. unfold maybePreflight. rewrite Hseen. cbn [negb]. unfold ret.
       intros [= <- _]. rewrite set_lastSent_same. split; [reflexivity|].
       split; [reflexivity | left; reflexivity]. }
  destruct (Z.lt_ge_cases
              (Time_Sub (w_clock w (w_tick w)) (default zeroTime (lastSent b !! DstIP ep)))
              (interval b)) as [Hlt|Hge].
  - rewrite (maybePreflight_refused b ep bufs w Hseen Hlt) in Hrun.
    injection Hrun as <- _. rewrite set_lastSent_same. split; [reflexivity|].
    split; [reflexivity | left; reflexivity].
  - rewrite (maybePreflight_triggered b ep bufs w Hseen Hge) in Hrun. cbv zeta in Hrun.
    assert (Hb : b' = set_lastSent b (<[DstIP ep := w_clock w (w_tick w)]> (lastSent b))).
    { destruct (amneziaConfig b); exact (bind_ret_value _ _ _ _ _ Hrun). }
    rewrite Hb. cbn [lastSent set_lastSent]. split; [reflexivity|]. split.
    + intros dst Hne. apply lookup_insert_ne. congruence.
    + right. apply lookup_insert_eq.
Qed.

Lemma maybePreflight_changes_only_the_entry_of_the_destination_witness :
  let b := Sample.bind_of (Some (Sample.config 24 1024 5)) [] in
  let w := Sample.world 1700000000 true in
  let b' := set_lastSent b {[ "162.159.192.1" := 1700000000000000000 ]} in
  b' = set_lastSent b (lastSent b')
  /\ (forall dst, dst <> DstIP Sample.endpoint -> lastSent b' !! dst = lastSent b !! dst)
  /\ (lastSent b' = lastSent b
      \/ lastSent b' !! DstIP Sample.endpoint = Some (w_clock w (w_tick w))).
Proof.
  cbv zeta.
  apply (maybePreflight_changes_only_the_entry_of_the_destination
           (Sample.bind_of (Some (Sample.config 24 1024 5)) [])
           (set_lastSent (Sample.bind_of (Some (Sample.config 24 1024 5)) [])
              {[ "162.159.192.1" := 1700000000000000000 ]})
           Sample.endpoint [Sample.initiation]
           (Sample.world 1700000000 true)
           (world_of (maybePreflight (Sample.bind_of (Some (Sample.config 24 1024 5)) [])
                        Sample.endpoint [Sample.initiation]
                        (Sample.world 1700000000 true)))).
  vm_compute. reflexivity.
Defined.

(** X7. A bind made by [New] has no Amnezia configuration; on a trigger it
    dials once and writes its payload, as it is, in one datagram. When the
    dial fails nothing is written and no error is raised. The time of the
    trigger is stored either way. *)
Theorem simple_preflight_writes_the_payload_once
    (b : Bind) (bufs : list (list byte)) (ep : Endpoint) (w : World) :
  amneziaConfig b = None ->
  (exists buf, In buf bufs /\ initiation_shaped buf) ->
  interval b <= Time_Sub (w_clock w (w_tick w)) (default zeroTime (lastSent b !! DstIP ep)) ->
  exists w',
    maybePreflight b ep bufs w
    = Done (set_lastSent b (<[DstIP ep := w_clock w (w_tick w)]> (lastSent b))) w'
    /\ w_trace w'
       = w_trace w ++ (if w_net w (w_ncalls w)
                       then [EvWrite AtSimple (DstIP ep) (port443 b) (payload b)]
                       else [])
    /\ w_ncalls w' = S (w_ncalls w).
Proof.
  intros Hcfg Hex Hadm. pose proof (initiation_seen bufs Hex) as Hseen.
  rewrite (maybePreflight_triggered b ep bufs w Hseen Hadm). rewrite Hcfg. cbv zeta.
  unfold executeSimplePreflight, bind, net_try, time_Now, emit, ret, world_of.
  cbn [w_net w_ncalls w_trace w_clock w_tick w_crypto w_cpos w_cfail w_ccalls w_rng w_rpos
       port443 payload set_lastSent].
  destruct (w_net w (w_ncalls w)).
  - eexists. split; [reflexivity|]. cbn [w_trace w_ncalls]. split; reflexivity.
  - eexists. split; [reflexivity|]. cbn [w_trace w_ncalls]. rewrite app_nil_r.
    split; reflexivity.
Qed.

Lemma simple_preflight_writes_the_payload_once_witness :
  let b := Sample.bind_of None [192; 255; 238] in
  let w := Sample.world 1700000000 true in
  exists w',
    maybePreflight b Sample.endpoint [Sample.data_packet; Sample.initiation] w
    = Done (set_lastSent b (<[DstIP Sample.endpoint := w_clock w (w_tick w)]> (lastSent b))) w'
    /\ w_trace w'
       = w_trace w ++ (if w_net w (w_ncalls w)
                       then [EvWrite AtSimple (DstIP Sample.endpoint) (port443 b) (payload b)]
                       else [])
    /\ w_ncalls w' = S (w_ncalls w).
Proof.
  cbv zeta.
  apply (simple_preflight_writes_the_payload_once
           (Sample.bind_of None [192; 255; 238])
           [Sample.data_packet; Sample.initiation] Sample.endpoint
           (Sample.world 1700000000 true)).
  - reflexivity.
  - exists Sample.initiation. split; [right; left; reflexivity|].
    split; [exists (repeat 0 147); reflexivity | vm_compute; discriminate].
  - vm_compute. discriminate.
Defined.

(** ** Weights of a trace: time slept, goroutines started *)

Lemma total_app (f : Event -> Z) (l1 l2 : list Event) :
  total f (l1 ++ l2) = total f l1 + total f l2.
Proof. induction l1 as [|e l1 IH]; simpl; [reflexivity | rewrite IH; lia]. Qed.

Lemma gains_silent (f : Event -> Z) (w w' : World) : silent w w' -> gains f 0 0 w w'.
Proof. intros [Hext Htr]. split; [exact Hext|]. rewrite Htr. lia. Qed.

Lemma gains_trans (f : Event -> Z) (lo1 hi1 lo2 hi2 : Z) (w1 w2 w3 : World) :
  gains f lo1 hi1 w1 w2 -> gains f lo2 hi2 w2 w3 ->
  gains f (lo1 + lo2) (hi1 + hi2) w1 w3.
Proof.
  intros [H1 B1] [H2 B2]. split; [exact (extends_trans _ _ _ H1 H2) | lia].
Qed.

Lemma gains_weaken (f : Event -> Z) (lo hi lo' hi' : Z) (w w' : World) :
  gains f lo hi w w' -> lo' <= lo -> hi <= hi' -> gains f lo' hi' w w'.
Proof. intros [H B] Hlo Hhi. split; [exact H | lia]. Qed.

Lemma gains_trace (f : Event -> Z) (lo hi : Z) (w w' : World) :
  gains f lo hi w w' ->
  exists evs, w_trace w' = w_trace w ++ evs /\ lo <= total f evs <= hi.
Proof.
  intros [Hext B]. destruct (ext_trace _ _ Hext) as [evs Hevs]. exists evs.
  split; [exact Hevs|]. rewrite Hevs, total_app in B. lia.
Qed.

Lemma emit_gains (f : Event -> Z) (e : Event) (w : World) :
  runs (emit e) w (fun _ w' => gains f (f e) (f e) w w').
Proof.
  eapply runs_mono; [|apply emit_spec]. intros ? w' [Hext Htr].
  split; [exact Hext|]. rewrite Htr, total_app. simpl. lia.
Qed.

Lemma net_try_gains (f : Event -> Z) (w : World) :
  runs net_try w (fun _ w' => gains f 0 0 w w').
Proof.
  eapply runs_mono; [|apply net_try_spec]. intros ? w' [_ Hs].
  now apply gains_silent.
Qed.

Section Weight.

Variable f : Event -> Z.
Hypothesis f_write : forall site host port data, f (EvWrite site host port data) = 0.
Hypothesis f_send : forall host data, f (EvSendUDP host data) = 0.
Hypothesis f_sleep : forall d, 0 <= f (EvSleep d).

Lemma write_gains (ok : bool) (site : Site) (host : string) (port : Z)
    (data : list byte) (w : World) :
  runs (if ok then emit (EvWrite site host port data) else ret tt) w
       (fun _ w' => gains f 0 0 w w').
Proof.
  destruct ok.
  - eapply runs_mono; [|apply (emit_gains f)]. intros ? w' H.
    rewrite f_write in H. exact H.
  - apply runs_ret. apply gains_silent, silent_refl.
Qed.

Lemma dial_and_write_gains (site : Site) (host : string) (port : Z)
    (data : list byte) (w : World) :
  runs (ok <- net_try ;;
        if ok then emit (EvWrite site host port data) else ret tt) w
       (fun _ w' => gains f 0 0 w w').
Proof.
  apply runs_bind. eapply runs_mono; [|apply (net_try_gains f)].
  intros ok w1 H1. cbv beta.
  eapply runs_mono; [|apply write_gains]. intros ? w2 H2.
  exact (gains_trans f 0 0 0 0 _ _ _ H1 H2).
Qed.

Lemma sendStandardZeroByte_gains (b : Bind) (host : string) (w : World) :
  runs (sendStandardZeroByte b host) w (fun _ w' => gains f 0 0 w w').
Proof.
  unfold sendStandardZeroByte.
  apply runs_bind. eapply runs_mono; [|apply (net_try_gains f)].
  intros ok w1 H1. cbv beta.
  apply runs_bind. eapply runs_mono; [|apply write_gains].
  intros ? w2 H2. cbv beta.
  apply runs_bind. eapply runs_mono; [|apply (net_try_gains f)].
  intros ok2 w3 H3. cbv beta.
  pose proof (gains_trans f 0 0 0 0 _ _ _ (gains_trans f 0 0 0 0 _ _ _ H1 H2) H3) as H13.
  destruct ok2.
  - eapply runs_mono; [|apply dial_and_write_gains]. intros ? w4 H4.
    exact (gains_trans f 0 0 0 0 _ _ _ H13 H4).
  - apply runs_ret. exact H13.
Qed.

Lemma sendUDPPacket_gains (b : Bind) (host : string) (data : list byte) (w : World) :
  runs (sendUDPPacket b host data) w (fun _ w' => gains f 0 0 w w').
Proof.
  unfold sendUDPPacket.
  apply runs_bind. eapply runs_mono; [|apply (emit_gains f)].
  intros ? w1 H1. cbv beta. rewrite f_send in H1.
  destruct (len data =? 0).
  - eapply runs_mono; [|apply sendStandardZeroByte_gains]. intros ? w2 H2.
    exact (gains_trans f 0 0 0 0 _ _ _ H1 H2).
  - eapply runs_mono; [|apply dial_and_write_gains]. intros ? w2 H2.
    exact (gains_trans f 0 0 0 0 _ _ _ H1 H2).
Qed.

Lemma junk_loop_gains (c : nat) (b : Bind) (host : string) (interval : Z) :
  generates c b ->
  forall (remaining : nat) (w : World),
    runs (junk_loop b host remaining interval) w (fun _ w' =>
      gains f (pauses f remaining interval) (pauses f remaining interval) w w').
Proof.
  intros Hgen. induction remaining as [|k IH]; intros w.
  - cbn [junk_loop]. apply runs_ret. unfold pauses. simpl.
    destruct (0 <? interval); apply gains_silent, silent_refl.
  - cbn [junk_loop].
    apply runs_bind. eapply runs_mono; [|apply Hgen].
    intros junk w1 [Hs1 _]. cbv beta.
    apply runs_bind. eapply runs_mono; [|apply sendUDPPacket_gains].
    intros ? w2 H2. cbv beta.
    pose proof (gains_trans f 0 0 0 0 _ _ _ (gains_silent f _ _ Hs1) H2) as H12.
    apply runs_bind.
    assert (Hstep : runs (if (0 <? Z.of_nat k) && (0 <? interval)
                          then time_Sleep interval else ret tt) w2
              (fun _ w3 => gains f (pauses f (S k) interval - pauses f k interval)
                                   (pauses f (S k) interval - pauses f k interval) w2 w3)).
    { unfold pauses. cbn [Nat.pred].
      destruct (Z.ltb_spec 0 (Z.of_nat k)) as [Hk|Hk];
        destruct (Z.ltb_spec 0 interval) as [Hi|Hi]; cbn [andb].
      - eapply runs_mono; [|apply (emit_gains f)]. intros ? w3 H3.
        eapply gains_weaken; [exact H3| |];
          destruct k; cbn [Nat.pred]; lia.
      - apply runs_ret. eapply gains_weaken; [apply gains_silent, silent_refl| |]; lia.
      - apply runs_ret. assert (k = O) by lia. subst k.
        eapply gains_weaken; [apply gains_silent, silent_refl| |]; simpl; lia.
      - apply runs_ret. eapply gains_weaken; [apply gains_silent, silent_refl| |]; lia. }
    eapply runs_mono; [|exact Hstep]. intros ? w3 H3. cbv beta.
    eapply runs_mono; [|apply IH]. intros ? w4 H4.
    pose proof (gains_trans f _ _ _ _ _ _ _ (gains_trans f _ _ _ _ _ _ _ H12 H3) H4) as H.
    eapply gains_weaken; [exact H| |]; lia.
Qed.

Lemma sendJunkPackets_gains (c : nat) (b : Bind) (host : string)
    (count interval : Z) (w : World) :
  generates c b ->
  runs (sendJunkPackets b host count interval) w (fun _ w' =>
    gains f (pauses f (Z.to_nat count) interval) (pauses f (Z.to_nat count) interval) w w').
Proof.
  intros Hgen. unfold sendJunkPackets.
  destruct (Z.leb_spec count 0) as [Hle|Hgt].
  - apply runs_ret. replace (Z.to_nat count) with O by lia.
    unfold pauses. simpl. destruct (0 <? interval); apply gains_silent, silent_refl.
  - apply (junk_loop_gains c). exact Hgen.
Qed.

Lemma parseCPSPacket_gains (cps : string) (w : World) :
  runs (parseCPSPacket cps) w (fun _ w' => gains f 0 0 w w').
Proof.
  eapply runs_mono; [|apply parseCPSPacket_silent]. intros ? w' Hs.
  now apply gains_silent.
Qed.

Lemma signature_loop_gains (b : Bind) (host : string) (fastDelay : Z) :
  forall (signatures : list string) (w : World),
    runs (signature_loop b host signatures fastDelay) w (fun _ w' =>
      gains f 0 (len signatures * f (EvSleep fastDelay)) w w').
Proof.
  induction signatures as [|sig rest IH]; intros w.
  - cbn [signature_loop]. apply runs_ret.
    eapply gains_weaken; [apply gains_silent, silent_refl| |]; unfold len; simpl; lia.
  - cbn [signature_loop].
    pose proof (f_sleep fastDelay) as Hnn.
    assert (Hone : runs
              (if String.eqb sig "" then ret tt
               else
                 r <- parseCPSPacket sig ;;
                 match r with
                 | Err _ => ret tt
                 | Ok packet =>
                     if len packet =? 0 then ret tt
                     else
                       ok <- net_try ;;
                       (if ok then emit (EvWrite AtSignature host (port443 b) packet)
                        else ret tt) ;;;
                       time_Sleep fastDelay
                 end) w (fun _ w1 => gains f 0 (f (EvSleep fastDelay)) w w1)).
    { destruct (String.eqb sig "").
      - apply runs_ret. eapply gains_weaken; [apply gains_silent, silent_refl| |]; lia.
      - apply runs_bind. eapply runs_mono; [|apply parseCPSPacket_gains].
        intros r w1 H1. cbv beta.
        destruct r as [packet|e].
        2: { apply runs_ret. eapply gains_weaken; [exact H1| |]; lia. }
        destruct (len packet =? 0).
        { apply runs_ret. eapply gains_weaken; [exact H1| |]; lia. }
        apply runs_bind. eapply runs_mono; [|apply (net_try_gains f)].
        intros ok w2 H2. cbv beta.
        apply runs_bind. eapply runs_mono; [|apply write_gains].
        intros ? w3 H3. cbv beta.
        eapply runs_mono; [|apply (emit_gains f)]. intros ? w4 H4.
        pose proof (gains_trans f _ _ _ _ _ _ _
                      (gains_trans f _ _ _ _ _ _ _
                         (gains_trans f _ _ _ _ _ _ _ H1 H2) H3) H4) as H.
        eapply gains_weaken; [exact H| |]; lia. }
    apply runs_bind. eapply runs_mono; [|exact Hone].
    intros ? w1 H1. cbv beta.
    eapply runs_mono; [|apply IH]. intros ? w2 H2.
    pose proof (gains_trans f _ _ _ _ _ _ _ H1 H2) as H.
    eapply gains_weaken; [exact H| |].
    + lia.
    + unfold len. cbn [length]. lia.
Qed.

Lemma executeFastPreHandshakeSequence_gains (c : nat)
    (b : Bind) (config : AmneziaConfig) (host : string) (w : World) :
  amneziaConfig b = Some config -> generates c b ->
  runs (executeFastPreHandshakeSequence b host) w (fun _ w' =>
    gains f (f (EvSleep (2 * Millisecond)))
            (7 * f (EvSleep (3 * Millisecond)) + f (EvSleep (2 * Millisecond))) w w').
Proof.
  intros Hcfg Hgen. unfold executeFastPreHandshakeSequence. rewrite Hcfg. cbv zeta.
  pose proof (f_sleep (3 * Millisecond)) as Hnn.
  apply runs_bind. eapply runs_mono; [|apply signature_loop_gains].
  intros ? w1 H1. cbv beta.
  change (len [I2 config; I3 config; I4 config; I5 config]) with 4 in H1.
  apply runs_bind.
  assert (Hjunk : runs
            (if 0 <? JcBeforeHS config then
               time_Sleep (3 * Millisecond) ;;;
               sendJunkPackets b host
                 (if 3 <? JcBeforeHS config then 3 else JcBeforeHS config)
                 (3 * Millisecond)
             else ret tt) w1
            (fun _ w2 => gains f 0 (3 * f (EvSleep (3 * Millisecond))) w1 w2)).
  { destruct (Z.ltb_spec 0 (JcBeforeHS config)) as [Hpos|Hnonpos].
    - apply runs_bind. eapply runs_mono; [|apply (emit_gains f)].
      intros ? w2 H2. cbv beta.
      eapply runs_mono; [|apply (sendJunkPackets_gains c); exact Hgen].
      intros ? w3 H3.
      pose proof (gains_trans f _ _ _ _ _ _ _ H2 H3) as H.
      eapply gains_weaken; [exact H| |].
      + unfold pauses. destruct (0 <? 3 * Millisecond); [|lia].
        apply Z.add_nonneg_nonneg; [exact Hnn|].
        apply Z.mul_nonneg_nonneg; [lia | exact Hnn].
      + unfold pauses. destruct (0 <? 3 * Millisecond); [|lia].
        assert (Hk : 0 <= Z.of_nat (Nat.pred (Z.to_nat
                       (if 3 <? JcBeforeHS config then 3 else JcBeforeHS config))) <= 2).
        { destruct (Z.ltb_spec 3 (JcBeforeHS config)); lia. }
        nia.
    - apply runs_ret. eapply gains_weaken; [apply gains_silent, silent_refl| |]; lia. }
  eapply runs_mono; [|exact Hjunk]. intros ? w2 H2. cbv beta.
  eapply runs_mono; [|apply (emit_gains f)]. intros ? w3 H3.
  pose proof (gains_trans f _ _ _ _ _ _ _ (gains_trans f _ _ _ _ _ _ _ H1 H2) H3) as H.
  eapply gains_weaken; [exact H| |]; lia.
Qed.

Lemma I1_step_gains (b : Bind) (config : AmneziaConfig) (host : string) (w : World) :
  runs
    (if negb (String.eqb (I1 config) "") && negb (len (payload b) =? 0) then
       ok <- net_try ;;
       (if ok then emit (EvWrite AtI1 host (port443 b) (payload b)) else ret tt) ;;;
       time_Sleep (5 * Millisecond)
     else ret tt) w
    (fun _ w1 => gains f 0 (f (EvSleep (5 * Millisecond))) w w1).
Proof.
  pose proof (f_sleep (5 * Millisecond)) as Hnn.
  destruct (negb (String.eqb (I1 config) "") && negb (len (payload b) =? 0)).
  2: { apply runs_ret. eapply gains_weaken; [apply gains_silent, silent_refl| |]; lia. }
  apply runs_bind. eapply runs_mono; [|apply (net_try_gains f)].
  intros ok w1 H1. cbv beta.
  apply runs_bind. eapply runs_mono; [|apply write_gains].
  intros ? w2 H2. cbv beta.
  eapply runs_mono; [|apply (emit_gains f)]. intros ? w3 H3.
  pose proof (gains_trans f _ _ _ _ _ _ _ (gains_trans f _ _ _ _ _ _ _ H1 H2) H3) as H.
  eapply gains_weaken; [exact H| |]; lia.
Qed.

(** The synchronous sequence up to the start of the goroutine. *)
Lemma executeMinimalPreHandshakeSequence_gains (c : nat)
    (b : Bind) (config : AmneziaConfig) (host : string) (w : World) :
  amneziaConfig b = Some config -> generates c b ->
  runs (executeMinimalPreHandshakeSequence b host) w (fun _ w' =>
    exists w2,
      gains f (f (EvSleep (2 * Millisecond)))
              (f (EvSleep (5 * Millisecond)) + 7 * f (EvSleep (3 * Millisecond))
               + f (EvSleep (2 * Millisecond))) w w2
      /\ extends w2 w'
      /\ w_trace w' = w_trace w2 ++ [EvGo host]).
Proof.
  intros Hcfg Hgen. unfold executeMinimalPreHandshakeSequence. rewrite Hcfg.
  apply runs_bind. eapply runs_mono; [|apply I1_step_gains].
  intros ? w1 H1. cbv beta.
  apply runs_bind.
  eapply runs_mono; [|apply (executeFastPreHandshakeSequence_gains c b config); assumption].
  intros ? w2 H2. cbv beta.
  eapply runs_mono; [|apply emit_spec]. intros ? w3 [H3 Htr].
  exists w2. split; [|split; [exact H3 | exact Htr]].
  pose proof (gains_trans f _ _ _ _ _ _ _ H1 H2) as H.
  eapply gains_weaken; [exact H| |]; lia.
Qed.

End Weight.

Lemma is_go_write (site : Site) (host : string) (port : Z) (data : list byte) :
  is_go (EvWrite site host port data) = 0.
Proof. reflexivity. Qed.

Lemma is_go_send (host : string) (data : list byte) : is_go (EvSendUDP host data) = 0.
Proof. reflexivity. Qed.

Lemma is_go_sleep (d : Z) : 0 <= is_go (EvSleep d).
Proof. simpl. lia. Qed.

Lemma sleep_time_write (site : Site) (host : string) (port : Z) (data : list byte) :
  sleep_time (EvWrite site host port data) = 0.
Proof. reflexivity. Qed.

Lemma sleep_time_send (host : string) (data : list byte) :
  sleep_time (EvSendUDP host data) = 0.
Proof. reflexivity. Qed.

Lemma sleep_time_sleep (d : Z) : 0 <= sleep_time (EvSleep d).
Proof. simpl. lia. Qed.

(** X8. On a trigger with an Amnezia configuration whose junk bounds cannot
    panic, [maybePreflight] starts the goroutine of the later junk exactly
    once, and as its last step: every write and pause of the synchronous
    sequence comes before it. *)
Theorem triggered_decoy_starts_one_goroutine_last
    (b : Bind) (config : AmneziaConfig) (bufs : list (list byte)) (ep : Endpoint)
    (w : World) :
  amneziaConfig b = Some config -> junk_safe config ->
  (exists buf, In buf bufs /\ initiation_shaped buf) ->
  interval b <= Time_Sub (w_clock w (w_tick w)) (default zeroTime (lastSent b !! DstIP ep)) ->
  exists b' w' evs,
    maybePreflight b ep bufs w = Done b' w'
    /\ w_trace w' = w_trace w ++ evs ++ [EvGo (DstIP ep)]
    /\ total is_go evs = 0.
Proof.
  intros Hcfg Hsafe Hex Hadm. pose proof (initiation_seen bufs Hex) as Hseen.
  rewrite (maybePreflight_triggered b ep bufs w Hseen Hadm). rewrite Hcfg. cbv zeta.
  set (b' := set_lastSent b (<[DstIP ep := w_clock w (w_tick w)]> (lastSent b))).
  destruct (time_Now_run w) as [_ [_ Htr]].
  set (w1 := world_of (time_Now w)) in *.
  assert (Hcfg' : amneziaConfig b' = Some config) by exact Hcfg.
  pose proof (executeMinimalPreHandshakeSequence_gains is_go is_go_write is_go_send
                is_go_sleep 2 b' config (DstIP ep) w1 Hcfg'
                (generates_safe b' (safe_bind_of_config b' config Hcfg' Hsafe))) as Hrun.
  apply runs_done in Hrun as ([] & w3 & Hrun & w2 & Hg & _ & Hlast).
  apply gains_trace in Hg as (evs & Hevs & Hzero). simpl in Hzero.
  exists b', w3, evs. split.
  - unfold bind. rewrite Hrun. reflexivity.
  - split; [|lia]. rewrite Hlast, Hevs, Htr. now rewrite app_assoc.
Qed.

Lemma triggered_decoy_starts_one_goroutine_last_witness :
  let b := Sample.bind_of (Some (Sample.config 24 1024 5)) [] in
  let w := Sample.world 1700000000 true in
  exists b' w' evs,
    maybePreflight b Sample.endpoint [Sample.initiation] w = Done b' w'
    /\ w_trace w' = w_trace w ++ evs ++ [EvGo (DstIP Sample.endpoint)]
    /\ total is_go evs = 0.
Proof.
  cbv zeta.
  apply (triggered_decoy_starts_one_goroutine_last
           (Sample.bind_of (Some (Sample.config 24 1024 5)) [])
           (Sample.config 24 1024 5) [Sample.initiation] Sample.endpoint
           (Sample.world 1700000000 true)).
  - reflexivity.
  - unfold junk_safe, is_int, MinInt, MaxInt, maxAlloc. simpl. lia.
  - exists Sample.initiation. split; [left; reflexivity|].
    split; [exists (repeat 0 147); reflexivity | vm_compute; discriminate].
  - vm_compute. discriminate.
Defined.

(** X9. The pauses of the synchronous sequence, which delay the caller's
    [Send]: with junk bounds that cannot panic they add up to at least 2 ms
    (the final pause) and at most 28 ms (5 after I1, 3 after each of I2..I5,
    3 before the junk, 3 between two of at most three junk packets, 2 at the
    end), whatever the configuration. *)
Theorem synchronous_decoy_sleeps_between_2_and_28_ms
    (b : Bind) (config : AmneziaConfig) (host : string) (w : World) :
  amneziaConfig b = Some config -> junk_safe config ->
  exists w',
    executeMinimalPreHandshakeSequence b host w = Done tt w'
    /\ 2 * Millisecond <= slept w' - slept w <= 28 * Millisecond.
Proof.
  intros Hcfg Hsafe.
  pose proof (executeMinimalPreHandshakeSequence_gains sleep_time sleep_time_write
                sleep_time_send sleep_time_sleep 2 b config host w Hcfg
                (generates_safe b (safe_bind_of_config b config Hcfg Hsafe))) as Hrun.
  apply runs_done in Hrun as ([] & w3 & Hrun & w2 & [_ Hg] & _ & Hlast).
  exists w3. split; [exact Hrun|].
  unfold slept. rewrite Hlast, total_app.
  change (total sleep_time [EvGo host]) with 0.
  change (sleep_time (EvSleep (2 * Millisecond))) with 2000000 in Hg.
  change (sleep_time (EvSleep (3 * Millisecond))) with 3000000 in Hg.
  change (sleep_time (EvSleep (5 * Millisecond))) with 5000000 in Hg.
  unfold Millisecond. lia.
Qed.

Lemma synchronous_decoy_sleeps_between_2_and_28_ms_witness :
  let b := Sample.bind_of (Some (Sample.config 24 1024 5)) [] in
  let w := Sample.world 1700000000 true in
  exists w',
    executeMinimalPreHandshakeSequence b "162.159.192.1" w = Done tt w'
    /\ 2 * Millisecond <= slept w' - slept w <= 28 * Millisecond.
Proof.
  cbv zeta.
  apply (synchronous_decoy_sleeps_between_2_and_28_ms
           (Sample.bind_of (Some (Sample.config 24 1024 5)) [])
           (Sample.config 24 1024 5) "162.159.192.1" (Sample.world 1700000000 true)).
  - reflexivity.
  - unfold junk_safe, is_int, MinInt, MaxInt, maxAlloc. simpl. lia.
Defined.

(** X10. [sendJunkPackets] pauses between two packets only, never after the
    last one, and not at all for an interval that is not positive: for
    [count] packets the time slept is [(count - 1) * interval]. *)
Theorem sendJunkPackets_pauses_between_packets
    (b : Bind) (host : string) (count interval : Z) (w : World) :
  safe_bind b ->
  exists w',
    sendJunkPackets b host count interval w = Done tt w'
    /\ slept w' - slept w = Z.max 0 (count - 1) * Z.max 0 interval.
Proof.
  intros Hsafe.
  pose proof (sendJunkPackets_gains sleep_time sleep_time_write sleep_time_send
                2 b host count interval w (generates_safe b Hsafe)) as Hrun.
  apply runs_done in Hrun as ([] & w' & Hrun & _ & Hg).
  exists w'. split; [exact Hrun|]. unfold slept.
  assert (Hp : pauses sleep_time (Z.to_nat count) interval
               = Z.max 0 (count - 1) * Z.max 0 interval).
  { unfold pauses. cbn [sleep_time].
    destruct (Z.ltb_spec 0 interval) as [Hi|Hi].
    - replace (Z.of_nat (Nat.pred (Z.to_nat count))) with (Z.max 0 (count - 1)) by lia.
      reflexivity.
    - replace (Z.max 0 interval) with 0 by lia. lia. }
  rewrite Hp in Hg. lia.
Qed.

Lemma sendJunkPackets_pauses_between_packets_witness :
  let b := Sample.bind_of (Some (Sample.config 24 1024 5)) [] in
  let w := Sample.world 1700000000 true in
  exists w',
    sendJunkPackets b "162.159.192.1" 4 (10 * Millisecond) w = Done tt w'
    /\ slept w' - slept w = Z.max 0 (4 - 1) * Z.max 0 (10 * Millisecond).
Proof.
  cbv zeta.
  apply (sendJunkPackets_pauses_between_packets
           (Sample.bind_of (Some (Sample.config 24 1024 5)) [])
           "162.159.192.1" 4 (10 * Millisecond) (Sample.world 1700000000 true)).
  intros config [= <-]. unfold junk_safe, is_int, MinInt, MaxInt, maxAlloc. simpl. lia.
Defined.

(** The goroutine of the later junk never panics with junk bounds that
    cannot panic. *)
Lemma executePostHandshakeSequence_extends (b : Bind) (host : string) (w : World) :
  safe_bind b ->
  runs (executePostHandshakeSequence b host) w (fun _ w' => extends w w').
Proof.
  intros Hsafe. pose proof (generates_safe b Hsafe) as Hgen.
  unfold executePostHandshakeSequence.
  destruct (amneziaConfig b) as [config|]; [|apply runs_ret, extends_refl].
  cbv zeta.
  set (junkInterval := if JunkInterval config =? 0 then 10 * Millisecond
                       else JunkInterval config).
  apply runs_bind.
  assert (Hrest : runs
    (if 3 <? JcBeforeHS config
     then sendJunkPackets b host (wrap64 (JcBeforeHS config - 3)) junkInterval
     else ret tt) w (fun _ w1 => extends w w1)).
  { destruct (3 <? JcBeforeHS config); [|apply runs_ret, extends_refl].
    eapply runs_mono; [|apply (sendJunkPackets_sends 2); exact Hgen].
    intros ? w1 [H1 _]. exact H1. }
  eapply runs_mono; [|exact Hrest]. intros ? w1 H1. cbv beta.
  apply runs_bind.
  eapply runs_mono;
    [|apply (junk_train_sends 2 b host (0 <? Jc config) (50 * Millisecond)
               (Jc config) junkInterval w1 Hgen);
      intros Hg; apply Z.ltb_ge in Hg; exact Hg].
  intros ? w2 [H2 _]. cbv beta.
  apply runs_bind.
  eapply runs_mono;
    [|apply (junk_train_sends 2 b host (0 <? JcAfterI1 config) (30 * Millisecond)
               (JcAfterI1 config) junkInterval w2 Hgen);
      intros Hg; apply Z.ltb_ge in Hg; exact Hg].
  intros ? w3 [H3 _]. cbv beta.
  eapply runs_mono;
    [|apply (junk_train_sends 2 b host (0 <? JcAfterHS config) (50 * Millisecond)
               (JcAfterHS config) junkInterval w3 Hgen);
      intros Hg; apply Z.ltb_ge in Hg; exact Hg].
  intros ? w4 [H4 _].
  exact (extends_trans _ _ _ (extends_trans _ _ _ (extends_trans _ _ _ H1 H2) H3) H4).
Qed.

(** X11. With junk bounds that cannot panic, [Send] always reaches the
    wrapped transport, whatever the clock, the network and the random
    sources do: it hands over the caller's batch and endpoint as they are
    and returns the transport's result. The goroutine it may have started
    does not panic either, in whatever state it runs. *)
Theorem Send_reaches_the_transport_when_junk_is_safe
    (b : Bind) (bufs : list (list byte)) (ep : Endpoint) (w : World) :
  safe_bind b ->
  exists b' w1,
    maybePreflight b ep bufs w = Done b' w1
    /\ extends w w1
    /\ inner b' = inner b
    /\ Send b bufs ep w = (err <- inner b bufs ep ;; ret (err, b')) w1
    /\ forall wp, exists wp',
         executePostHandshakeSequence b' (DstIP ep) wp = Done tt wp'.
Proof.
  intros Hsafe.
  pose proof (maybePreflight_finishes b ep bufs w Hsafe) as H.
  apply runs_done in H as (b' & w1 & Hrun & Hext & m & ->).
  exists (set_lastSent b m), w1. split; [exact Hrun|]. split; [exact Hext|].
  split; [reflexivity|]. split.
  - unfold Send, bind at 1. rewrite Hrun. reflexivity.
  - intros wp.
    assert (Hsafe' : safe_bind (set_lastSent b m)) by exact Hsafe.
    pose proof (executePostHandshakeSequence_extends (set_lastSent b m) (DstIP ep) wp
                  Hsafe') as Hpost.
    apply runs_done in Hpost as ([] & wp' & Hpost & _). now exists wp'.
Qed.

Lemma Send_reaches_the_transport_when_junk_is_safe_witness :
  let b := Sample.bind_of (Some (Sample.config 24 1024 5)) [] in
  let w := Sample.world 1700000000 false in
  exists b' w1,
    maybePreflight b Sample.endpoint [Sample.initiation] w = Done b' w1
    /\ extends w w1
    /\ inner b' = inner b
    /\ Send b [Sample.initiation] Sample.endpoint w
       = (err <- inner b [Sample.initiation] Sample.endpoint ;; ret (err, b')) w1
    /\ forall wp, exists wp',
         executePostHandshakeSequence b' (DstIP Sample.endpoint) wp = Done tt wp'.
Proof.
  cbv zeta.
  apply (Send_reaches_the_transport_when_junk_is_safe
           (Sample.bind_of (Some (Sample.config 24 1024 5)) [])
           [Sample.initiation] Sample.endpoint (Sample.world 1700000000 false)).
  intros config [= <-]. unfold junk_safe, is_int, MinInt, MaxInt, maxAlloc. simpl. lia.
Defined.

Lemma count_total (p : Event -> bool) (tr : list Event) :
  Z.of_nat (count p tr) = total (fun e => if p e then 1 else 0) tr.
Proof.
  induction tr as [|e tr IH]; simpl; [reflexivity|]. destruct (p e); lia.
Qed.

Lemma executeFastPreHandshakeSequence_without_junk
    (b : Bind) (config : AmneziaConfig) (host : string) (w : World) :
  amneziaConfig b = Some config -> JcBeforeHS config <= 0 ->
  runs (executeFastPreHandshakeSequence b host) w (fun _ w' =>
    extends w w' /\ junk_packets w' = junk_packets w).
Proof.
  intros Hcfg Hnone. unfold executeFastPreHandshakeSequence. rewrite Hcfg. cbv zeta.
  apply runs_bind. eapply runs_mono; [|apply signature_loop_delta].
  intros ? w1 H1. cbv beta.
  destruct (Z.ltb_spec 0 (JcBeforeHS config)) as [Hpos|_]; [lia|].
  apply runs_bind. apply runs_ret.
  eapply runs_mono; [|apply time_Sleep_delta]. intros ? w2 H2.
  destruct (delta_trans _ _ _ _ _ _ _ H1 H2) as (Hext & Hp & _).
  split; [exact Hext|]. rewrite Hp. lia.
Qed.

(** The goroutine of the later junk with no junk to send: nothing
    happens, whatever the junk bounds are. *)
Lemma executePostHandshakeSequence_without_junk
    (b : Bind) (config : AmneziaConfig) (host : string) (w : World) :
  amneziaConfig b = Some config ->
  JcBeforeHS config <= 3 -> Jc config <= 0 ->
  JcAfterI1 config <= 0 -> JcAfterHS config <= 0 ->
  executePostHandshakeSequence b host w = Done tt w.
Proof.
  intros Hcfg H0 H1 H2 H3. unfold executePostHandshakeSequence. rewrite Hcfg.
  cbv zeta.
  rewrite (proj2 (Z.ltb_ge 3 (JcBeforeHS config))) by lia.
  rewrite (proj2 (Z.ltb_ge 0 (Jc config))) by lia.
  rewrite (proj2 (Z.ltb_ge 0 (JcAfterI1 config))) by lia.
  rewrite (proj2 (Z.ltb_ge 0 (JcAfterHS config))) by lia.
  reflexivity.
Qed.

(** X12. With none of the four junk counts positive the junk generator is
    never reached, neither by [Send] nor by the goroutine it starts: [Send]
    reaches the wrapped transport whatever the junk bounds are, also bounds
    with which the generator would panic, no junk packet is handed over,
    and the goroutine ends without an effect in whatever state it runs. *)
Theorem Send_reaches_the_transport_when_no_junk_is_configured
    (b : Bind) (config : AmneziaConfig) (bufs : list (list byte)) (ep : Endpoint)
    (w : World) :
  amneziaConfig b = Some config ->
  JcBeforeHS config <= 0 -> Jc config <= 0 ->
  JcAfterI1 config <= 0 -> JcAfterHS config <= 0 ->
  exists b' w1,
    maybePreflight b ep bufs w = Done b' w1
    /\ extends w w1
    /\ junk_packets w1 = junk_packets w
    /\ Send b bufs ep w = (err <- inner b bufs ep ;; ret (err, b')) w1
    /\ forall wp, executePostHandshakeSequence b' (DstIP ep) wp = Done tt wp.
Proof.
  intros Hcfg Hnone Hjc Hji1 Hjhs.
  assert (Hpost : forall m wp,
            executePostHandshakeSequence (set_lastSent b m) (DstIP ep) wp = Done tt wp).
  { intros m wp.
    apply (executePostHandshakeSequence_without_junk (set_lastSent b m) config);
      [exact Hcfg | lia | assumption | assumption | assumption]. }
  assert (Hsend : forall b' w1, maybePreflight b ep bufs w = Done b' w1 ->
                    inner b' = inner b ->
                    Send b bufs ep w = (err <- inner b bufs ep ;; ret (err, b')) w1).
  { intros b' w1 Hrun Hin. unfold Send, bind at 1. rewrite Hrun, Hin. reflexivity. }
  destruct (existsb handshakeInitiation bufs) eqn:Hseen.
  2: { exists b, w.
       assert (Hrun : maybePreflight b ep bufs w = Done b w).
       { unfold maybePreflight. rewrite Hseen. reflexivity. }
       split; [exact Hrun|]. split; [apply extends_refl|]. split; [reflexivity|].
       split; [now apply Hsend|].
       intros wp. rewrite <- (set_lastSent_same b). apply Hpost. }
  destruct (time_Now_run w) as [_ [Hext1 Htr1]].
  destruct (Z.lt_ge_cases
              (Time_Sub (w_clock w (w_tick w)) (default zeroTime (lastSent b !! DstIP ep)))
              (interval b)) as [Hlt|Hge].
  - pose proof (maybePreflight_refused b ep bufs w Hseen Hlt) as Hrun.
    exists b, (world_of (time_Now w)).
    split; [exact Hrun|]. split; [exact Hext1|].
    split; [unfold junk_packets; now rewrite Htr1|].
    split; [now apply Hsend|].
    intros wp. rewrite <- (set_lastSent_same b). apply Hpost.
  - pose proof (maybePreflight_triggered b ep bufs w Hseen Hge) as Hrun.
    rewrite Hcfg in Hrun. cbv zeta in Hrun.
    set (b' := set_lastSent b (<[DstIP ep := w_clock w (w_tick w)]> (lastSent b))) in *.
    set (w1 := world_of (time_Now w)) in *.
    assert (Hcfg' : amneziaConfig b' = Some config) by exact Hcfg.
    assert (Hmin : runs (executeMinimalPreHandshakeSequence b' (DstIP ep)) w1
                     (fun _ w' => extends w1 w' /\ junk_packets w' = junk_packets w1)).
    { unfold executeMinimalPreHandshakeSequence. rewrite Hcfg'.
      apply runs_bind.
      eapply runs_mono; [|apply (I1_step_gains (fun e => if is_junk_packet e then 1 else 0))].
      2: reflexivity. 2: simpl; lia.
      intros ? w2 H2. cbv beta.
      apply runs_bind.
      eapply runs_mono;
        [|apply (executeFastPreHandshakeSequence_without_junk b' config); assumption].
      intros ? w3 [H3 Hp3]. cbv beta.
      eapply runs_mono; [|apply emit_delta]. intros ? w4 (H4 & Hp4 & _).
      split; [exact (extends_trans _ _ _ (extends_trans _ _ _ (proj1 H2) H3) H4)|].
      rewrite Hp4, Hp3. cbn [is_junk_packet].
      destruct H2 as [_ Hb]. rewrite <- !count_total in Hb. cbn [is_junk_packet] in Hb.
      unfold junk_packets. lia. }
    apply runs_done in Hmin as ([] & w' & Hmin & Hext & Hp).
    assert (Hrun' : maybePreflight b ep bufs w = Done b' w').
    { rewrite Hrun. unfold bind. rewrite Hmin. reflexivity. }
    exists b', w'. split; [exact Hrun'|].
    split; [exact (extends_trans _ _ _ Hext1 Hext)|].
    split; [rewrite Hp; unfold junk_packets; now rewrite <- Htr1|].
    split; [now apply Hsend|].
    intros wp. apply Hpost.
Qed.

Lemma Send_reaches_the_transport_when_no_junk_is_configured_witness :
  let b := Sample.bind_of (Some (Sample.config 0 (-1) 0)) [] in
  let w := Sample.world 1700000000 true in
  exists b' w1,
    maybePreflight b Sample.endpoint [Sample.initiation] w = Done b' w1
    /\ extends w w1
    /\ junk_packets w1 = junk_packets w
    /\ Send b [Sample.initiation] Sample.endpoint w
       = (err <- inner b [Sample.initiation] Sample.endpoint ;; ret (err, b')) w1
    /\ forall wp, executePostHandshakeSequence b' (DstIP Sample.endpoint) wp = Done tt wp.
Proof.
  cbv zeta.
  apply (Send_reaches_the_transport_when_no_junk_is_configured
           (Sample.bind_of (Some (Sample.config 0 (-1) 0)) [])
           (Sample.config 0 (-1) 0) [Sample.initiation] Sample.endpoint
           (Sample.world 1700000000 true)).
  - reflexivity.
  - simpl. lia.
  - simpl. lia.
  - simpl. lia.
  - simpl. lia.
Defined.

(** ** The junk generator, draw by draw *)

Lemma keeps_secure_refl (w : World) : keeps_secure w w.
Proof. split; [apply silent_refl | split; reflexivity]. Qed.

Lemma keeps_secure_trans (w1 w2 w3 : World) :
  keeps_secure w1 w2 -> keeps_secure w2 w3 -> keeps_secure w1 w3.
Proof.
  intros (S1 & P1 & C1) (S2 & P2 & C2).
  split; [exact (silent_trans _ _ _ S1 S2) | split; congruence].
Qed.

Lemma keeps_secure_bytes (w w1 : World) (n : nat) :
  keeps_secure w w1 ->
  crypto_bytes w1 n = crypto_bytes w n
  /\ w_cfail w1 (w_ccalls w1) = w_cfail w (w_ccalls w).
Proof.
  intros ([Hext _] & Hpos & Hcalls). unfold crypto_bytes.
  rewrite (ext_crypto _ _ Hext), (ext_cfail _ _ Hext), Hpos, Hcalls.
  split; reflexivity.
Qed.

(** One draw of [rng]: the value, and the cursor one further. *)
Lemma rng_Intn_run (n : Z) (w : World) :
  0 < n ->
  exists w1,
    rng_Intn n w = Done (w_rng w (w_rpos w) mod n) w1
    /\ keeps_secure w w1
    /\ w_rpos w1 = S (w_rpos w).
Proof.
  intros Hn. unfold rng_Intn. destruct (Z.leb_spec n 0) as [Hle|_]; [lia|].
  eexists. split; [reflexivity|]. split; [|reflexivity].
  split; [|split; reflexivity].
  split; [|reflexivity]. split; try reflexivity. exists []. simpl. now rewrite app_nil_r.
Qed.

(** The fallback loop: one draw of [rng] for each byte, in order. *)
Lemma fallback_fill_run (n : nat) :
  forall w : World,
    exists w',
      fallback_fill n w
      = Done (map (fun i => to_byte (w_rng w (w_rpos w + i)%nat mod 256)) (seq 0 n)) w'
      /\ keeps_secure w w'
      /\ w_rpos w' = (w_rpos w + n)%nat.
Proof.
  induction n as [|n IH]; intros w.
  - exists w. split; [reflexivity|]. split; [apply keeps_secure_refl | simpl; lia].
  - cbn [fallback_fill].
    destruct (rng_Intn_run 256 w ltac:(lia)) as (w1 & Hrun & Hk1 & Hp1).
    destruct (IH w1) as (w2 & Hrun2 & Hk2 & Hp2).
    exists w2. split; [|split; [exact (keeps_secure_trans _ _ _ Hk1 Hk2) | lia]].
    unfold bind. rewrite Hrun, Hrun2. unfold ret. f_equal.
    cbn [seq map]. rewrite Nat.add_0_r. f_equal.
    rewrite <- seq_shift, map_map.
    apply map_ext. intros i.
    destruct Hk1 as ([Hext _] & _). rewrite (ext_rng _ _ Hext), Hp1.
    replace (S (w_rpos w) + i)%nat with (w_rpos w + S i)%nat by lia. reflexivity.
Qed.

(** The block that fills a packet of [size] bytes. *)
Lemma fill_junk_run (size : Z) (w : World) :
  0 <= size <= maxAlloc ->
  exists junk w',
    fill_junk size w = Done junk w'
    /\ silent w w'
    /\ len junk = size
    /\ (w_cfail w (w_ccalls w) = false ->
        junk = crypto_bytes w (Z.to_nat size)
        /\ w_cpos w' = (w_cpos w + Z.to_nat size)%nat
        /\ w_rpos w' = w_rpos w)
    /\ (w_cfail w (w_ccalls w) = true ->
        junk = map (fun i => to_byte (w_rng w (w_rpos w + i)%nat mod 256))
                   (seq 0 (Z.to_nat size))
        /\ w_cpos w' = w_cpos w
        /\ w_rpos w' = (w_rpos w + Z.to_nat size)%nat).
Proof.
  intros Hsize. unfold fill_junk. rewrite (fill_junk_allocates size Hsize).
  unfold bind, rand_Read.
  destruct (w_cfail w (w_ccalls w)) eqn:Hfail.
  - match goal with
    | |- context [fallback_fill ?n ?w0] =>
        destruct (fallback_fill_run n w0) as (w' & Hrun & (Hs & Hc & _) & Hp)
    end.
    cbn [w_rng w_rpos w_cpos] in Hrun, Hc, Hp.
    eexists _, w'. split; [exact Hrun|]. split.
    + eapply silent_trans; [|exact Hs].
      split; [|reflexivity]. split; try reflexivity. exists []. simpl.
      now rewrite app_nil_r.
    + split; [unfold len; rewrite length_map, length_seq; lia|].
      split; [discriminate|]. intros _.
      split; [reflexivity | split; [exact Hc | exact Hp]].
  - unfold ret. eexists _, _. split; [reflexivity|]. split.
    + split; [|reflexivity]. split; try reflexivity. exists []. simpl.
      now rewrite app_nil_r.
    + split; [unfold len; rewrite length_map, length_seq; lia|].
      split; [|discriminate]. intros _. cbn [w_cpos w_rpos].
      split; [reflexivity | split; reflexivity].
Qed.

(** X13. With [Jmin = 0] and a positive [Jmax] that [make] accepts, the
    length of a junk packet is one draw of [rng] reduced modulo [Jmax + 1]:
    between 0 and [Jmax], both included, whatever [AllowZeroSize] says. *)
Theorem junk_length_from_zero_up_to_Jmax
    (b : Bind) (config : AmneziaConfig) (w : World) :
  amneziaConfig b = Some config ->
  Jmin config = 0 -> 0 < Jmax config <= maxAlloc ->
  exists junk w',
    generateJunkPacket b w = Done junk w'
    /\ len junk = w_rng w (w_rpos w) mod (Jmax config + 1)
    /\ 0 <= len junk <= Jmax config.
Proof.
  intros Hcfg Hmin Hmax. unfold generateJunkPacket. rewrite Hcfg, Hmin. cbv zeta.
  change (0 =? 0) with true. cbn [andb].
  destruct (Z.eqb_spec (Jmax config) 0) as [H0|_]; [lia|].
  rewrite wrap64_small by int_range.
  destruct (rng_Intn_run (Jmax config + 1) w ltac:(lia)) as (w1 & Hrun & _ & _).
  unfold bind. rewrite Hrun.
  pose proof (Z.mod_pos_bound (w_rng w (w_rpos w)) (Jmax config + 1) ltac:(lia)) as Hb.
  destruct (Z.eqb_spec (w_rng w (w_rpos w) mod (Jmax config + 1)) 0) as [Hz|Hnz].
  - exists [], w1. split; [reflexivity|]. rewrite Hz. unfold len. simpl. lia.
  - destruct (fill_junk_run (w_rng w (w_rpos w) mod (Jmax config + 1)) w1 ltac:(lia))
      as (junk & w' & Hfill & _ & Hlen & _).
    exists junk, w'. split; [exact Hfill|]. rewrite Hlen. split; [reflexivity | lia].
Qed.

Lemma junk_length_from_zero_up_to_Jmax_witness :
  let b := Sample.bind_of (Some (Sample.config 0 40 1)) [] in
  let w := Sample.world 1700000000 true in
  exists junk w',
    generateJunkPacket b w = Done junk w'
    /\ len junk = w_rng w (w_rpos w) mod (Jmax (Sample.config 0 40 1) + 1)
    /\ 0 <= len junk <= Jmax (Sample.config 0 40 1).
Proof.
  cbv zeta.
  apply (junk_length_from_zero_up_to_Jmax
           (Sample.bind_of (Some (Sample.config 0 40 1)) [])
           (Sample.config 0 40 1) (Sample.world 1700000000 true)).
  - reflexivity.
  - reflexivity.
  - unfold maxAlloc. simpl. lia.
Defined.

(** X14. With [AllowZeroSize] set, a positive [Jmin] and bounds that
    [make] accepts, one draw of [rng] decides: when it is even the packet is
    empty; when it is odd the length is [Jmin] plus the next draw reduced to
    the width of the range, so between [Jmin] and the larger of [Jmin] and
    [Jmax]. *)
Theorem junk_is_empty_on_an_even_draw
    (b : Bind) (config : AmneziaConfig) (w : World) :
  amneziaConfig b = Some config ->
  AllowZeroSize config = true ->
  0 < Jmin config <= maxAlloc -> is_int (Jmax config) -> Jmax config <= maxAlloc ->
  let hi := Z.max (Jmin config) (Jmax config) in
  exists junk w',
    generateJunkPacket b w = Done junk w'
    /\ (w_rng w (w_rpos w) mod 2 = 0 -> junk = [])
    /\ (w_rng w (w_rpos w) mod 2 <> 0 ->
        Jmin config <= len junk <= hi
        /\ (Jmin config < hi ->
            len junk = Jmin config
                       + w_rng w (S (w_rpos w)) mod (hi - Jmin config + 1))).
Proof.
  intros Hcfg Hzero [Hpos Hamin] Himax Hamax hi.
  assert (Himin : is_int (Jmin config)) by int_range.
  unfold generateJunkPacket. rewrite Hcfg, Hzero. cbv zeta.
  destruct (Z.eqb_spec (Jmin config) 0) as [H0|_]; [lia|]. cbn [andb].
  rewrite (proj2 (Z.ltb_lt 0 (Jmin config)) Hpos).
  destruct (rng_Intn_run 2 w ltac:(lia)) as (w1 & Hrun & Hk1 & Hp1).
  rewrite bind_assoc. unfold bind at 1. rewrite Hrun. unfold bind at 1, ret at 1.
  destruct (Z.eqb_spec (w_rng w (w_rpos w) mod 2) 0) as [Heven|Hodd].
  { exists [], w1. split; [reflexivity|]. split; [reflexivity | contradiction]. }
  destruct (Z.ltb_spec (Jmin config) 0) as [Hneg|_]; [lia|].
  assert (Hhi : (if Jmax config <? Jmin config then Jmin config else Jmax config) = hi).
  { unfold hi. destruct (Z.ltb_spec (Jmax config) (Jmin config)); lia. }
  rewrite Hhi.
  assert (Hhi_int : Jmin config <= hi <= maxAlloc) by (unfold hi; lia).
  destruct (Z.eqb_spec hi (Jmin config)) as [Heq|Hne].
  - unfold bind at 1, ret at 1.
    destruct (Z.eqb_spec (Jmin config) 0) as [H0|_]; [lia|].
    destruct (fill_junk_run (Jmin config) w1 ltac:(lia)) as (junk & w' & Hfill & _ & Hlen & _).
    exists junk, w'. split; [exact Hfill|]. split; [intros; contradiction|].
    intros _. rewrite Hlen. split; lia.
  - assert (Hw : wrap64 (wrap64 (hi - Jmin config) + 1) = hi - Jmin config + 1).
    { rewrite (wrap64_small (hi - Jmin config)) by int_range.
      apply wrap64_small. int_range. }
    rewrite Hw.
    destruct (rng_Intn_run (hi - Jmin config + 1) w1 ltac:(lia)) as (w2 & Hrun2 & _ & _).
    rewrite bind_assoc. unfold bind at 1. rewrite Hrun2. unfold bind at 1, ret at 1.
    destruct Hk1 as ([Hext _] & _). rewrite (ext_rng _ _ Hext), Hp1.
    pose proof (Z.mod_pos_bound (w_rng w (S (w_rpos w))) (hi - Jmin config + 1)
                  ltac:(lia)) as Hb.
    set (x := w_rng w (S (w_rpos w)) mod (hi - Jmin config + 1)) in *.
    rewrite (wrap64_small (Jmin config + x)) by int_range.
    destruct (Z.eqb_spec (Jmin config + x) 0) as [H0|_]; [lia|].
    destruct (fill_junk_run (Jmin config + x) w2 ltac:(lia))
      as (junk & w' & Hfill & _ & Hlen & _).
    exists junk, w'. split; [exact Hfill|]. split; [intros; contradiction|].
    intros _. rewrite Hlen. split; [lia | reflexivity].
Qed.

Lemma junk_is_empty_on_an_even_draw_witness :
  let config :=
    {| I1 := ""; I2 := ""; I3 := ""; I4 := ""; I5 := ""; S1 := 0; S2 := 0;
       Jc := 0; Jmin := 24; Jmax := 1024; JcAfterI1 := 0; JcBeforeHS := 3;
       JcAfterHS := 0; JunkInterval := 0; AllowZeroSize := true;
       HandshakeDelay := 0 |} in
  let b := Sample.bind_of (Some config) [] in
  let w := Sample.world 1700000000 true in
  let hi := Z.max (Jmin config) (Jmax config) in
  exists junk w',
    generateJunkPacket b w = Done junk w'
    /\ (w_rng w (w_rpos w) mod 2 = 0 -> junk = [])
    /\ (w_rng w (w_rpos w) mod 2 <> 0 ->
        Jmin config <= len junk <= hi
        /\ (Jmin config < hi ->
            len junk = Jmin config
                       + w_rng w (S (w_rpos w)) mod (hi - Jmin config + 1))).
Proof.
  cbv zeta.
  apply (junk_is_empty_on_an_even_draw
           (Sample.bind_of
              (Some {| I1 := ""; I2 := ""; I3 := ""; I4 := ""; I5 := ""; S1 := 0; S2 := 0;
                       Jc := 0; Jmin := 24; Jmax := 1024; JcAfterI1 := 0; JcBeforeHS := 3;
                       JcAfterHS := 0; JunkInterval := 0; AllowZeroSize := true;
                       HandshakeDelay := 0 |}) [])
           _ (Sample.world 1700000000 true)).
  - reflexivity.
  - reflexivity.
  - unfold maxAlloc. simpl. lia.
  - unfold is_int, MinInt, MaxInt. simpl. lia.
  - unfold maxAlloc. simpl. lia.
Defined.

(** The generator first settles a size, drawing from [rng] only, and then
    fills a packet of that size. *)
Lemma generateJunkPacket_size_then_fill (b : Bind) (config : AmneziaConfig) (w : World) :
  amneziaConfig b = Some config -> junk_safe config ->
  exists size w1,
    0 <= size <= maxAlloc
    /\ keeps_secure w w1
    /\ generateJunkPacket b w = (if size =? 0 then ret [] else fill_junk size) w1.
Proof.
  intros Hcfg (Himin & Himax & Hzero & Htop & Hamin & Hamax).
  unfold generateJunkPacket. rewrite Hcfg. cbv zeta.
  destruct (Z.eqb_spec (Jmin config) 0) as [Hmin0|Hmin0].
  - destruct (Z.eqb_spec (Jmax config) 0) as [Hmax0|Hmax0]; cbn [andb].
    + exists 0, w. split; [int_range|]. split; [apply keeps_secure_refl | reflexivity].
    + specialize (Hzero Hmin0). specialize (Htop ltac:(lia)).
      rewrite (wrap64_small (Jmax config + 1)) by int_range.
      destruct (rng_Intn_run (Jmax config + 1) w ltac:(lia)) as (w1 & Hrun & Hk & _).
      pose proof (Z.mod_pos_bound (w_rng w (w_rpos w)) (Jmax config + 1) ltac:(lia)) as Hb.
      exists (w_rng w (w_rpos w) mod (Jmax config + 1)), w1.
      split; [lia|]. split; [exact Hk|]. unfold bind. rewrite Hrun. reflexivity.
  - cbn [andb].
    assert (Hdraw : exists zero w1,
               (if AllowZeroSize config && (0 <? Jmin config)
                then x <- rng_Intn 2 ;; ret (x =? 0) else ret false) w = Done zero w1
               /\ keeps_secure w w1).
    { destruct (AllowZeroSize config && (0 <? Jmin config)).
      - destruct (rng_Intn_run 2 w ltac:(lia)) as (w1 & Hrun & Hk & _).
        eexists _, w1. split; [|exact Hk]. unfold bind. rewrite Hrun. reflexivity.
      - exists false, w. split; [reflexivity | apply keeps_secure_refl]. }
    destruct Hdraw as (zero & w1 & Hdraw & Hk1).
    unfold bind at 1. rewrite Hdraw.
    destruct zero.
    { exists 0, w1. split; [int_range|]. split; [exact Hk1 | reflexivity]. }
    set (lo := if Jmin config <? 0 then 0 else Jmin config).
    set (hi := if Jmax config <? lo then lo else Jmax config).
    assert (Hlo : 0 <= lo /\ lo <= MaxInt /\ (lo = 0 -> Jmin config < 0)).
    { unfold lo. destruct (Z.ltb_spec (Jmin config) 0); int_range. }
    assert (Hhi : lo <= hi /\ hi <= MaxInt /\ (lo = 0 -> hi < MaxInt)).
    { unfold hi. destruct (Z.ltb_spec (Jmax config) lo).
      - repeat split; int_range.
      - repeat split; int_range. }
    assert (Hfit : hi <= maxAlloc).
    { unfold hi. destruct (Z.ltb_spec (Jmax config) lo); [|exact Hamax].
      unfold lo. destruct (Z.ltb_spec (Jmin config) 0); int_range. }
    destruct (Z.eqb_spec hi lo) as [Heq|Hne].
    + exists lo, w1. split; [lia|]. split; [exact Hk1 | reflexivity].
    + rewrite (wrap64_small (hi - lo)) by int_range.
      assert (hi - lo + 1 <= MaxInt).
      { destruct (Z.eq_dec lo 0) as [H0|H0]; [pose proof (proj2 (proj2 Hhi) H0)|]; lia. }
      rewrite (wrap64_small (hi - lo + 1)) by int_range.
      destruct (rng_Intn_run (hi - lo + 1) w1 ltac:(lia)) as (w2 & Hrun & Hk2 & _).
      pose proof (Z.mod_pos_bound (w_rng w1 (w_rpos w1)) (hi - lo + 1) ltac:(lia)) as Hb.
      exists (lo + w_rng w1 (w_rpos w1) mod (hi - lo + 1)), w2.
      split; [lia|]. split; [exact (keeps_secure_trans _ _ _ Hk1 Hk2)|].
      rewrite bind_assoc. unfold bind at 1. rewrite Hrun. unfold bind at 1, ret at 1.
      rewrite (wrap64_small (lo + _)) by int_range. reflexivity.
Qed.

Lemma generateJunkPacket_provenance (b : Bind) (config : AmneziaConfig) (w : World) :
  amneziaConfig b = Some config -> junk_safe config ->
  exists junk w',
    generateJunkPacket b w = Done junk w'
    /\ (w_cfail w (w_ccalls w) = false ->
        junk = crypto_bytes w (length junk)
        /\ w_cpos w' = (w_cpos w + length junk)%nat)
    /\ (w_cfail w (w_ccalls w) = true ->
        junk = map (fun i => to_byte (w_rng w (w_rpos w' - length junk + i)%nat mod 256))
                   (seq 0 (length junk))
        /\ w_cpos w' = w_cpos w).
Proof.
  intros Hcfg Hsafe.
  destruct (generateJunkPacket_size_then_fill b config w Hcfg Hsafe)
    as (size & w1 & Hsize & Hk & ->).
  destruct Hk as (Hs1 & Hc1 & Hcalls1).
  destruct (Z.eqb_spec size 0) as [->|Hnz].
  - exists [], w1. split; [reflexivity|]. cbn [length seq map].
    split; intros _; (split; [reflexivity | lia]).
  - destruct (fill_junk_run size w1 Hsize) as (junk & w' & Hfill & _ & Hlen & Hok & Hfail).
    assert (Hn : length junk = Z.to_nat size) by (unfold len in Hlen; lia).
    destruct (keeps_secure_bytes w w1 (Z.to_nat size) (conj Hs1 (conj Hc1 Hcalls1)))
      as [Hbytes Hcf].
    exists junk, w'. split; [exact Hfill|]. rewrite Hn. split.
    + intros Hgood. rewrite <- Hcf in Hgood. destruct (Hok Hgood) as (-> & Hpos & _).
      split; [exact Hbytes | lia].
    + intros Hbad. rewrite <- Hcf in Hbad. destruct (Hfail Hbad) as (-> & Hpos & Hr).
      split; [|lia]. apply map_ext. intros i.
      destruct Hs1 as [Hext _]. rewrite (ext_rng _ _ Hext).
      replace (w_rpos w' - Z.to_nat size + i)%nat with (w_rpos w1 + i)%nat by lia.
      reflexivity.
Qed.

(** X15. Where the bytes of a junk packet come from when [rand.Read]
    answers: with junk bounds that cannot panic, the packet is the next
    bytes of the secure stream, as many as its length; [rng] has only
    decided the length. *)
Theorem junk_bytes_are_the_secure_stream
    (b : Bind) (config : AmneziaConfig) (w : World) :
  amneziaConfig b = Some config -> junk_safe config ->
  w_cfail w (w_ccalls w) = false ->
  exists junk w',
    generateJunkPacket b w = Done junk w'
    /\ junk = crypto_bytes w (length junk)
    /\ w_cpos w' = (w_cpos w + length junk)%nat.
Proof.
  intros Hcfg Hsafe Hgood.
  destruct (generateJunkPacket_provenance b config w Hcfg Hsafe)
    as (junk & w' & Hrun & Hok & _).
  exists junk, w'. split; [exact Hrun | exact (Hok Hgood)].
Qed.

Lemma junk_bytes_are_the_secure_stream_witness :
  let b := Sample.bind_of (Some (Sample.config 24 1024 5)) [] in
  let w := Sample.world 1700000000 true in
  exists junk w',
    generateJunkPacket b w = Done junk w'
    /\ junk = crypto_bytes w (length junk)
    /\ w_cpos w' = (w_cpos w + length junk)%nat.
Proof.
  cbv zeta.
  apply (junk_bytes_are_the_secure_stream
           (Sample.bind_of (Some (Sample.config 24 1024 5)) [])
           (Sample.config 24 1024 5) (Sample.world 1700000000 true)).
  - reflexivity.
  - unfold junk_safe, is_int, MinInt, MaxInt, maxAlloc. simpl. lia.
  - reflexivity.
Defined.

(** X30. The branch the source takes when [rand.Read] returns an error:
    with junk bounds that cannot panic, the junk packet is still returned;
    each of its bytes is one draw of [rng] reduced modulo 256, in order,
    after the draws that decided the length, and the secure stream is not
    consumed. *)
Theorem junk_bytes_fall_back_to_rng
    (b : Bind) (config : AmneziaConfig) (w : World) :
  amneziaConfig b = Some config -> junk_safe config ->
  w_cfail w (w_ccalls w) = true ->
  exists junk w',
    generateJunkPacket b w = Done junk w'
    /\ junk = map (fun i => to_byte (w_rng w (w_rpos w' - length junk + i)%nat mod 256))
                  (seq 0 (length junk))
    /\ w_cpos w' = w_cpos w.
Proof.
  intros Hcfg Hsafe Hbad.
  destruct (generateJunkPacket_provenance b config w Hcfg Hsafe)
    as (junk & w' & Hrun & _ & Hfail).
  exists junk, w'. split; [exact Hrun | exact (Hfail Hbad)].
Qed.

Lemma junk_bytes_fall_back_to_rng_witness :
  let b := Sample.bind_of (Some (Sample.config 4 4 1)) [] in
  let w := {| w_clock := fun _ => 0; w_tick := 0;
              w_crypto := fun _ => 0; w_cpos := 0;
              w_cfail := fun _ => true; w_ccalls := 0;
              w_rng := fun i => 7 * Z.of_nat i + 3; w_rpos := 0;
              w_net := fun _ => true; w_ncalls := 0; w_trace := [] |} in
  exists junk w',
    generateJunkPacket b w = Done junk w'
    /\ junk = map (fun i => to_byte (w_rng w (w_rpos w' - length junk + i)%nat mod 256))
                  (seq 0 (length junk))
    /\ w_cpos w' = w_cpos w.
Proof.
  cbv zeta.
  apply (junk_bytes_fall_back_to_rng
           (Sample.bind_of (Some (Sample.config 4 4 1)) [])
           (Sample.config 4 4 1)).
  - reflexivity.
  - unfold junk_safe, is_int, MinInt, MaxInt, maxAlloc. simpl. lia.
  - reflexivity.
Defined.

(** ** [sendUDPPacket] *)

(** X16. A junk packet of positive length costs one dial and at most one
    datagram, which carries the packet as it is; a failed dial is swallowed:
    nothing is written and nothing is reported. *)
Theorem sendUDPPacket_writes_the_packet_once
    (b : Bind) (host : string) (data : list byte) (w : World) :
  data <> [] ->
  exists w',
    sendUDPPacket b host data w = Done tt w'
    /\ w_trace w'
       = w_trace w ++ EvSendUDP host data
                      :: (if w_net w (w_ncalls w)
                          then [EvWrite AtJunk host (port443 b) data] else [])
    /\ w_ncalls w' = S (w_ncalls w).
Proof.
  intros Hdata. unfold sendUDPPacket.
  assert (Hlen : (len data =? 0) = false).
  { apply Z.eqb_neq. unfold len. destruct data; [contradiction | simpl; lia]. }
  rewrite Hlen. unfold bind, emit, net_try, ret.
  cbn [w_net w_ncalls w_trace].
  destruct (w_net w (w_ncalls w)).
  - eexists. split; [reflexivity|]. cbn [w_trace w_ncalls].
    split; [now rewrite <- app_assoc | reflexivity].
  - eexists. split; [reflexivity|]. cbn [w_trace w_ncalls]. split; reflexivity.
Qed.

Lemma sendUDPPacket_writes_the_packet_once_witness :
  let b := Sample.bind_of (Some (Sample.config 24 1024 5)) [] in
  let w := Sample.world 1700000000 false in
  exists w',
    sendUDPPacket b "162.159.192.1" [7; 8; 9] w = Done tt w'
    /\ w_trace w'
       = w_trace w ++ EvSendUDP "162.159.192.1" [7; 8; 9]
                      :: (if w_net w (w_ncalls w)
                          then [EvWrite AtJunk "162.159.192.1" (port443 b) [7; 8; 9]]
                          else [])
    /\ w_ncalls w' = S (w_ncalls w).
Proof.
  cbv zeta.
  apply (sendUDPPacket_writes_the_packet_once
           (Sample.bind_of (Some (Sample.config 24 1024 5)) [])
           "162.159.192.1" [7; 8; 9] (Sample.world 1700000000 false)).
  discriminate.
Defined.

(** X17. A junk packet of zero length is sent by both methods of
    [sendStandardZeroByte], the second tried whether or not the first wrote:
    one empty datagram when the dial succeeds, and one more when listening
    and resolving both succeed; resolving is not tried when listening
    fails. *)
Theorem sendUDPPacket_tries_both_methods_for_an_empty_packet
    (b : Bind) (host : string) (w : World) :
  let k := w_ncalls w in
  exists w',
    sendUDPPacket b host [] w = Done tt w'
    /\ w_trace w'
       = w_trace w
         ++ [EvSendUDP host []]
         ++ (if w_net w k then [EvWrite AtZeroDial host (port443 b) []] else [])
         ++ (if w_net w (S k) && w_net w (S (S k))
             then [EvWrite AtZeroPacketConn host (port443 b) []] else [])
    /\ w_ncalls w' = if w_net w (S k) then S (S (S k)) else S (S k).
Proof.
  cbv zeta. exists (world_of (sendUDPPacket b host [] w)).
  unfold sendUDPPacket, sendTrueZeroByteUDP, sendStandardZeroByte.
  change (len (@nil byte) =? 0) with true. cbv iota.
  unfold bind, emit, net_try, ret, world_of. cbn [w_net w_ncalls w_trace].
  destruct (w_net w (w_ncalls w));
    cbn [w_net w_ncalls w_trace w_clock w_tick w_crypto w_cpos w_cfail w_ccalls
         w_rng w_rpos];
    destruct (w_net w (S (w_ncalls w)));
    cbn [w_net w_ncalls w_trace w_clock w_tick w_crypto w_cpos w_cfail w_ccalls
         w_rng w_rpos andb];
    try destruct (w_net w (S (S (w_ncalls w))));
    cbn [w_net w_ncalls w_trace w_clock w_tick w_crypto w_cpos w_cfail w_ccalls
         w_rng w_rpos andb];
    rewrite <- ?app_assoc, ?app_nil_r; cbn [app];
    (split; [reflexivity | split; reflexivity]).
Qed.

(** ** The parser of signature templates *)

Lemma runs_conj {A} (m : M A) (w : World) (P Q : A -> World -> Prop) :
  runs m w P -> runs m w Q -> runs m w (fun a w' => P a w' /\ Q a w').
Proof. unfold runs. destruct (m w); [split; assumption | intros []]. Qed.

Lemma cps_tag_cursors (result : list byte) (m : TagRegex.submatch) (w : World) :
  runs (cps_tag result m) w (fun _ w' =>
    w_rpos w' = w_rpos w /\ w_ncalls w' = w_ncalls w).
Proof.
  unfold cps_tag.
  destruct (Ascii.eqb (fst m) "b").
  { destruct (String.eqb _ ""); [apply runs_ret; split; reflexivity|].
    destruct (GoHex.DecodeString _); apply runs_ret; split; reflexivity. }
  destruct (Ascii.eqb (fst m) "c"); [unfold runs, bind, time_Now, ret; split; reflexivity|].
  destruct (Ascii.eqb (fst m) "t"); [unfold runs, bind, time_Now, ret; split; reflexivity|].
  destruct (Ascii.eqb (fst m) "r"); [|apply runs_ret; split; reflexivity].
  destruct (if String.eqb _ "" then _ else _) as [length|e];
    [|apply runs_ret; split; reflexivity].
  destruct (0 <? length); [|apply runs_ret; split; reflexivity].
  unfold runs, bind, rand_Read, ret.
  destruct (w_cfail w (w_ccalls w)); split; reflexivity.
Qed.

Lemma cps_loop_cursors (matches : list TagRegex.submatch) :
  forall (result : list byte) (w : World),
    runs (cps_loop matches result) w (fun _ w' =>
      w_rpos w' = w_rpos w /\ w_ncalls w' = w_ncalls w).
Proof.
  induction matches as [|m rest IH]; intros result w; simpl.
  - apply runs_ret. split; reflexivity.
  - apply runs_bind. eapply runs_mono; [|apply cps_tag_cursors].
    intros r w1 [Hr1 Hn1]. cbv beta. destruct r as [result'|e].
    + eapply runs_mono; [|apply IH]. intros r w2 [Hr2 Hn2]. split; congruence.
    + apply runs_ret. split; assumption.
Qed.

Lemma parseCPSPacket_reads_only (cps : string) (w : World) :
  runs (parseCPSPacket cps) w (fun _ w' => reads_only w w').
Proof.
  apply runs_conj; [apply parseCPSPacket_silent|].
  unfold parseCPSPacket. destruct (String.eqb cps "").
  - apply runs_ret. split; reflexivity.
  - apply cps_loop_cursors.
Qed.

(** X18. Resolving a template never panics, whatever the template is, and
    touches nothing but the clock and the secure random source: nothing is
    written, [rng] is not drawn from and the network is not used. *)
Theorem parseCPSPacket_only_reads_the_clock_and_the_secure_source
    (cps : string) (w : World) :
  exists r w', parseCPSPacket cps w = Done r w' /\ reads_only w w'.
Proof.
  pose proof (parseCPSPacket_reads_only cps w) as H.
  apply runs_done in H as (r & w' & Hrun & Hq). exists r, w'. split; [exact Hrun | exact Hq].
Qed.

Lemma decode32_be32 (x : Z) : 0 <= x < 2 ^ 32 -> decode32 (be32 x) = Some x.
Proof.
  intros Hx. unfold be32, decode32, to_byte. f_equal.
  rewrite !Z.shiftr_div_pow2 by lia.
  change (2 ^ 24) with 16777216. change (2 ^ 16) with 65536. change (2 ^ 8) with 256.
  change (2 ^ 32) with 4294967296 in Hx.
  pose proof (Z.div_mod x 256 ltac:(lia)) as E0.
  pose proof (Z.div_mod (x / 256) 256 ltac:(lia)) as E1.
  pose proof (Z.div_mod (x / 65536) 256 ltac:(lia)) as E2.
  pose proof (Z.div_mod (x / 16777216) 256 ltac:(lia)) as E3.
  replace (x / 256 / 256) with (x / 65536) in E1 by (rewrite Z.div_div by lia; reflexivity).
  replace (x / 65536 / 256) with (x / 16777216) in E2
    by (rewrite Z.div_div by lia; reflexivity).
  assert (x / 16777216 / 256 = 0) by (rewrite Z.div_div by lia; apply Z.div_small; lia).
  lia.
Qed.

(** X19. A timestamp tag, whatever text it carries, never fails and adds
    four bytes: the seconds of the clock since 1970, reduced modulo 2^32,
    most significant byte first, so that the value can be read back. *)
Theorem timestamp_tag_is_the_clock_in_four_bytes
    (result : list byte) (g2 : string) (w : World) :
  let seconds := Unix (w_clock w (w_tick w)) in
  exists bytes w',
    cps_tag result ("t"%char, g2) w = Done (Ok (result ++ bytes)) w'
    /\ len bytes = 4
    /\ decode32 bytes = Some (seconds mod 2 ^ 32)
    /\ (TagRegex.cut_at_gt g2 = None ->
        parseCPSPacket (String "<" (String "t" (g2 ++ ">"))) w = Done (Ok bytes) w').
Proof.
  cbv zeta. exists (be32 (uint32 (Unix (w_clock w (w_tick w))))), (world_of (time_Now w)).
  assert (Htag : forall res g, cps_tag res ("t"%char, g) w
            = Done (Ok (res ++ be32 (uint32 (Unix (w_clock w (w_tick w))))))
                   (world_of (time_Now w))).
  { intros res g. reflexivity. }
  split; [apply Htag|]. split; [reflexivity|]. split.
  - apply decode32_be32. unfold uint32. apply Z.mod_pos_bound. lia.
  - intros Hcut. rewrite parseCPSPacket_single_tag; [|reflexivity | exact Hcut].
    apply (Htag []).
Qed.

Lemma timestamp_tag_is_the_clock_in_four_bytes_witness :
  let w := Sample.world 1700000000 true in
  let seconds := Unix (w_clock w (w_tick w)) in
  exists bytes w',
    cps_tag [192] ("t"%char, "") w = Done (Ok ([192] ++ bytes)) w'
    /\ len bytes = 4
    /\ decode32 bytes = Some (seconds mod 2 ^ 32)
    /\ (TagRegex.cut_at_gt "" = None ->
        parseCPSPacket (String "<" (String "t" ("" ++ ">"))) w = Done (Ok bytes) w').
Proof.
  cbv zeta.
  exact (timestamp_tag_is_the_clock_in_four_bytes [192] "" (Sample.world 1700000000 true)).
Defined.

(** X20. The counter tag is the seconds of the clock reduced modulo
    4294967295: for a clock between 1970 and the year 2106 it adds the same
    four bytes as a timestamp tag read at the same moment. *)
Theorem counter_tag_equals_timestamp_tag
    (result : list byte) (g2 g2' : string) (w : World) :
  0 <= Unix (w_clock w (w_tick w)) < 4294967295 ->
  cps_tag result ("c"%char, g2) w = cps_tag result ("t"%char, g2') w.
Proof.
  intros Hrange. unfold cps_tag. cbn [fst Ascii.eqb Bool.eqb andb].
  unfold bind, time_Now, ret. rewrite Z.rem_small by exact Hrange. reflexivity.
Qed.

Lemma counter_tag_equals_timestamp_tag_witness :
  cps_tag [] ("c"%char, "") (Sample.world 1700000000 true)
  = cps_tag [] ("t"%char, "") (Sample.world 1700000000 true).
Proof.
  apply (counter_tag_equals_timestamp_tag [] "" "" (Sample.world 1700000000 true)).
  vm_compute. split; [discriminate | reflexivity].
Defined.

Lemma find_from_without_lt (fuel : nat) :
  forall s : string, has_lt s = false -> TagRegex.find_from fuel s = [].
Proof.
  induction fuel as [|fuel IH]; intros s Hs; [reflexivity|].
  destruct s as [|a s1]; [reflexivity|]. cbn [has_lt] in Hs.
  apply orb_false_iff in Hs as [Ha Hs1].
  cbn [TagRegex.find_from]. destruct s1 as [|t s2]; [reflexivity|].
  rewrite Ha. cbn [andb]. apply IH. exact Hs1.
Qed.

Lemma FindAll_without_lt (cps : string) :
  has_lt cps = false -> TagRegex.FindAllStringSubmatch cps = [].
Proof. intros Hs. apply find_from_without_lt. exact Hs. Qed.

(** X21. Text outside tags counts for nothing: a template with no '<' in it
    resolves to no bytes, without an error and without reading the clock or
    a random source. *)
Theorem template_without_tags_resolves_to_nothing (cps : string) (w : World) :
  has_lt cps = false -> parseCPSPacket cps w = Done (Ok []) w.
Proof.
  intros Hs. unfold parseCPSPacket. destruct (String.eqb cps ""); [reflexivity|].
  rewrite (FindAll_without_lt cps Hs). reflexivity.
Qed.

Lemma template_without_tags_resolves_to_nothing_witness :
  parseCPSPacket "b c0ffee> r 16" (Sample.world 1700000000 true)
  = Done (Ok []) (Sample.world 1700000000 true).
Proof.
  apply (template_without_tags_resolves_to_nothing "b c0ffee> r 16"
           (Sample.world 1700000000 true)).
  reflexivity.
Defined.

(** X22. When the secure random source answers, a template resolves to
    bytes exactly when each of its tags can be resolved, and is an error
    exactly when one of them cannot; an error is never a panic and never
    comes with bytes. *)
Theorem parseCPSPacket_succeeds_iff_every_tag_resolves (cps : string) (w : World) :
  (forall k, w_cfail w k = false) ->
  (CPS.resolvable cps = true
   <-> exists bytes w', parseCPSPacket cps w = Done (Ok bytes) w')
  /\ (CPS.resolvable cps = false
      <-> exists e w', parseCPSPacket cps w = Done (Err e) w').
Proof.
  intros Hsecure.
  assert (Hyes : CPS.resolvable cps = true ->
                 exists bytes w', parseCPSPacket cps w = Done (Ok bytes) w').
  { intros Hres. unfold parseCPSPacket. destruct (String.eqb cps "").
    - exists [], w. reflexivity.
    - pose proof (cps_loop_resolvable _ [] w Hres Hsecure) as H.
      apply runs_done in H as (r & w' & Hrun & (out & ->) & _). now exists out, w'. }
  assert (Hno : CPS.resolvable cps = false ->
                exists e w', parseCPSPacket cps w = Done (Err e) w').
  { intros Hres. unfold parseCPSPacket. destruct (String.eqb_spec cps "") as [->|_].
    - discriminate Hres.
    - pose proof (cps_loop_unresolvable _ [] w Hres) as H.
      apply runs_done in H as (r & w' & Hrun & (e & ->) & _). now exists e, w'. }
  split; (split; [assumption|]).
  - intros (bytes & w' & Hrun). destruct (CPS.resolvable cps) eqn:E; [reflexivity|].
    destruct (Hno eq_refl) as (e & w2 & Hrun2). congruence.
  - intros (e & w' & Hrun). destruct (CPS.resolvable cps) eqn:E; [|reflexivity].
    destruct (Hyes eq_refl) as (bytes & w2 & Hrun2). congruence.
Qed.

Lemma parseCPSPacket_succeeds_iff_every_tag_resolves_witness :
  (CPS.resolvable "<b c0ffee><r 8><t>" = true
   <-> exists bytes w',
         parseCPSPacket "<b c0ffee><r 8><t>" (Sample.world 1700000000 true)
         = Done (Ok bytes) w')
  /\ (CPS.resolvable "<b c0ffee><r 8><t>" = false
      <-> exists e w',
            parseCPSPacket "<b c0ffee><r 8><t>" (Sample.world 1700000000 true)
            = Done (Err e) w').
Proof.
  apply (parseCPSPacket_succeeds_iff_every_tag_resolves "<b c0ffee><r 8><t>"
           (Sample.world 1700000000 true)).
  intros k. reflexivity.
Defined.

Lemma cps_loop_from (matches : list TagRegex.submatch) :
  forall (result : list byte) (w : World),
    cps_loop matches result w
    = match cps_loop matches [] w with
      | Done (Ok out) w' => Done (Ok (result ++ out)) w'
      | Done (Err e) w' => Done (Err e) w'
      | Panic msg w' => Panic msg w'
      end.
Proof.
  induction matches as [|m rest IH]; intros result w.
  - cbn. now rewrite app_nil_r.
  - cbn [cps_loop]. unfold bind. rewrite (cps_tag_contributes result m w).
    destruct (cps_tag [] m w) as [[part|e] w1|msg w1]; [|reflexivity|reflexivity].
    rewrite (IH (result ++ part) w1), (IH part w1).
    destruct (cps_loop rest [] w1) as [[out|e] w2|msg w2]; [|reflexivity|reflexivity].
    now rewrite app_assoc.
Qed.

Lemma string_length_app (s1 s2 : string) :
  String.length (s1 ++ s2) = (String.length s1 + String.length s2)%nat.
Proof. induction s1 as [|a s1 IH]; simpl; [reflexivity | now rewrite IH]. Qed.

Lemma FindAll_tag_then_rest (t : ascii) (g rest : string) :
  TagRegex.tag_letter t = true ->
  (forall body tail, TagRegex.cut_at_gt g <> Some (body, tail)) ->
  TagRegex.FindAllStringSubmatch (String "<" (String t (g ++ String ">" rest)))
  = (t, TagRegex.skip_space g) :: TagRegex.FindAllStringSubmatch rest.
Proof.
  intros Ht Hg. unfold TagRegex.FindAllStringSubmatch.
  cbn [String.length].
  remember (S (String.length (g ++ String ">" rest))) as n eqn:Hn.
  cbn [TagRegex.find_from].
  rewrite Ht. cbn [Ascii.eqb Bool.eqb andb].
  rewrite cut_at_gt_app by exact Hg. f_equal.
  apply find_from_fuel; [|lia].
  rewrite Hn, string_length_app. cbn [String.length]. lia.
Qed.

(** X23. A template is resolved from left to right, tag by tag: one that
    starts with a tag resolves to the bytes of that tag followed by the
    bytes of the rest of the template, the rest resolved in the world the
    tag leaves; an error of the tag or of the rest is the error of the
    whole. *)
Theorem parseCPSPacket_resolves_tag_then_rest
    (t : ascii) (g rest : string) (w : World) :
  TagRegex.tag_letter t = true ->
  (forall body tail, TagRegex.cut_at_gt g <> Some (body, tail)) ->
  parseCPSPacket (String "<" (String t (g ++ String ">" rest))) w
  = match cps_tag [] (t, TagRegex.skip_space g) w with
    | Done (Ok part) w1 =>
        match parseCPSPacket rest w1 with
        | Done (Ok out) w2 => Done (Ok (part ++ out)) w2
        | Done (Err e) w2 => Done (Err e) w2
        | Panic msg w2 => Panic msg w2
        end
    | Done (Err e) w1 => Done (Err e) w1
    | Panic msg w1 => Panic msg w1
    end.
Proof.
  intros Ht Hg. unfold parseCPSPacket at 1. cbn [String.eqb].
  rewrite (FindAll_tag_then_rest t g rest Ht Hg). cbn [cps_loop]. unfold bind.
  destruct (cps_tag [] (t, TagRegex.skip_space g) w) as [[part|e] w1|msg w1];
    [|reflexivity|reflexivity].
  rewrite (cps_loop_from _ part w1).
  unfold parseCPSPacket. destruct (String.eqb_spec rest "") as [->|_]; reflexivity.
Qed.

Lemma parseCPSPacket_resolves_tag_then_rest_witness :
  let w := Sample.world 1700000000 true in
  parseCPSPacket (String "<" (String "b" (" c0ffee" ++ String ">" "<r 4>"))) w
  = match cps_tag [] ("b"%char, TagRegex.skip_space " c0ffee") w with
    | Done (Ok part) w1 =>
        match parseCPSPacket "<r 4>" w1 with
        | Done (Ok out) w2 => Done (Ok (part ++ out)) w2
        | Done (Err e) w2 => Done (Err e) w2
        | Panic msg w2 => Panic msg w2
        end
    | Done (Err e) w1 => Done (Err e) w1
    | Panic msg w1 => Panic msg w1
    end.
Proof.
  cbv zeta.
  apply (parseCPSPacket_resolves_tag_then_rest "b" " c0ffee" "<r 4>"
           (Sample.world 1700000000 true)).
  - reflexivity.
  - intros body tail. vm_compute. discriminate.
Defined.

(** ** [New] *)

Lemma fromHexChar_hexdigit (n : Z) :
  0 <= n < 16 ->
  GoHex.fromHexChar (hexdigit n) = Some n
  /\ Ascii.eqb (hexdigit n) "x" = false
  /\ Ascii.eqb (hexdigit n) "X" = false.
Proof.
  intros Hn. rewrite <- (Z2Nat.id n) by lia.
  assert (Hk : (Z.to_nat n < 16)%nat) by lia.
  revert Hk. generalize (Z.to_nat n). intros k Hk.
  do 16 (destruct k as [|k]; [vm_compute; repeat split; reflexivity|]).
  lia.
Qed.

Lemma byte_nibbles (b : Z) :
  0 <= b < 256 ->
  0 <= Z.shiftr b 4 < 16 /\ 0 <= Z.land b 15 < 16
  /\ 16 * Z.shiftr b 4 + Z.land b 15 = b.
Proof.
  intros Hb. rewrite Z.shiftr_div_pow2 by lia.
  change 15 with (Z.ones 4). rewrite Z.land_ones by lia.
  change (2 ^ 4) with 16. pose proof (Z.div_mod b 16 ltac:(lia)).
  pose proof (Z.mod_pos_bound b 16 ltac:(lia)).
  assert (0 <= b / 16 < 16) by (split; [apply Z.div_pos; lia | apply Z.div_lt_upper_bound; lia]).
  lia.
Qed.

Lemma DecodeString_EncodeToString (bytes : list byte) :
  all_bytes bytes -> GoHex.DecodeString (EncodeToString bytes) = Ok bytes.
Proof.
  intros Hall. induction Hall as [|b rest Hb _ IH]; [reflexivity|].
  cbn [EncodeToString GoHex.DecodeString].
  destruct (byte_nibbles b Hb) as (Hhi & Hlo & Hsum).
  destruct (fromHexChar_hexdigit _ Hhi) as (-> & _).
  destruct (fromHexChar_hexdigit _ Hlo) as (-> & _).
  rewrite IH, lor_nibbles by assumption. now rewrite Hsum.
Qed.

Lemma EncodeToString_no_prefix (bytes : list byte) :
  all_bytes bytes ->
  GoStrings.HasPrefix (EncodeToString bytes) "0x" = false
  /\ GoStrings.HasPrefix (EncodeToString bytes) "0X" = false.
Proof.
  intros Hall. destruct Hall as [|b rest Hb _]; [split; reflexivity|].
  cbn [EncodeToString GoStrings.HasPrefix].
  destruct (byte_nibbles b Hb) as (_ & Hlo & _).
  destruct (fromHexChar_hexdigit _ Hlo) as (_ & -> & ->).
  rewrite !andb_false_r. split; reflexivity.
Qed.

(** X24. [New] reads back what [hex.EncodeToString] writes: for every
    sequence of bytes, its hexadecimal text, with or without "0x" in front,
    gives a bind whose payload is that sequence, with no Amnezia
    configuration and an empty rate-limiter map. *)
Theorem New_decodes_what_EncodeToString_writes
    (inner : Transport) (bytes : list byte) (port minInterval : Z) :
  all_bytes bytes ->
  let b := {| inner := inner; port443 := port; payload := bytes;
              amneziaConfig := None; lastSent := ∅; interval := minInterval |} in
  New inner (EncodeToString bytes) port minInterval = Ok b
  /\ New inner ("0x" ++ EncodeToString bytes) port minInterval = Ok b
  /\ New inner ("0X" ++ EncodeToString bytes) port minInterval = Ok b.
Proof.
  intros Hall b. unfold New.
  destruct (EncodeToString_no_prefix bytes Hall) as [-> ->]. cbn [orb].
  assert (Hx : GoStrings.HasPrefix ("0x" ++ EncodeToString bytes) "0x" = true)
    by (cbn; destruct (EncodeToString bytes); reflexivity).
  assert (HX : GoStrings.HasPrefix ("0X" ++ EncodeToString bytes) "0X" = true)
    by (cbn; destruct (EncodeToString bytes); reflexivity).
  rewrite Hx, HX, orb_true_r. cbn [orb].
  change (GoStrings.slice_from 2 ("0x" ++ EncodeToString bytes))
    with (EncodeToString bytes).
  change (GoStrings.slice_from 2 ("0X" ++ EncodeToString bytes))
    with (EncodeToString bytes).
  rewrite (DecodeString_EncodeToString bytes Hall).
  split; [reflexivity | split; reflexivity].
Qed.

Lemma New_decodes_what_EncodeToString_writes_witness :
  let b := {| inner := Sample.transport; port443 := 443; payload := [192; 255; 238; 0; 7];
              amneziaConfig := None; lastSent := ∅; interval := 1000000000 |} in
  New Sample.transport (EncodeToString [192; 255; 238; 0; 7]) 443 1000000000 = Ok b
  /\ New Sample.transport ("0x" ++ EncodeToString [192; 255; 238; 0; 7]) 443 1000000000
     = Ok b
  /\ New Sample.transport ("0X" ++ EncodeToString [192; 255; 238; 0; 7]) 443 1000000000
     = Ok b.
Proof.
  apply (New_decodes_what_EncodeToString_writes Sample.transport [192; 255; 238; 0; 7]
           443 1000000000).
  unfold all_bytes. repeat constructor; lia.
Defined.

Lemma valid_hex_even (s : string) :
  CPS.valid_hex s = true -> Nat.even (String.length s) = true.
Proof. unfold CPS.valid_hex. intros H. now apply andb_true_iff in H as [H _]. Qed.

(** X25. [New] refuses a payload text with an odd number of characters,
    with or without the prefix: no bind is made. *)
Theorem New_rejects_an_odd_number_of_characters
    (inner : Transport) (hexPayload : string) (port minInterval : Z) :
  Nat.odd (String.length hexPayload) = true ->
  exists e, New inner hexPayload port minInterval = Err e.
Proof.
  intros Hodd. unfold New.
  set (h := if GoStrings.HasPrefix hexPayload "0x" || GoStrings.HasPrefix hexPayload "0X"
            then GoStrings.slice_from 2 hexPayload else hexPayload).
  assert (Hh : Nat.even (String.length h) = false).
  { assert (Heven : Nat.even (String.length hexPayload) = false)
      by (rewrite <- Nat.negb_odd, Hodd; reflexivity).
    unfold h.
    destruct (GoStrings.HasPrefix hexPayload "0x" || GoStrings.HasPrefix hexPayload "0X")
      eqn:Hpre; [|exact Heven].
    destruct hexPayload as [|a [|c s]]; [exact Heven | | exact Heven].
    cbn [GoStrings.HasPrefix] in Hpre. rewrite !andb_false_r in Hpre.
    discriminate Hpre. }
  pose proof (DecodeString_spec h) as Hspec.
  destruct (CPS.valid_hex h) eqn:Hvalid.
  - apply valid_hex_even in Hvalid. congruence.
  - destruct Hspec as [e ->]. now exists e.
Qed.

Lemma New_rejects_an_odd_number_of_characters_witness :
  exists e, New Sample.transport "0xc0f" 443 1000000000 = Err e.
Proof.
  apply (New_rejects_an_odd_number_of_characters Sample.transport "0xc0f" 443 1000000000).
  reflexivity.
Defined.

(** ** [applyAmneziaPrefix] *)

(** X26. [applyAmneziaPrefix] returns the buffer as it is, and touches no
    random source, when there is no configuration, when the buffer is empty,
    when its first byte is neither 1 nor 2 (so for every data packet), and
    when the size configured for its type is not positive. *)
Theorem applyAmneziaPrefix_leaves_other_packets_alone
    (b : Bind) (buf : list byte) (w : World) :
  prefix_length b buf = 0 -> applyAmneziaPrefix b buf w = Done buf w.
Proof.
  unfold prefix_length, applyAmneziaPrefix.
  destruct (amneziaConfig b) as [config|]; [|reflexivity].
  destruct buf as [|messageType rest]; [reflexivity|].
  destruct (len (messageType :: rest) =? 0); [reflexivity|].
  assert (Hsize : forall size, Z.max 0 (Z.min size 64) = 0 ->
            ((if 64 <? size then 64 else size) <=? 0) = true).
  { intros size H. destruct (Z.ltb_spec 64 size); apply Z.leb_le; lia. }
  destruct (messageType =? 1).
  - intros H. cbv zeta. now rewrite (Hsize _ H).
  - destruct (messageType =? 2); [|reflexivity].
    intros H. cbv zeta. now rewrite (Hsize _ H).
Qed.

Lemma applyAmneziaPrefix_leaves_other_packets_alone_witness :
  let config :=
    {| I1 := ""; I2 := ""; I3 := ""; I4 := ""; I5 := ""; S1 := 40; S2 := 50;
       Jc := 0; Jmin := 24; Jmax := 1024; JcAfterI1 := 0; JcBeforeHS := 3;
       JcAfterHS := 0; JunkInterval := 0; AllowZeroSize := false;
       HandshakeDelay := 0 |} in
  applyAmneziaPrefix (Sample.bind_of (Some config) []) Sample.data_packet
    (Sample.world 1700000000 true)
  = Done Sample.data_packet (Sample.world 1700000000 true).
Proof.
  cbv zeta.
  apply (applyAmneziaPrefix_leaves_other_packets_alone _ Sample.data_packet
           (Sample.world 1700000000 true)).
  reflexivity.
Defined.

(** X27. For a packet of type 1 or 2 whose configured size is positive,
    [applyAmneziaPrefix] returns the buffer, unchanged, behind a random
    prefix of that size and at most 64 bytes: dropping the prefix gives the
    buffer back. The prefix is the next bytes of the secure stream when
    [rand.Read] answers. *)
Theorem applyAmneziaPrefix_puts_a_bounded_prefix_before_the_packet
    (b : Bind) (buf : list byte) (w : World) :
  0 < prefix_length b buf ->
  exists prefix w',
    applyAmneziaPrefix b buf w = Done (prefix ++ buf) w'
    /\ len prefix = prefix_length b buf
    /\ prefix_length b buf <= 64
    /\ skipn (length prefix) (prefix ++ buf) = buf
    /\ silent w w'
    /\ (w_cfail w (w_ccalls w) = false -> prefix = crypto_bytes w (length prefix)).
Proof.
  unfold prefix_length, applyAmneziaPrefix.
  destruct (amneziaConfig b) as [config|]; [|lia].
  destruct buf as [|messageType rest]; [lia|].
  assert (Hlen : (len (messageType :: rest) =? 0) = false).
  { apply Z.eqb_neq. unfold len. simpl. lia. }
  rewrite Hlen.
  assert (Hfill : forall size, 0 < Z.max 0 (Z.min size 64) ->
            exists prefix w',
              (let prefixSize := if 64 <? size then 64 else size in
               if prefixSize <=? 0 then ret (messageType :: rest)
               else prefix <- fill_junk prefixSize ;; ret (prefix ++ messageType :: rest)) w
              = Done (prefix ++ messageType :: rest) w'
              /\ len prefix = Z.max 0 (Z.min size 64)
              /\ Z.max 0 (Z.min size 64) <= 64
              /\ skipn (length prefix) (prefix ++ messageType :: rest) = messageType :: rest
              /\ silent w w'
              /\ (w_cfail w (w_ccalls w) = false -> prefix = crypto_bytes w (length prefix))).
  { intros size Hpos. cbv zeta.
    set (prefixSize := if 64 <? size then 64 else size).
    assert (Hp : prefixSize = Z.max 0 (Z.min size 64) /\ 0 < prefixSize).
    { unfold prefixSize. destruct (Z.ltb_spec 64 size); lia. }
    destruct Hp as [Hp Hp0]. rewrite <- Hp.
    destruct (Z.leb_spec prefixSize 0) as [Hle|_]; [lia|].
    destruct (fill_junk_run prefixSize w ltac:(unfold maxAlloc; lia))
      as (prefix & w' & Hrun & Hs & Hplen & Hok & _).
    exists prefix, w'. unfold bind. rewrite Hrun. split; [reflexivity|].
    split; [exact Hplen|]. split; [lia|].
    split; [now rewrite drop_app_length|]. split; [exact Hs|].
    intros Hgood. destruct (Hok Hgood) as (-> & _).
    now rewrite crypto_bytes_length. }
  destruct (messageType =? 1); [apply Hfill|].
  destruct (messageType =? 2); [apply Hfill | lia].
Qed.

Lemma applyAmneziaPrefix_puts_a_bounded_prefix_before_the_packet_witness :
  let config :=
    {| I1 := ""; I2 := ""; I3 := ""; I4 := ""; I5 := ""; S1 := 100; S2 := 50;
       Jc := 0; Jmin := 24; Jmax := 1024; JcAfterI1 := 0; JcBeforeHS := 3;
       JcAfterHS := 0; JunkInterval := 0; AllowZeroSize := false;
       HandshakeDelay := 0 |} in
  let b := Sample.bind_of (Some config) [] in
  let w := Sample.world 1700000000 true in
  exists prefix w',
    applyAmneziaPrefix b Sample.initiation w = Done (prefix ++ Sample.initiation) w'
    /\ len prefix = prefix_length b Sample.initiation
    /\ prefix_length b Sample.initiation <= 64
    /\ skipn (length prefix) (prefix ++ Sample.initiation) = Sample.initiation
    /\ silent w w'
    /\ (w_cfail w (w_ccalls w) = false -> prefix = crypto_bytes w (length prefix)).
Proof.
  cbv zeta.
  apply (applyAmneziaPrefix_puts_a_bounded_prefix_before_the_packet _ Sample.initiation
           (Sample.world 1700000000 true)).
  reflexivity.
Defined.

(** ** The loop over the signatures *)

(** X28. A signature that cannot be resolved, or that has no tag and so
    resolves to no bytes, is passed over without a dial, a write or a pause;
    the loop goes on with the signatures after it. *)
Theorem signature_that_gives_no_packet_is_skipped
    (b : Bind) (host : string) (sig : string) (rest : list string) (fastDelay : Z)
    (w : World) :
  CPS.resolvable sig = false \/ has_lt sig = false ->
  exists w1,
    reads_only w w1
    /\ signature_loop b host (sig :: rest) fastDelay w
       = signature_loop b host rest fastDelay w1.
Proof.
  intros Hsig. cbn [signature_loop].
  destruct (String.eqb_spec sig "") as [->|Hne].
  { exists w. split; [|reflexivity].
    split; [apply silent_refl | split; reflexivity]. }
  pose proof (parseCPSPacket_reads_only sig w) as Hread.
  apply runs_done in Hread as (r & w1 & Hrun & Hq).
  exists w1. split; [exact Hq|].
  rewrite bind_assoc. unfold bind at 1. rewrite Hrun.
  destruct Hsig as [Hbad|Hnone].
  - assert (Herr : exists e, r = Err e).
    { revert Hrun. unfold parseCPSPacket. rewrite (proj2 (String.eqb_neq _ _) Hne).
      intros Hrun. pose proof (cps_loop_unresolvable _ [] w Hbad) as H.
      apply runs_done in H as (r' & w' & Hrun' & (e & ->) & _).
      exists e. congruence. }
    destruct Herr as [e ->]. reflexivity.
  - revert Hrun. unfold parseCPSPacket. rewrite (proj2 (String.eqb_neq _ _) Hne).
    rewrite (FindAll_without_lt sig Hnone). cbn [cps_loop]. unfold ret.
    intros [= <- <-]. reflexivity.
Qed.

Lemma signature_that_gives_no_packet_is_skipped_witness :
  let b := Sample.bind_of (Some (Sample.config_sig "" "<b zz>")) [] in
  let w := Sample.world 1700000000 true in
  exists w1,
    reads_only w w1
    /\ signature_loop b "162.159.192.1" ["<b zz>"; "<t>"] 3000000 w
       = signature_loop b "162.159.192.1" ["<t>"] 3000000 w1.
Proof.
  cbv zeta.
  apply (signature_that_gives_no_packet_is_skipped
           (Sample.bind_of (Some (Sample.config_sig "" "<b zz>")) [])
           "162.159.192.1" "<b zz>" ["<t>"] 3000000 (Sample.world 1700000000 true)).
  left. vm_compute. reflexivity.
Defined.

(** ** The goroutine of the later junk *)

Lemma pauses_slept (count interval : Z) :
  pauses sleep_time (Z.to_nat count) interval = Z.max 0 (count - 1) * Z.max 0 interval.
Proof.
  unfold pauses. cbn [sleep_time].
  destruct (Z.ltb_spec 0 interval) as [Hi|Hi].
  - replace (Z.of_nat (Nat.pred (Z.to_nat count))) with (Z.max 0 (count - 1)) by lia.
    reflexivity.
  - replace (Z.max 0 interval) with 0 by lia. lia.
Qed.

(** One train of junk: a pause, then the packets. *)
Lemma junk_train_slept (b : Bind) (host : string) (guard : bool)
    (pause count interval : Z) (w : World) :
  safe_bind b -> 0 <= pause ->
  runs (if guard then time_Sleep pause ;;; sendJunkPackets b host count interval
        else ret tt) w
       (fun _ w' =>
          extends w w'
          /\ slept w' - slept w
             = if guard then pause + Z.max 0 (count - 1) * Z.max 0 interval else 0).
Proof.
  intros Hsafe Hpause. destruct guard.
  - apply runs_bind. eapply runs_mono; [|apply (emit_gains sleep_time)].
    intros ? w1 [H1 B1]. cbv beta.
    eapply runs_mono;
      [|apply (sendJunkPackets_gains sleep_time sleep_time_write sleep_time_send 2);
        apply generates_safe; exact Hsafe].
    intros ? w2 [H2 B2]. rewrite pauses_slept in B2. cbn [sleep_time] in B1.
    split; [exact (extends_trans _ _ _ H1 H2) | unfold slept; lia].
  - apply runs_ret. split; [apply extends_refl | lia].
Qed.

(** X29. The time the goroutine of the later junk sleeps: 50, 30 and 50 ms
    before the three trains that have packets to send, and one interval
    between two packets of the same train, the interval being 10 ms when
    [JunkInterval] is zero and no pause at all when it is negative. *)
Theorem executePostHandshakeSequence_time_slept
    (b : Bind) (config : AmneziaConfig) (host : string) (w : World) :
  amneziaConfig b = Some config -> junk_safe config -> is_int (JcBeforeHS config) ->
  let interval :=
    if JunkInterval config =? 0 then 10 * Millisecond else JunkInterval config in
  let gaps count := Z.max 0 (count - 1) * Z.max 0 interval in
  exists w',
    executePostHandshakeSequence b host w = Done tt w'
    /\ slept w' - slept w
       = gaps (JcBeforeHS config - 3)
         + (if 0 <? Jc config then 50 * Millisecond + gaps (Jc config) else 0)
         + (if 0 <? JcAfterI1 config then 30 * Millisecond + gaps (JcAfterI1 config) else 0)
         + (if 0 <? JcAfterHS config then 50 * Millisecond + gaps (JcAfterHS config) else 0).
Proof.
  intros Hcfg Hsafe Hint interval gaps.
  pose proof (safe_bind_of_config b config Hcfg Hsafe) as Hb.
  assert (Hrun : runs (executePostHandshakeSequence b host) w (fun _ w' =>
            slept w' - slept w
            = gaps (JcBeforeHS config - 3)
              + (if 0 <? Jc config then 50 * Millisecond + gaps (Jc config) else 0)
              + (if 0 <? JcAfterI1 config
                 then 30 * Millisecond + gaps (JcAfterI1 config) else 0)
              + (if 0 <? JcAfterHS config
                 then 50 * Millisecond + gaps (JcAfterHS config) else 0))).
  { unfold executePostHandshakeSequence. rewrite Hcfg. cbv zeta. fold interval.
    apply runs_bind.
    assert (Hfirst : runs
              (if 3 <? JcBeforeHS config
               then sendJunkPackets b host (wrap64 (JcBeforeHS config - 3)) interval
               else ret tt) w
              (fun _ w1 => slept w1 - slept w = gaps (JcBeforeHS config - 3))).
    { destruct (Z.ltb_spec 3 (JcBeforeHS config)) as [Hgt|Hle].
      - rewrite wrap64_small by int_range.
        eapply runs_mono;
          [|apply (sendJunkPackets_gains sleep_time sleep_time_write sleep_time_send 2);
            apply generates_safe; exact Hb].
        intros ? w1 [_ B]. rewrite pauses_slept in B. unfold gaps, slept. lia.
      - apply runs_ret. unfold gaps. replace (Z.max 0 (JcBeforeHS config - 3 - 1)) with 0 by lia.
        lia. }
    eapply runs_mono; [|exact Hfirst]. intros ? w1 B1. cbv beta.
    apply runs_bind.
    eapply runs_mono;
      [|apply (junk_train_slept b host (0 <? Jc config) (50 * Millisecond)); [exact Hb|]].
    2: unfold Millisecond; lia.
    intros ? w2 [_ B2]. cbv beta.
    apply runs_bind.
    eapply runs_mono;
      [|apply (junk_train_slept b host (0 <? JcAfterI1 config) (30 * Millisecond));
        [exact Hb|]].
    2: unfold Millisecond; lia.
    intros ? w3 [_ B3]. cbv beta.
    eapply runs_mono;
      [|apply (junk_train_slept b host (0 <? JcAfterHS config) (50 * Millisecond));
        [exact Hb|]].
    2: unfold Millisecond; lia.
    intros ? w4 [_ B4]. unfold gaps in *.
    set (g0 := Z.max 0 (JcBeforeHS config - 3 - 1) * Z.max 0 interval) in *.
    set (g1 := Z.max 0 (Jc config - 1) * Z.max 0 interval) in *.
    set (g2 := Z.max 0 (JcAfterI1 config - 1) * Z.max 0 interval) in *.
    set (g3 := Z.max 0 (JcAfterHS config - 1) * Z.max 0 interval) in *.
    destruct (0 <? Jc config), (0 <? JcAfterI1 config), (0 <? JcAfterHS config); lia. }
  apply runs_done in Hrun as ([] & w' & Hrun & Hq). exists w'. split; [exact Hrun | exact Hq].
Qed.

Lemma executePostHandshakeSequence_time_slept_witness :
  let config := Sample.config 24 1024 5 in
  let b := Sample.bind_of (Some config) [] in
  let w := Sample.world 1700000001 false in
  let interval :=
    if JunkInterval config =? 0 then 10 * Millisecond else JunkInterval config in
  let gaps count := Z.max 0 (count - 1) * Z.max 0 interval in
  exists w',
    executePostHandshakeSequence b "162.159.192.1" w = Done tt w'
    /\ slept w' - slept w
       = gaps (JcBeforeHS config - 3)
         + (if 0 <? Jc config then 50 * Millisecond + gaps (Jc config) else 0)
         + (if 0 <? JcAfterI1 config then 30 * Millisecond + gaps (JcAfterI1 config) else 0)
         + (if 0 <? JcAfterHS config then 50 * Millisecond + gaps (JcAfterHS config) else 0).
Proof.
  cbv zeta.
  apply (executePostHandshakeSequence_time_slept
           (Sample.bind_of (Some (Sample.config 24 1024 5)) [])
           (Sample.config 24 1024 5) "162.159.192.1" (Sample.world 1700000001 false)).
  - reflexivity.
  - unfold junk_safe, is_int, MinInt, MaxInt, maxAlloc. simpl. lia.
  - unfold is_int, MinInt, MaxInt. simpl. lia.
Defined.
